(** * indicar/process.py: NDVI compositing and change detection

    A shallow embedding of the geoprocessing core of [indicar/process.py]
    ([get_image_bounds], [get_intersection_bounds], [Process.make_ndvi],
    [Process.change_detection], [Process.make_ref_toa]) together with the
    properties stated about it in the design document, and of [get_file],
    the attribute computation of [Process.__init__] and [Process.move_bqa]
    with further properties of the code (Part V).

    Language.  The module is Python 2 code (scanlines are [str], [print] is
    imported from [__future__]); operators and library calls are modelled with
    their Python 2 meaning.

    Numbers.  Python floats are IEEE-754 binary64 values; they are modelled
    by the primitive type [float], whose operations are specified against
    [SpecFloat] (round to nearest, ties to even).  NaN, infinities and signed
    zeros therefore behave here as they do in the interpreter.

    Rasters.  A dataset holds its size, geotransform, projection and the
    scanlines of band 1 as tuples of floats, that is, as [struct.unpack]
    delivers them.  The index raster is a Float32 raster: every sample
    written to it goes through [struct.pack('f', ...)], which narrows the
    double to IEEE binary32; the stored sample is that binary32 value
    ([pack_f]).

    Effects.  The program reads and writes raster files and calls external
    collaborators ([gdal_operations], [ref_toa], the GDAL command-line tools).
    The file system is a finite map from paths to files, every collaborator
    call and every printed line is appended to a trace, and the behaviour of
    the collaborators is a parameter [ext] of the functions that use them.
    Python exceptions are an explicit [Raise] result.  GDAL reports a file
    it cannot open or create by returning [None]: [make_ndvi] tests the
    four datasets it opens, but uses the result of [driver.Create]
    untested, so a raster that cannot be created ends in [AttributeError].

    Names and dates.  The constructor derives its file names from the scene
    identifier with [int], [datetime.date] and [strftime]; these are modelled
    on integers, with the calendar arithmetic of CPython. *)

From Stdlib Require Import ZArith Reals Lra Lia List Floats Bool String Ascii.
From stdpp Require Import base gmap strings list.

Set Warnings "-inexact-float".

Open Scope Z_scope.

(* ================================================================== *)
(** * Part I: definitions *)
(* ================================================================== *)

(** ** Binary64 values as real numbers

    [b2 e] is the real number [2^e]; [F2R m e] is the value [m * 2^e] of a
    mantissa/exponent pair as used by [SpecFloat]. *)

Definition b2 (e : Z) : R := powerRZ 2 e.

Definition F2R (m e : Z) : R := (IZR m * b2 e)%R.

Abbreviation fexp64 := (SpecFloat.fexp prec emax).

(** A shift record [mrs] at exponent [e] locates the real number [x]: the
    mantissa is the integer part of [x / 2^e] and the round and sticky bits
    say where [x] lies relative to the midpoint of the enclosing interval. *)
Definition inb (mrs : shr_record) (e : Z) (x : R) : Prop :=
  0 <= shr_m mrs /\
  match shr_r mrs, shr_s mrs with
  | false, false => x = F2R (shr_m mrs) e
  | false, true => (F2R (shr_m mrs) e < x < (IZR (shr_m mrs) + /2) * b2 e)%R
  | true, false => x = ((IZR (shr_m mrs) + /2) * b2 e)%R
  | true, true => ((IZR (shr_m mrs) + /2) * b2 e < x < F2R (shr_m mrs + 1) e)%R
  end.

Definition loc_ok (m : Z) (l : location) (e : Z) (x : R) : Prop :=
  inb (shr_record_of_loc m l) e x.

(** Canonical binary64 representation: the exponent is the one the format
    prescribes for the magnitude of the number. *)
Definition canon (m : positive) (e : Z) : Prop :=
  fexp64 (Zpos (digits2_pos m) + e) = e.

(** A float that is a non-negative real number (neither NaN nor infinite). *)
Definition finite_nonneg (x : float) : Prop :=
  (0 <=? x)%float = true /\ (x <? infinity)%float = true.

(** A float that is a number (anything but NaN): [x == x] in Python. *)
Definition is_number (x : float) : Prop := (x =? x)%float = true.

(** ** Python values, exceptions and control flow *)

(** The exceptions the modelled code can raise. *)
Inductive exn : Type :=
| AttributeError                (* attribute access on [None] (a dataset that did not open) *)
| IndexError                    (* tuple index out of range *)
| RasterReadError               (* a scanline requested outside the band *)
| CollaboratorError (name : string). (* raised inside an external collaborator *)

Inductive outcome (A : Type) : Type :=
| Ok (a : A)
| Raise (e : exn).

Arguments Ok {A} a.
Arguments Raise {A} e.

#[global] Instance outcome_ret : MRet outcome := fun A a => Ok a.

#[global] Instance outcome_bind : MBind outcome := fun A B f m =>
  match m with
  | Ok a => f a
  | Raise e => Raise e
  end.

(** [int] to [float] conversion as done by mixed arithmetic and comparison;
    exact below [2^53], which covers raster sizes and quality codes. *)
Definition float_of_int (n : Z) : float := of_uint63 (Uint63.of_Z n).

(** [struct.pack('f', x)] as the Float32 raster stores it and a later read
    returns it: the double [x] converted to IEEE binary32 (a C cast in
    native mode: round to nearest, ties to even, overflow to infinity),
    seen again as a double.  NaN, infinities and zeros are kept. *)
Definition prec32 : Z := 24.
Definition emax32 : Z := 128.

Definition pack_f (x : float) : float :=
  match Prim2SF x with
  | S754_finite s m e => SF2Prim (binary_round prec32 emax32 s m e)
  | _ => x
  end.

(** [x in lst] for a float [x] and a list of ints: some element is [==] to [x]. *)
Definition py_in (x : float) (lst : list Z) : bool :=
  existsb (fun c => (x =? float_of_int c)%float) lst.

(** [t[i]] on a tuple. *)
Definition py_index {A : Type} (t : list A) (i : nat) : outcome A :=
  match t !! i with
  | Some x => Ok x
  | None => Raise IndexError
  end.

(** [lst.sort()] on a two-element list of floats: the list is reversed
    exactly when its second element is [<] its first one. *)
Definition py_sort2 (x y : float) : list float :=
  if (y <? x)%float then [y; x] else [x; y].

(** [==] on tuples of two floats, on pairs of such tuples, and [!=]. *)
Definition pair_eq (a b : float * float) : bool :=
  (fst a =? fst b)%float && (snd a =? snd b)%float.

Definition bounds_eq (a b : (float * float) * (float * float)) : bool :=
  pair_eq (fst a) (fst b) && pair_eq (snd a) (snd b).

Definition bounds_ne (a b : (float * float) * (float * float)) : bool :=
  negb (bounds_eq a b).

(** [==] on lists of floats. *)
Fixpoint py_list_eq (a b : list float) : bool :=
  match a, b with
  | [], [] => true
  | x :: a', y :: b' => (x =? y)%float && py_list_eq a' b'
  | _, _ => false
  end.

(** [os.path.join] of two components (posixpath). *)
Definition os_path_join (a b : string) : string :=
  if String.prefix "/" b then b
  else if (String.eqb a EmptyString
           || String.eqb (String.substring (String.length a - 1) 1 a) "/")%bool
       then a +:+ b
       else a +:+ "/" +:+ b.

(** The one-character string holding a double quote. *)
Definition dquote : string := String (Ascii.ascii_of_nat 34) EmptyString.

(** ** Rasters, files and the world *)

(** A geotransform is the six-tuple returned by [GetGeoTransform]. *)
Definition geotransform : Type := float * float * float * float * float * float.

(** [gt[i]] for the constant indices the code uses. *)
Definition gt_item (gt : geotransform) (i : nat) : float :=
  let '(g0, g1, g2, g3, g4, g5) := gt in
  match i with
  | 0%nat => g0
  | 1%nat => g1
  | 2%nat => g2
  | 3%nat => g3
  | 4%nat => g4
  | _ => g5
  end.

(** A single-band dataset; [pixels] holds the scanlines of band 1 as read
    with [GDT_Float32] and unpacked with [struct.unpack]. *)
Record Dataset : Type := {
  RasterXSize : nat;
  RasterYSize : nat;
  GeoTransform : geotransform;
  Projection : string;
  pixels : list (list float)
}.

(** Datasets are rectangular: [RasterYSize] scanlines of [RasterXSize] samples. *)
Definition wf_dataset (ds : Dataset) : Prop :=
  length (pixels ds) = RasterYSize ds /\
  Forall (fun row => length row = RasterXSize ds) (pixels ds).

Inductive file : Type :=
| RasterFile (ds : Dataset)
| OtherFile                     (* any file GDAL cannot open *)
| LockedFile.                   (* a file that can be neither read nor replaced *)

(** What the program does to its environment, in order. *)
Inductive effect : Type :=
| EPrint (msg : string)
| ECall (argv : list string)                                   (* subprocess.call *)
| EWarp (src : string) (bounds : list float) (dst : string)    (* gdal_operations.warp_image *)
| ESubtract (img1 img2 dst : string)                            (* gdal_operations.subtract *)
| EMask (src : string) (threshold : float) (dst : string)      (* gdal_operations.mask_image *)
| ERefToa (mtl : string) (bands : list string) (outname outpath : string). (* ref_toa.Landsat8 *)

Record world : Type := {
  files : gmap string file;
  trace : list effect
}.

(** Behaviour of the external collaborators: given the call and the file
    system, an outcome and the file system they leave behind. *)
Definition collaborators : Type :=
  effect -> gmap string file -> outcome unit * gmap string file.

(** Collaborators that always return normally and touch no file. *)
Definition ext_ok : collaborators := fun _ fs => (Ok tt, fs).

(** The state-and-exception monad of the program. *)
Definition M (A : Type) : Type := world -> outcome A * world.

#[global] Instance M_ret : MRet M := fun A a w => (Ok a, w).

#[global] Instance M_bind : MBind M := fun A B f m w =>
  match m w with
  | (Ok a, w') => f a w'
  | (Raise e, w') => (Raise e, w')
  end.

Definition raise {A : Type} (e : exn) : M A := fun w => (Raise e, w).

Definition lift {A : Type} (o : outcome A) : M A := fun w => (o, w).

Definition print (msg : string) : M unit := fun w =>
  (Ok tt, {| files := files w; trace := trace w ++ [EPrint msg] |}).

(** Call a collaborator: the call is recorded, then [ext] decides. *)
Definition invoke (ext : collaborators) (e : effect) : M unit := fun w =>
  let '(r, fs) := ext e (files w) in
  (r, {| files := fs; trace := trace w ++ [e] |}).

(** Run a list of collaborator calls in order, stopping at the first raise. *)
Fixpoint run_steps (ext : collaborators) (steps : list effect) : M unit :=
  match steps with
  | [] => mret tt
  | e :: rest => invoke ext e;; run_steps ext rest
  end.

(** [os.path.isfile]. *)
Definition isfile (path : string) : M bool := fun w =>
  (Ok (bool_decide (is_Some (files w !! path))), w).

(** [gdal.Open(path, GA_ReadOnly)]: [None] unless the path is a raster. *)
Definition open_dataset (fs : gmap string file) (path : string) : option Dataset :=
  match fs !! path with
  | Some (RasterFile ds) => Some ds
  | _ => None
  end.

Definition gdal_Open (path : string) : M (option Dataset) := fun w =>
  (Ok (open_dataset (files w) path), w).

(** [band.ReadRaster(0, line, XSize, 1, XSize, 1, GDT_Float32)] followed by
    [struct.unpack]: the scanline as a tuple of floats. *)
Definition ReadRaster (band : Dataset) (line : nat) : outcome (list float) :=
  match pixels band !! line with
  | Some row => Ok row
  | None => Raise RasterReadError
  end.

(** Apply [f] to the dataset stored at [path] (a handle obtained from
    [driver.Create]). *)
Definition update_dataset (path : string) (f : Dataset -> Dataset) : M unit := fun w =>
  match files w !! path with
  | Some (RasterFile ds) =>
      (Ok tt, {| files := <[path := RasterFile (f ds)]> (files w); trace := trace w |})
  | _ => (Ok tt, w)
  end.

(** A raster can be created at [path] unless a file that cannot be
    replaced is in the way. *)
Definition can_create (fs : gmap string file) (path : string) : Prop :=
  fs !! path <> Some LockedFile.

(** [driver.Create(path, xsize, ysize, 1, GDT_Float32)]: a zero-filled raster
    with GDAL's default geotransform and no projection, replacing what was
    at [path]; the handle of the new dataset is its path.  When the file
    cannot be created GDAL returns [None] and nothing changes. *)
Definition driver_Create (path : string) (xsize ysize : nat) : M (option string) := fun w =>
  match files w !! path with
  | Some LockedFile => (Ok None, w)
  | _ =>
      (Ok (Some path),
       {| files := <[path := RasterFile
                       {| RasterXSize := xsize; RasterYSize := ysize;
                          GeoTransform := (0, 1, 0, 0, 0, 1)%float;
                          Projection := EmptyString;
                          pixels := replicate ysize (replicate xsize 0%float) |}]> (files w);
          trace := trace w |})
  end.

Definition set_geotransform (gt : geotransform) (ds : Dataset) : Dataset :=
  {| RasterXSize := RasterXSize ds; RasterYSize := RasterYSize ds;
     GeoTransform := gt; Projection := Projection ds; pixels := pixels ds |}.

Definition set_projection (proj : string) (ds : Dataset) : Dataset :=
  {| RasterXSize := RasterXSize ds; RasterYSize := RasterYSize ds;
     GeoTransform := GeoTransform ds; Projection := proj; pixels := pixels ds |}.

Definition set_pixels (px : list (list float)) (ds : Dataset) : Dataset :=
  {| RasterXSize := RasterXSize ds; RasterYSize := RasterYSize ds;
     GeoTransform := GeoTransform ds; Projection := Projection ds; pixels := px |}.

Definition SetGeoTransform (path : string) (gt : geotransform) : M unit :=
  update_dataset path (set_geotransform gt).

Definition SetProjection (path : string) (proj : string) : M unit :=
  update_dataset path (set_projection proj).

(** [GetRasterBand(1).WriteRaster(0, line, xsize, 1, data, ...)]. *)
Definition WriteRaster (path : string) (line : nat) (data : list float) : M unit :=
  update_dataset path (fun ds => set_pixels (<[line := data]> (pixels ds)) ds).

(** ** The module-level helpers *)

(** [get_image_bounds(image_path)]: lower-left and upper-right corners. *)
Definition get_image_bounds (image_path : string)
  : M ((float * float) * (float * float)) :=
  ds ← gdal_Open image_path;
  match ds with
  | None => raise AttributeError
  | Some ds =>
      let width := float_of_int (Z.of_nat (RasterXSize ds)) in
      let height := float_of_int (Z.of_nat (RasterYSize ds)) in
      let gt := GeoTransform ds in
      let minx := gt_item gt 0 in
      let miny := (gt_item gt 3 + width * gt_item gt 4 + height * gt_item gt 5)%float in
      let maxx := (gt_item gt 0 + width * gt_item gt 1 + height * gt_item gt 2)%float in
      let maxy := gt_item gt 3 in
      mret ((minx, miny), (maxx, maxy))
  end.

(** [get_intersection_bounds(image1, image2)]. *)
Definition get_intersection_bounds (image1 image2 : string) : M (list float) :=
  img1_bounds ← get_image_bounds image1;
  img2_bounds ← get_image_bounds image2;
  let minx := py_sort2 (fst (fst img1_bounds)) (fst (fst img2_bounds)) in
  let miny := py_sort2 (snd (fst img1_bounds)) (snd (fst img2_bounds)) in
  let maxx := py_sort2 (fst (snd img1_bounds)) (fst (snd img2_bounds)) in
  let maxy := py_sort2 (snd (snd img1_bounds)) (snd (snd img2_bounds)) in
  lift (a ← py_index minx 1; b ← py_index miny 1;
        c ← py_index maxx 0; d ← py_index maxy 0;
        mret [a; b; c; d]).

(** ** The Process class *)

(** The attributes of a [Process] object that the modelled methods read. *)
Record Process : Type := {
  image : string;
  new_name : string;
  last_image : string;
  src_image_path : string;
  delivery_path : string;
  b4 : string;
  b5 : string;
  b6 : string;
  b4_toa : string;
  b5_toa : string;
  b6_toa : string;
  bqa : string;
  mtl : string;
  ndvi : string
}.

(** [Process.make_ref_toa]. *)
Definition make_ref_toa (ext : collaborators) (self : Process) : M unit :=
  found ← isfile (mtl self);
  if found : bool
  then invoke ext (ERefToa (mtl self) [b4 self; b5 self; b6 self] "_toa.TIF"
                           (src_image_path self))
  else print "MTL file not found".

(** The quality codes that force a zero index. *)
Definition bqa_values : list Z :=
  [61440; 59424; 57344; 56320; 53248; 52256; 52224;
   49184; 49152; 48128; 45056; 43040; 39936; 36896; 36864; 32768;
   31744; 28672].

(** Body of the pixel loop of [make_ndvi] at index [i]: the value of the
    variable [ndvi] handed to [struct.pack('f', ndvi)]; the integer [0]
    packs as [0.0]. *)
Definition ndvi_at (red_tuple nir_tuple b6_tuple bqa_tuple : list float) (i : nat)
  : outcome float :=
  q ← py_index bqa_tuple i;
  if py_in q bqa_values then mret 0%float
  else
    g ← py_index b6_tuple i;
    if (g <? 0.1)%float then mret 0%float
    else
      n1 ← py_index nir_tuple i;
      r1 ← py_index red_tuple i;
      let ndvi_lower := (n1 + r1)%float in
      n2 ← py_index nir_tuple i;
      r2 ← py_index red_tuple i;
      let ndvi_upper := (n2 - r2)%float in
      if (ndvi_lower =? 0)%float then mret 0%float
      else mret (ndvi_upper / ndvi_lower)%float.

(** [for i in range(len(red_tuple))], accumulating in [outputLine] the
    Float32 encoding [struct.pack('f', ndvi)] of each value. *)
Fixpoint pixel_loop (red_tuple nir_tuple b6_tuple bqa_tuple : list float)
    (indices : list nat) (outputLine : list float) : outcome (list float) :=
  match indices with
  | [] => mret outputLine
  | i :: rest =>
      v ← ndvi_at red_tuple nir_tuple b6_tuple bqa_tuple i;
      pixel_loop red_tuple nir_tuple b6_tuple bqa_tuple rest (outputLine ++ [pack_f v])
  end.

(** [for line in range(numLines)]. *)
Fixpoint line_loop (red_band nir_band b6_band bqa_band : Dataset) (out : string)
    (lines : list nat) : M unit :=
  match lines with
  | [] => mret tt
  | line :: rest =>
      red_tuple ← lift (ReadRaster red_band line);
      nir_tuple ← lift (ReadRaster nir_band line);
      b6_tuple ← lift (ReadRaster b6_band line);
      bqa_tuple ← lift (ReadRaster bqa_band line);
      outputLine ← lift (pixel_loop red_tuple nir_tuple b6_tuple bqa_tuple
                           (seq 0 (length red_tuple)) []);
      WriteRaster out line outputLine;;
      line_loop red_band nir_band b6_band bqa_band out rest
  end.

(** [Process.make_ndvi]. *)
Definition make_ndvi (ext : collaborators) (self : Process) : M unit :=
  make_ref_toa ext self;;
  o4 ← gdal_Open (b4_toa self);
  o5 ← gdal_Open (b5_toa self);
  o6 ← gdal_Open (b6_toa self);
  oqa ← gdal_Open (bqa self);
  match o4, o5, o6, oqa with
  | Some red_band, Some nir_band, Some b6_band, Some bqa_band =>
      let numLines := RasterYSize red_band in
      outDataset ← driver_Create (ndvi self) (RasterXSize red_band) (RasterYSize red_band);
      match outDataset with
      | None => raise AttributeError
      | Some out =>
          SetGeoTransform out (GeoTransform red_band);;
          SetProjection out (Projection red_band);;
          line_loop red_band nir_band b6_band bqa_band out (seq 0 numLines);;
          print ("NDVI Created in " +:+ ndvi self)
      end
  | _, _, _, _ => print "Some of the datasets could not be opened"
  end.

(** The threshold [change_detection] hands to [mask_image]. *)
Definition change_threshold : float := (-0.08)%float.

(** Paths local to [change_detection]. *)
Definition ndvi_warp (self : Process) : string :=
  os_path_join (src_image_path self) (new_name self +:+ "_ndvi_warp.tif").
Definition last_ndvi (self : Process) : string :=
  os_path_join (delivery_path self) (last_image self +:+ "_ndvi.tif").
Definition last_ndvi_warp (self : Process) : string :=
  os_path_join (src_image_path self) (last_image self +:+ "_ndvi_warp.tif").
Definition changes (self : Process) : string :=
  os_path_join (src_image_path self) (new_name self +:+ "_changes.tif").
Definition changes_mask (self : Process) : string :=
  os_path_join (src_image_path self) (new_name self +:+ "_changes_mask.tif").
Definition sieve (self : Process) : string :=
  os_path_join (src_image_path self) (new_name self +:+ "_sieve.tif").
Definition detection_shp (self : Process) : string :=
  os_path_join (src_image_path self) (new_name self +:+ "_detection.shp").
Definition detection_geojson (self : Process) : string :=
  os_path_join (delivery_path self) (new_name self +:+ "_detection.geojson").

(** The statements of [change_detection] after the subtraction. *)
Definition after_subtract (self : Process) : list effect :=
  [ EMask (changes self) change_threshold (changes_mask self);
    ECall ["gdal_sieve.py"; "-st"; "33"; changes_mask self; sieve self];
    ECall ["gdal_polygonize.py"; sieve self; "-f"; "ESRI Shapefile"; detection_shp self];
    ECall ["ogr2ogr"; "-where"; dquote +:+ "DN" +:+ dquote +:+ "=1"; "-t_srs"; "EPSG:4674"; "-f"; "GeoJSON";
           detection_geojson self; detection_shp self] ].

(** [Process.change_detection]. *)
Definition change_detection (ext : collaborators) (self : Process) : M unit :=
  here ← isfile (ndvi self);
  there ← (if here : bool then isfile (last_ndvi self) else mret false);
  if there : bool then
    cur ← get_image_bounds (ndvi self);
    prev ← get_image_bounds (last_ndvi self);
    (if bounds_ne cur prev then
       bounds ← get_intersection_bounds (ndvi self) (last_ndvi self);
       invoke ext (EWarp (ndvi self) bounds (ndvi_warp self));;
       invoke ext (EWarp (last_ndvi self) bounds (last_ndvi_warp self));;
       invoke ext (ESubtract (ndvi_warp self) (last_ndvi_warp self) (changes self))
     else
       invoke ext (ESubtract (ndvi self) (last_ndvi self) (changes self)));;
    run_steps ext (after_subtract self);;
    print ("Change detection created in " +:+ detection_geojson self)
  else
    print "Change detection was not executed because some NDVI image is missing.".

(** ** The vocabulary of the design document *)

(** An extent (minX, minY, maxX, maxY). *)
Record Extent : Type := {
  minX : float;
  minY : float;
  maxX : float;
  maxY : float
}.

(** The pair of corners returned by [get_image_bounds], read as an extent. *)
Definition extent_of_bounds (b : (float * float) * (float * float)) : Extent :=
  {| minX := fst (fst b); minY := snd (fst b); maxX := fst (snd b); maxY := snd (snd b) |}.

(** The list returned by [get_intersection_bounds], read as an extent. *)
Definition extent_of_list (l : list float) : option Extent :=
  match l with
  | [a; b; c; d] => Some {| minX := a; minY := b; maxX := c; maxY := d |}
  | _ => None
  end.

(** extentOf, as the document derives it from the geotransform
    (originX, pixelW, rotX, originY, rotY, pixelH), width and height. *)
Definition spec_extentOf (originX pixelW rotX originY rotY pixelH : float)
    (width height : nat) : Extent :=
  let w := float_of_int (Z.of_nat width) in
  let h := float_of_int (Z.of_nat height) in
  {| minX := originX;
     minY := (originY + w * rotY + h * pixelH)%float;
     maxX := (originX + w * pixelW + h * rotX)%float;
     maxY := originY |}.

(** The extent of a dataset, computed as [get_image_bounds] does. *)
Definition extent_of_dataset (ds : Dataset) : Extent :=
  let '(g0, g1, g2, g3, g4, g5) := GeoTransform ds in
  spec_extentOf g0 g1 g2 g3 g4 g5 (RasterXSize ds) (RasterYSize ds).

(** Exact equality of extents: all four bounds are [==]. *)
Definition extent_eq (a b : Extent) : bool :=
  (minX a =? minX b)%float && (minY a =? minY b)%float &&
  (maxX a =? maxX b)%float && (maxY a =? maxY b)%float.

(** Every bound of the extent is a number. *)
Definition extent_numbers (a : Extent) : Prop :=
  is_number (minX a) /\ is_number (minY a) /\ is_number (maxX a) /\ is_number (maxY a).

(** The data-model invariant of a valid extent. *)
Definition valid_extent (a : Extent) : Prop :=
  (minX a <? maxX a)%float = true /\ (minY a <? maxY a)%float = true.

(** A degenerate extent: minX >= maxX or minY >= maxY. *)
Definition degenerate (a : Extent) : bool :=
  (maxX a <=? minX a)%float || (maxY a <=? minY a)%float.

(** Python's [max(x, y)] and [min(x, y)] on floats. *)
Definition py_max (x y : float) : float := if (x <? y)%float then y else x.
Definition py_min (x y : float) : float := if (y <? x)%float then y else x.

(** intersection(extentA, extentB), in the document's words. *)
Definition spec_intersection (a b : Extent) : Extent :=
  {| minX := py_max (minX a) (minX b);
     minY := py_max (minY a) (minY b);
     maxX := py_min (maxX a) (maxX b);
     maxY := py_min (maxY a) (maxY b) |}.

(** The validity threshold and the invalid quality codes of computeIndex. *)
Definition minValidC : float := 0.1%float.
Definition invalidCodes : list Z := bqa_values.

(** The per-pixel rule of computeIndex, in the document's words and order:
    quality mask, then validity gate, then the guarded ratio. *)
Definition spec_index (quality bandC bandA bandB : float) : float :=
  if py_in quality invalidCodes then 0%float
  else if (bandC <? minValidC)%float then 0%float
  else
    let numerator := (bandA - bandB)%float in
    let denominator := (bandA + bandB)%float in
    if (denominator =? 0)%float then 0%float
    else (numerator / denominator)%float.

(** A value in the closed interval [-1, 1]. *)
Definition in_unit_range (v : float) : bool :=
  ((-1 <=? v)%float && (v <=? 1)%float)%bool.

(** The sample of band 1 at (line, column), if inside the raster. *)
Definition sample (ds : Dataset) (line i : nat) : option float :=
  row ← pixels ds !! line; row !! i.

Definition px (ds : Dataset) (line i : nat) : float :=
  default 0%float (sample ds line i).

(** The index raster over the grid of the red band: the per-pixel rule
    applied to the samples of the four bands at the same position, each
    value stored as Float32. *)
Definition index_line (red_band nir_band b6_band bqa_band : Dataset) (line : nat)
  : list float :=
  map (fun i => pack_f (spec_index (px bqa_band line i) (px b6_band line i)
                                   (px nir_band line i) (px red_band line i)))
      (seq 0 (RasterXSize red_band)).

Definition index_pixels (red_band nir_band b6_band bqa_band : Dataset)
  : list (list float) :=
  map (index_line red_band nir_band b6_band bqa_band) (seq 0 (RasterYSize red_band)).

(** One raster covers the grid of another: at least as wide and as high. *)
Definition covers (big small : Dataset) : Prop :=
  (RasterXSize small <= RasterXSize big)%nat /\
  (RasterYSize small <= RasterYSize big)%nat.

(** Two rasters share a grid: same width and height. *)
Definition same_grid (a b : Dataset) : Prop :=
  RasterXSize a = RasterXSize b /\ RasterYSize a = RasterYSize b.

(** Modelled from the spec: [gdal_operations.mask_image] is not among the
    sources; the design document (Thresholding) and the docstring of
    [change_detection] give its rule: a pixel of the mask is 1 if the delta
    is less than the threshold and 0 otherwise. *)
Definition mask_pixel (threshold delta : float) : Z :=
  if (delta <? threshold)%float then 1 else 0.

Definition mask_image_pixels (threshold : float) (delta : list (list float))
  : list (list Z) :=
  map (map (mask_pixel threshold)) delta.

(** The collaborator calls of [change_detection] when the two extents are
    equal, and when they differ (with the bounds handed to [warp_image]). *)
Definition direct_plan (self : Process) : list effect :=
  ESubtract (ndvi self) (last_ndvi self) (changes self) :: after_subtract self.

Definition warp_plan (self : Process) (bounds : list float) : list effect :=
  EWarp (ndvi self) bounds (ndvi_warp self)
  :: EWarp (last_ndvi self) bounds (last_ndvi_warp self)
  :: ESubtract (ndvi_warp self) (last_ndvi_warp self) (changes self)
  :: after_subtract self.

Definition is_warp (e : effect) : bool :=
  match e with
  | EWarp _ _ _ => true
  | _ => false
  end.

(** The list [get_intersection_bounds] builds from two extents. *)
Definition intersection_list (a b : Extent) : list float :=
  [ py_max (minX a) (minX b); py_max (minY a) (minY b);
    py_min (maxX a) (maxX b); py_min (maxY a) (maxY b) ].

(** The corners [get_image_bounds] returns for a dataset. *)
Definition bounds_of_dataset (ds : Dataset) : (float * float) * (float * float) :=
  let e := extent_of_dataset ds in ((minX e, minY e), (maxX e, maxY e)).

(** The list [get_intersection_bounds] returns for two images with the
    given extents: second element of the sorted minima, first element of
    the sorted maxima. *)
Definition intersection_bounds (a b : Extent) : list float :=
  [ if (minX b <? minX a)%float then minX a else minX b;
    if (minY b <? minY a)%float then minY a else minY b;
    if (maxX b <? maxX a)%float then maxX b else maxX a;
    if (maxY b <? maxY a)%float then maxY b else maxY a ].

(** Run a plan of collaborator calls, then report the result file. *)
Definition run_plan (ext : collaborators) (self : Process) (plan : list effect) : M unit :=
  run_steps ext plan;;
  print ("Change detection created in " +:+ detection_geojson self).

(** The world after a line has been printed. *)
Definition printed (msg : string) (w : world) : world :=
  {| files := files w; trace := trace w ++ [EPrint msg] |}.

(** The index raster [make_ndvi] writes for the four opened bands. *)
Definition index_raster (red_band nir_band b6_band bqa_band : Dataset) : Dataset :=
  {| RasterXSize := RasterXSize red_band;
     RasterYSize := RasterYSize red_band;
     GeoTransform := GeoTransform red_band;
     Projection := Projection red_band;
     pixels := index_pixels red_band nir_band b6_band bqa_band |}.

(** ** Preconditions of the two methods *)

(** Calibration has returned in world [w1], the four rasters of
    [make_ndvi] open there as rectangular datasets and the index raster can
    be created. *)
Definition bands_open (ext : collaborators) (self : Process) (w w1 : world)
    (red_band nir_band b6_band bqa_band : Dataset) : Prop :=
  make_ref_toa ext self w = (Ok tt, w1) /\
  open_dataset (files w1) (b4_toa self) = Some red_band /\
  open_dataset (files w1) (b5_toa self) = Some nir_band /\
  open_dataset (files w1) (b6_toa self) = Some b6_band /\
  open_dataset (files w1) (bqa self) = Some bqa_band /\
  wf_dataset red_band /\ wf_dataset nir_band /\ wf_dataset b6_band /\ wf_dataset bqa_band /\
  can_create (files w1) (ndvi self).

(** Both index rasters of [change_detection] are present and open. *)
Definition indices_open (self : Process) (w : world) (current prior : Dataset) : Prop :=
  open_dataset (files w) (ndvi self) = Some current /\
  open_dataset (files w) (last_ndvi self) = Some prior.

(** Collaborators that never raise. *)
Definition returns_normally (ext : collaborators) : Prop :=
  forall e fs, fst (ext e fs) = Ok tt.

(** The events a run appended to the trace of its initial world. *)
Definition new_events (w : world) (result : outcome unit * world) : list effect :=
  drop (length (trace w)) (trace (snd result)).

(** ** Sample scenes *)

Definition ex_self : Process := {|
  image := "LC82200682014017LGN00";
  new_name := "LC8_220-068_20140117_LGN00";
  last_image := "LC8_220-068_20140101_LGN00";
  src_image_path := "/ls/temp/LC82200682014017LGN00";
  delivery_path := "/ls/processed/220/068";
  b4 := "/ls/temp/LC82200682014017LGN00/LC82200682014017LGN00_B4.TIF";
  b5 := "/ls/temp/LC82200682014017LGN00/LC82200682014017LGN00_B5.TIF";
  b6 := "/ls/temp/LC82200682014017LGN00/LC82200682014017LGN00_B6.TIF";
  b4_toa := "/ls/temp/LC82200682014017LGN00/LC82200682014017LGN00_B4_toa.TIF";
  b5_toa := "/ls/temp/LC82200682014017LGN00/LC82200682014017LGN00_B5_toa.TIF";
  b6_toa := "/ls/temp/LC82200682014017LGN00/LC82200682014017LGN00_B6_toa.TIF";
  bqa := "/ls/temp/LC82200682014017LGN00/LC82200682014017LGN00_BQA.TIF";
  mtl := "/ls/temp/LC82200682014017LGN00/LC82200682014017LGN00_MTL.txt";
  ndvi := "/ls/processed/220/068/LC8_220-068_20140117_LGN00_ndvi.tif"
|}.

Definition ex_gt : geotransform := (100, 30, 0, 200, 0, -30)%float.

Definition ex_raster (xsize ysize : nat) (gt : geotransform) (rows : list (list float))
  : Dataset :=
  {| RasterXSize := xsize; RasterYSize := ysize; GeoTransform := gt;
     Projection := "EPSG:32622"; pixels := rows |}.

(** One scanline of two pixels: a clear vegetated pixel and a pixel whose
    B6 reflectance is below the validity threshold. *)
Definition ex_red : Dataset := ex_raster 2 1 ex_gt [[0.125; 0.25]%float].
Definition ex_nir : Dataset := ex_raster 2 1 ex_gt [[0.5; 0.25]%float].
Definition ex_b6 : Dataset := ex_raster 2 1 ex_gt [[0.25; 0.0625]%float].
Definition ex_bqa : Dataset := ex_raster 2 1 ex_gt [[20480; 20480]%float].

(** A near-infrared band narrower than the red band (one column). *)
Definition ex_nir_narrow : Dataset := ex_raster 1 1 ex_gt [[0.5]%float].

(** A near-infrared band whose first sample is +infinity. *)
Definition ex_nir_inf : Dataset := ex_raster 2 1 ex_gt [[infinity; 0.25]%float].

(** A near-infrared band on a larger grid (three columns, two lines). *)
Definition ex_nir_wide : Dataset :=
  ex_raster 3 2 ex_gt [[0.5; 0.25; 0.75]%float; [0.125; 0.25; 0.375]%float].

Definition ex_files (red_band nir_band b6_band bqa_band : Dataset) : world :=
  {| files := <[b4_toa ex_self := RasterFile red_band]>
              (<[b5_toa ex_self := RasterFile nir_band]>
              (<[b6_toa ex_self := RasterFile b6_band]>
              (<[bqa ex_self := RasterFile bqa_band]> ∅)));
     trace := [] |}.

Definition ex_bands (nir_band : Dataset) : world :=
  ex_files ex_red nir_band ex_b6 ex_bqa.

(** A B6 band whose two samples pass the validity gate. *)
Definition ex_b6_clear : Dataset := ex_raster 2 1 ex_gt [[0.25; 0.25]%float].


(** Index rasters of one pixel of 10 by 10 map units. *)
Definition ex_index (originX : float) (v : float) : Dataset :=
  ex_raster 1 1 (originX, 10, 0, 10, 0, -10)%float [[v]].

Definition ex_scenes (current prior : Dataset) : world :=
  {| files := <[ndvi ex_self := RasterFile current]>
              (<[last_ndvi ex_self := RasterFile prior]> ∅);
     trace := [] |}.

(** A world holding the current index only (first scene of a path/row). *)
Definition ex_first_scene : world :=
  {| files := <[ndvi ex_self := RasterFile (ex_index 0 0.5)]> ∅; trace := [] |}.

(** Check, for [fuel] consecutive integer codes from [start] on, that the
    float comparison of [py_in] agrees with integer membership. *)
Fixpoint check_codes (fuel : nat) (start : Z) : bool :=
  match fuel with
  | O => true
  | S fuel' =>
      Bool.eqb (py_in (float_of_int start) bqa_values) (existsb (Z.eqb start) bqa_values)
      && check_codes fuel' (start + 1)
  end.

(** ** The remaining helpers, the constructor and [move_bqa] *)

(** The program is Python 2 ([print_function] from [__future__], byte
    strings concatenated with [struct.pack]): [str] is a string of bytes,
    and [int], [date] and [strftime] behave as in CPython 2.7. *)

(** [s[i:j]] and [s[i:]] for constant non-negative indices: slices are
    clipped to the string, never an error. *)
Definition py_slice (s : string) (i j : nat) : string := String.substring i (j - i) s.

Fixpoint py_slice_from (s : string) (i : nat) : string :=
  match i, s with
  | O, _ => s
  | S _, EmptyString => EmptyString
  | S i', String _ rest => py_slice_from rest i'
  end.

(** [s.split(sep)[0]]: the part of [s] before the first separator. *)
Fixpoint py_split_head (sep : ascii) (s : string) : string :=
  match s with
  | EmptyString => EmptyString
  | String c rest => if Ascii.eqb c sep then EmptyString else String c (py_split_head sep rest)
  end.

(** [s.rfind(c)]: the highest index of [c] in [s], or -1. *)
Fixpoint rfind_from (c : ascii) (s : string) (pos last : Z) : Z :=
  match s with
  | EmptyString => last
  | String d rest => rfind_from c rest (pos + 1) (if Ascii.eqb d c then pos else last)
  end.

Definition py_rfind (s : string) (c : ascii) : Z := rfind_from c s 0 (-1).

(** [get_file(path)], that is [os.path.basename] (posixpath):
    [i = p.rfind('/') + 1; return p[i:]]. *)
Definition get_file (path : string) : string :=
  py_slice_from path (Z.to_nat (py_rfind path "/" + 1)).

(** [c in s] for a character. *)
Fixpoint has_char (c : ascii) (s : string) : bool :=
  match s with
  | EmptyString => false
  | String d rest => Ascii.eqb d c || has_char c rest
  end.

(** The exceptions the constructor can raise. *)
Inductive init_error : Type :=
| ValueError                    (* [int()] of a non-number, year out of range, year before 1900 *)
| OverflowError.                (* date arithmetic leaving the supported range *)

Definition is_space (c : ascii) : bool :=
  let n := nat_of_ascii c in ((n =? 32) || ((9 <=? n) && (n <=? 13)))%nat.

Definition is_digit (c : ascii) : bool :=
  let n := nat_of_ascii c in ((48 <=? n) && (n <=? 57))%nat.

Fixpoint lstrip (s : string) : string :=
  match s with
  | EmptyString => EmptyString
  | String c rest => if is_space c then lstrip rest else s
  end.

(** Read decimal digits from the front of [s]: the number read so far and
    the unread rest. *)
Fixpoint read_digits (s : string) (acc : Z) : Z * string :=
  match s with
  | EmptyString => (acc, EmptyString)
  | String c rest =>
      if is_digit c then read_digits rest (10 * acc + Z.of_nat (nat_of_ascii c - 48))
      else (acc, s)
  end.

(** [int(s)] for a [str]: optional surrounding whitespace, an optional
    sign, at least one decimal digit; anything else is a [ValueError]. *)
Definition py_int (s : string) : option Z :=
  let s1 := lstrip s in
  let '(negative, s2) :=
    match s1 with
    | String "-" rest => (true, rest)
    | String "+" rest => (false, rest)
    | _ => (false, s1)
    end in
  match s2 with
  | String c _ =>
      if is_digit c then
        let '(n, rest) := read_digits s2 0 in
        match lstrip rest with
        | EmptyString => Some (if negative : bool then - n else n)
        | String _ _ => None
        end
      else None
  | EmptyString => None
  end.

(** The proleptic Gregorian calendar of [datetime.date]. *)
Definition MAXORDINAL : Z := 3652059.

Definition is_leap (year : Z) : bool :=
  (year mod 4 =? 0) && (negb (year mod 100 =? 0) || (year mod 400 =? 0)).

Definition days_before_year (year : Z) : Z :=
  let y := year - 1 in y * 365 + y / 4 - y / 100 + y / 400.

Definition days_in_month_table : list Z :=
  [0; 31; 28; 31; 30; 31; 30; 31; 31; 30; 31; 30; 31].

Definition days_before_month_table : list Z :=
  [0; 0; 31; 59; 90; 120; 151; 181; 212; 243; 273; 304; 334].

Definition days_in_month (year month : Z) : Z :=
  if (month =? 2) && is_leap year then 29
  else nth (Z.to_nat month) days_in_month_table 0.

Definition days_before_month (year month : Z) : Z :=
  nth (Z.to_nat month) days_before_month_table 0
  + (if (2 <? month) && is_leap year then 1 else 0).

Definition ymd_to_ord (year month day : Z) : Z :=
  days_before_year year + days_before_month year month + day.

(** Month and day of the day [n] (counted from 0) of a year, as the tail
    of [ord_to_ymd] computes them: an estimate of the month, corrected
    downwards when it overshoots. *)
Definition month_and_day (year n : Z) (leapyear : bool) : Z * Z :=
  let month := Z.shiftr (n + 50) 5 in
  let preceding := nth (Z.to_nat month) days_before_month_table 0
                   + (if (2 <? month) && leapyear then 1 else 0) in
  if n <? preceding
  then let month := month - 1 in
       let preceding := preceding - days_in_month year month in
       (month, n - preceding + 1)
  else (month, n - preceding + 1).

(** Year, month and day of a day number (1 is 0001-01-01). *)
Definition ord_to_ymd (ordinal : Z) : Z * Z * Z :=
  let ordinal := ordinal - 1 in
  let n400 := ordinal / 146097 in
  let n := ordinal mod 146097 in
  let n100 := n / 36524 in
  let n := n mod 36524 in
  let n4 := n / 1461 in
  let n := n mod 1461 in
  let n1 := n / 365 in
  let n := n mod 365 in
  let year := n400 * 400 + 1 + n100 * 100 + n4 * 4 + n1 in
  if (n1 =? 4) || (n100 =? 4) then (year - 1, 12, 31)
  else
    let leapyear := (n1 =? 3) && (negb (n4 =? 24) || (n100 =? 3)) in
    let '(month, day) := month_and_day year n leapyear in
    (year, month, day).

(** Zero-padded decimal fields of [strftime]. *)
Definition digit_char (d : Z) : ascii := ascii_of_nat (48 + Z.to_nat d).

Definition two_digits (n : Z) : string :=
  String (digit_char (n / 10)) (String (digit_char (n mod 10)) EmptyString).

Definition four_digits (n : Z) : string := two_digits (n / 100) +:+ two_digits (n mod 100).

(** [date.strftime('%Y%m%d')] of the date with the given day number: a
    day number outside the calendar is the [OverflowError] of the date
    addition, a year before 1900 the [ValueError] of [strftime]. *)
Definition date_string (ordinal : Z) : init_error + string :=
  if (1 <=? ordinal) && (ordinal <=? MAXORDINAL) then
    let '(y, m, d) := ord_to_ymd ordinal in
    if y <? 1900 then inl ValueError
    else inr (four_digits y +:+ two_digits m +:+ two_digits d)
  else inl OverflowError.

(** [(date(int(year), 1, 1) + timedelta(int(day) - back)).strftime('%Y%m%d')]:
    the year must parse and lie in 1..9999, then the day must parse. *)
Definition scene_date (year day : string) (back : Z) : init_error + string :=
  match py_int year with
  | None => inl ValueError
  | Some y =>
      if (1 <=? y) && (y <=? 9999) then
        match py_int day with
        | None => inl ValueError
        | Some d => date_string (ymd_to_ord y 1 1 + (d - back))
        end
      else inl ValueError
  end.

(** ["%s_%s-%s_%s_%s" % (sensor, path, row, date, suffix)]. *)
Definition scene_name (sensor lcpath lcrow date suffix : string) : string :=
  sensor +:+ "_" +:+ lcpath +:+ "-" +:+ lcrow +:+ "_" +:+ date +:+ "_" +:+ suffix.

(** The attribute assignments of [Process.__init__]: [home] is the value of
    [os.path.expanduser('~')], [base_dir] the optional argument.  The
    constructor goes on to create the two folders and to call [extract]; an
    exception raised here leaves before any of that. *)
Definition init_attributes (home zip_image : string) (base_dir : option string)
  : init_error + Process :=
  let image := py_split_head "." (get_file zip_image) in
  let lcpath := py_slice image 3 6 in
  let lcrow := py_slice image 6 9 in
  let year := py_slice image 9 13 in
  let day := py_slice image 13 16 in
  match scene_date year day 1 with
  | inl e => inl e
  | inr date =>
      let new_name := scene_name (py_slice image 0 3) lcpath lcrow date (py_slice_from image 16) in
      match scene_date year day 17 with
      | inl e => inl e
      | inr last_date =>
          let last_image :=
            scene_name (py_slice image 0 3) lcpath lcrow last_date (py_slice_from image 16) in
          let base_dir :=
            match base_dir with
            | Some (String c d) => String c d
            | _ => os_path_join home "landsat"
            end in
          let destination := os_path_join base_dir "processed" in
          let temp := os_path_join base_dir "temp" in
          let src_image_path := os_path_join temp image in
          let delivery_path := os_path_join (os_path_join destination lcpath) lcrow in
          inr {| image := image;
                 new_name := new_name;
                 last_image := last_image;
                 src_image_path := src_image_path;
                 delivery_path := delivery_path;
                 b4 := os_path_join src_image_path (image +:+ "_B4.TIF");
                 b5 := os_path_join src_image_path (image +:+ "_B5.TIF");
                 b6 := os_path_join src_image_path (image +:+ "_B6.TIF");
                 b4_toa := os_path_join src_image_path (image +:+ "_B4_toa.TIF");
                 b5_toa := os_path_join src_image_path (image +:+ "_B5_toa.TIF");
                 b6_toa := os_path_join src_image_path (image +:+ "_B6_toa.TIF");
                 bqa := os_path_join src_image_path (image +:+ "_BQA.TIF");
                 mtl := os_path_join src_image_path (image +:+ "_MTL.txt");
                 ndvi := os_path_join delivery_path (new_name +:+ "_ndvi.tif") |}
      end
  end.

(** The day number of the acquisition a scene identifier names, when its
    year and day-of-year fields are integers and the year is one that
    [date] accepts. *)
Definition scene_ordinal (image : string) : option Z :=
  match py_int (py_slice image 9 13) with
  | None => None
  | Some y =>
      if (1 <=? y) && (y <=? 9999) then
        match py_int (py_slice image 13 16) with
        | None => None
        | Some d => Some (ymd_to_ord y 1 1 + (d - 1))
        end
      else None
  end.

(** The day number of 1900-01-01, the first day [strftime] formats. *)
Definition FIRST_STRFTIME_ORDINAL : Z := 693596.

(** The path [move_bqa] renames the quality band to. *)
Definition bqa_delivered (self : Process) : string :=
  os_path_join (delivery_path self) (new_name self +:+ "_BQA.tif").

(** [Process.move_bqa]: [os.rename] moves the file and replaces a file
    already at the destination; it is taken to succeed (the destination
    folder was created by the constructor). *)
Definition move_bqa (self : Process) : M unit := fun w =>
  match files w !! bqa self with
  | Some f =>
      (Ok tt, {| files := <[bqa_delivered self := f]> (delete (bqa self) (files w));
                 trace := trace w |})
  | None => print "BQA file not found" w
  end.

(** ** Further vocabulary and sample data *)

(** One extent lies within another: every bound of [inner] is on the inner
    side of the corresponding bound of [outer]. *)
Definition extent_within (inner outer : Extent) : bool :=
  (minX outer <=? minX inner)%float && (minY outer <=? minY inner)%float &&
  (maxX inner <=? maxX outer)%float && (maxY inner <=? maxY outer)%float.

(** The scene acquired 16 days before [ex_self] on the same path and row. *)
Definition ex_prior_self : Process := {|
  image := "LC82200682014001LGN00";
  new_name := "LC8_220-068_20140101_LGN00";
  last_image := "LC8_220-068_20131216_LGN00";
  src_image_path := "/ls/temp/LC82200682014001LGN00";
  delivery_path := "/ls/processed/220/068";
  b4 := "/ls/temp/LC82200682014001LGN00/LC82200682014001LGN00_B4.TIF";
  b5 := "/ls/temp/LC82200682014001LGN00/LC82200682014001LGN00_B5.TIF";
  b6 := "/ls/temp/LC82200682014001LGN00/LC82200682014001LGN00_B6.TIF";
  b4_toa := "/ls/temp/LC82200682014001LGN00/LC82200682014001LGN00_B4_toa.TIF";
  b5_toa := "/ls/temp/LC82200682014001LGN00/LC82200682014001LGN00_B5_toa.TIF";
  b6_toa := "/ls/temp/LC82200682014001LGN00/LC82200682014001LGN00_B6_toa.TIF";
  bqa := "/ls/temp/LC82200682014001LGN00/LC82200682014001LGN00_BQA.TIF";
  mtl := "/ls/temp/LC82200682014001LGN00/LC82200682014001LGN00_MTL.txt";
  ndvi := "/ls/processed/220/068/LC8_220-068_20140101_LGN00_ndvi.tif"
|}.

(** A world in which the prior index is present but is not a raster. *)
Definition ex_unreadable_prior : world :=
  {| files := <[ndvi ex_self := RasterFile (ex_index 0 0.5)]>
              (<[last_ndvi ex_self := OtherFile]> ∅);
     trace := [] |}.

(** Collaborators whose subtraction raises, every other call returning. *)
Definition ext_subtract_fails : collaborators := fun e fs =>
  match e with
  | ESubtract _ _ _ => (Raise (CollaboratorError "subtract"), fs)
  | _ => (Ok tt, fs)
  end.

(** Red, B6 and quality bands of two scanlines; with [ex_nir] (one
    scanline) the near-infrared band is one scanline short. *)
Definition ex_red_tall : Dataset :=
  ex_raster 2 2 ex_gt [[0.125; 0.25]%float; [0.25; 0.125]%float].
Definition ex_b6_tall : Dataset :=
  ex_raster 2 2 ex_gt [[0.25; 0.0625]%float; [0.25; 0.25]%float].
Definition ex_bqa_tall : Dataset :=
  ex_raster 2 2 ex_gt [[20480; 20480]%float; [20480; 20480]%float].

Definition ex_tall_bands : world := ex_files ex_red_tall ex_nir ex_b6_tall ex_bqa_tall.



(** The four sample bands, with a file that cannot be replaced at the path
    of the index raster. *)
Definition ex_locked_index : world :=
  {| files := <[ndvi ex_self := LockedFile]> (files (ex_bands ex_nir)); trace := [] |}.

Definition ex_bands_with_prior (prior : Dataset) : world :=
  {| files := <[last_ndvi ex_self := RasterFile prior]> (files (ex_bands ex_nir));
     trace := [] |}.

(** Check, for [fuel] consecutive days of the year [year] from day [n]
    (counted from 0) on, that [month_and_day] yields a month and a day of
    that month whose position in the year is [n]. *)
Fixpoint check_year_days (year : Z) (fuel : nat) (n : Z) : bool :=
  match fuel with
  | O => true
  | S fuel' =>
      (let '(m, d) := month_and_day year n (is_leap year) in
       (days_before_month year m + d =? n + 1)
       && (1 <=? m) && (m <=? 12) && (1 <=? d) && (d <=? 31))
      && check_year_days year fuel' (n + 1)
  end.

(** ** Proof automation *)

(** Unfold the operations of the two monads. *)
Ltac munfold :=
  unfold mbind, M_bind, mret, M_ret, outcome_bind, outcome_ret, lift, raise.

(* ================================================================== *)
(** * Part II: binary64 arithmetic *)
(* ================================================================== *)

Module Binary64.

(** The facts about rounding needed below: rounding to nearest never moves
    a value across a representable number, so a difference of non-negative
    numbers is bounded by the larger one, a sum dominates each summand, and
    a quotient by a number of greater or equal magnitude is at most one. *)

Lemma b2_pos e : (0 < b2 e)%R.
Proof. apply powerRZ_lt; lra. Qed.

Lemma b2_add a b : b2 (a + b) = (b2 a * b2 b)%R.
Proof. apply powerRZ_add; lra. Qed.

Lemma b2_0 : b2 0 = 1%R.
Proof. reflexivity. Qed.

Lemma b2_1 : b2 1 = 2%R.
Proof. unfold b2; simpl; lra. Qed.

Lemma b2_succ e : b2 (e + 1) = (2 * b2 e)%R.
Proof. rewrite b2_add, b2_1; lra. Qed.

Lemma b2_nonneg_Z n : 0 <= n -> b2 n = IZR (2 ^ n).
Proof.
  intros Hn. unfold b2. rewrite <- (Z2Nat.id n Hn) at 1.
  rewrite <- pow_powerRZ. rewrite <- (Z2Nat.id n Hn) at 2.
  rewrite <- pow_IZR. reflexivity. 
Qed.

Lemma b2_le a b : a <= b -> (b2 a <= b2 b)%R.
Proof.
  intros H. replace b with (a + (b - a)) by lia.
  rewrite b2_add, (b2_nonneg_Z (b - a)) by lia.
  assert (0 < 2 ^ (b - a)) by (apply Z.pow_pos_nonneg; lia).
  assert (1 <= IZR (2 ^ (b - a)))%R by (apply IZR_le; lia).
  pose proof (b2_pos a). nra.
Qed.

Lemma b2_lt a b : a < b -> (b2 a < b2 b)%R.
Proof.
  intros H. replace b with (a + 1 + (b - a - 1)) by lia.
  rewrite b2_add, b2_succ, (b2_nonneg_Z (b - a - 1)) by lia.
  assert (0 < 2 ^ (b - a - 1)) by (apply Z.pow_pos_nonneg; lia).
  assert (1 <= IZR (2 ^ (b - a - 1)))%R by (apply IZR_le; lia).
  pose proof (b2_pos a). nra.
Qed.

Lemma b2_lt_inv a b : (b2 a < b2 b)%R -> a < b.
Proof.
  intros H. destruct (Z_lt_le_dec a b) as [|Hle]; [assumption|].
  apply b2_le in Hle. lra.
Qed.


Lemma F2R_shift m e e' : e' <= e -> F2R m e = F2R (m * 2 ^ (e - e')) e'.
Proof.
  intros H. unfold F2R. rewrite mult_IZR, <- b2_nonneg_Z by lia.
  rewrite Rmult_assoc, <- b2_add. f_equal. f_equal. lia.
Qed.

Lemma F2R_le m1 m2 e : (F2R m1 e <= F2R m2 e)%R <-> m1 <= m2.
Proof.
  unfold F2R. pose proof (b2_pos e). split; intros H1.
  - apply le_IZR. nra.
  - apply IZR_le in H1. nra.
Qed.

Lemma F2R_lt m1 m2 e : (F2R m1 e < F2R m2 e)%R <-> m1 < m2.
Proof.
  unfold F2R. pose proof (b2_pos e). split; intros H1.
  - apply lt_IZR. nra.
  - apply IZR_lt in H1. nra.
Qed.


Lemma fexp64_eq e : fexp64 e = Z.max (e - 53) (-1074).
Proof. reflexivity. Qed.

Lemma digits2_bounds p :
  2 ^ (Zpos (digits2_pos p) - 1) <= Zpos p < 2 ^ Zpos (digits2_pos p).
Proof.
  induction p as [p IH|p IH|]; cbn [digits2_pos].
  - rewrite Pos2Z.inj_succ.
    replace (Z.succ (Zpos (digits2_pos p)) - 1) with (Z.succ (Zpos (digits2_pos p) - 1)) by lia.
    rewrite !Z.pow_succ_r by lia. lia.
  - rewrite Pos2Z.inj_succ.
    replace (Z.succ (Zpos (digits2_pos p)) - 1) with (Z.succ (Zpos (digits2_pos p) - 1)) by lia.
    rewrite !Z.pow_succ_r by lia. lia.
  - cbn. lia.
Qed.

Lemma digits2_F2R p e :
  (b2 (Zpos (digits2_pos p) - 1 + e) <= F2R (Zpos p) e < b2 (Zpos (digits2_pos p) + e))%R.
Proof.
  destruct (digits2_bounds p) as [Hl Hu].
  rewrite !b2_add. unfold F2R.
  rewrite (b2_nonneg_Z (Zpos (digits2_pos p) - 1)), (b2_nonneg_Z (Zpos (digits2_pos p))) by lia.
  apply IZR_le in Hl. apply IZR_lt in Hu. pose proof (b2_pos e). split.
  - apply Rmult_le_compat_r; lra.
  - apply Rmult_lt_compat_r; lra.
Qed.

Lemma inb_bounds mrs e x :
  inb mrs e x -> (F2R (shr_m mrs) e <= x < F2R (shr_m mrs + 1) e)%R.
Proof.
  unfold inb, F2R. intros [_ H]. pose proof (b2_pos e).
  destruct (shr_r mrs), (shr_s mrs); rewrite ?plus_IZR in *; nra.
Qed.

Lemma shr_1_inb mrs e x : inb mrs e x -> inb (shr_1 mrs) (e + 1) x.
Proof.
  destruct mrs as [m r s]. unfold inb, F2R. cbn [shr_m shr_r shr_s]. intros [Hm H].
  pose proof (b2_pos e) as Hb. rewrite b2_succ.
  destruct m as [|p|p]; [| |lia].
  - cbn [shr_1 shr_m shr_r shr_s]. split; [lia|].
    destruct r, s; cbn [orb]; rewrite ?plus_IZR in *; nra.
  - destruct p as [p|p|]; cbn [shr_1 shr_m shr_r shr_s]; (split; [lia|]).
    + rewrite ?plus_IZR in *. change (IZR (Zpos p~1)) with (IZR (2 * Zpos p + 1)) in H.
      rewrite ?plus_IZR, ?mult_IZR in H.
      destruct r, s; cbn [orb]; nra.
    + rewrite ?plus_IZR in *. change (IZR (Zpos p~0)) with (IZR (2 * Zpos p)) in H.
      rewrite ?plus_IZR, ?mult_IZR in H.
      destruct r, s; cbn [orb]; nra.
    + rewrite ?plus_IZR in *.
      destruct r, s; cbn [orb]; nra.
Qed.

Lemma iter_shr_1_inb p : forall mrs e x,
  inb mrs e x -> inb (SpecFloat.iter_pos shr_1 p mrs) (e + Zpos p) x.
Proof.
  induction p as [p IH|p IH|]; intros mrs e x H; cbn [SpecFloat.iter_pos].
  - replace (e + Zpos p~1) with (e + 1 + Zpos p + Zpos p) by lia.
    apply IH, IH, shr_1_inb, H.
  - replace (e + Zpos p~0) with (e + Zpos p + Zpos p) by lia.
    apply IH, IH, H.
  - apply shr_1_inb, H.
Qed.

Lemma shr_inb mrs e n x :
  inb mrs e x ->
  inb (fst (shr mrs e n)) (snd (shr mrs e n)) x /\
  snd (shr mrs e n) = Z.max e (e + n).
Proof.
  intros H. destruct n as [|p|p]; cbn [shr fst snd].
  - split; [assumption|lia].
  - split; [apply iter_shr_1_inb, H|lia].
  - split; [assumption|lia].
Qed.


Lemma loc_of_shr_record_of_loc m l : loc_of_shr_record (shr_record_of_loc m l) = l.
Proof. destruct l as [|[]]; reflexivity. Qed.

Lemma shr_m_record_of_loc m l : shr_m (shr_record_of_loc m l) = m.
Proof. destruct l as [|[]]; reflexivity. Qed.

Lemma shr_fexp_inb m e l x :
  loc_ok m l e x ->
  inb (fst (shr_fexp prec emax m e l)) (snd (shr_fexp prec emax m e l)) x /\
  snd (shr_fexp prec emax m e l) = Z.max e (fexp64 (Zdigits2 m + e)).
Proof.
  intros H. unfold shr_fexp.
  destruct (shr_inb _ e (fexp64 (Zdigits2 m + e) - e) x H) as [H1 H2].
  split; [exact H1|]. rewrite H2. lia.
Qed.

(** Rounding to nearest even on a located value. *)
Lemma rne_bounds mrs e x :
  inb mrs e x ->
  let m2 := round_nearest_even (shr_m mrs) (loc_of_shr_record mrs) in
  shr_m mrs <= m2 /\
  (forall K, (x <= F2R K e)%R -> m2 <= K).
Proof.
  destruct mrs as [m r s]. unfold inb, F2R. cbn [shr_m shr_r shr_s]. intros [Hm H].
  pose proof (b2_pos e) as Hb.
  assert (Hk : forall K, (IZR m * b2 e < IZR K * b2 e)%R -> m + 1 <= K).
  { intros K HK. assert (m < K) by (apply lt_IZR; nra). lia. }
  assert (Hk0 : forall K, (IZR m * b2 e <= IZR K * b2 e)%R -> m <= K).
  { intros K HK. apply le_IZR; nra. }
  destruct r, s; cbn [loc_of_shr_record round_nearest_even].
  - split; [lia|]. intros K HK. apply Hk. nra.
  - split; [destruct (Z.even m); lia|]. intros K HK.
    assert (m + 1 <= K) by (apply Hk; nra). destruct (Z.even m); lia.
  - split; [lia|]. intros K HK. apply Hk0. nra.
  - split; [lia|]. intros K HK. apply Hk0. nra.
Qed.


Lemma canonical_canon m e : canonical_mantissa prec emax m e = true -> canon m e.
Proof. unfold canonical_mantissa, canon. intros H. apply Z.eqb_eq in H. exact H. Qed.

Lemma bounded_canon m e :
  bounded prec emax m e = true -> canon m e /\ e <= 971.
Proof.
  unfold bounded. intros H. apply andb_true_iff in H as [H1 H2].
  split; [apply canonical_canon, H1|]. apply Z.leb_le in H2. exact H2.
Qed.

Lemma fexp64_mono a b : a <= b -> fexp64 a <= fexp64 b.
Proof. rewrite !fexp64_eq. lia. Qed.

Lemma mag_le p e q eq :
  (F2R (Zpos p) e <= F2R (Zpos q) eq)%R ->
  Zpos (digits2_pos p) + e <= Zpos (digits2_pos q) + eq.
Proof.
  intros H. pose proof (digits2_F2R p e) as [Hp _]. pose proof (digits2_F2R q eq) as [_ Hq].
  assert (Hlt : (b2 (Zpos (digits2_pos p) - 1 + e) < b2 (Zpos (digits2_pos q) + eq))%R) by lra.
  apply b2_lt_inv in Hlt. lia.
Qed.

Lemma exponent_after_shift_le m e mB eB :
  0 <= m -> (F2R m e <= F2R (Zpos mB) eB)%R -> canon mB eB -> e <= eB ->
  Z.max e (fexp64 (Zdigits2 m + e)) <= eB.
Proof.
  intros Hm Hle Hc He. destruct m as [|p|p]; [| |lia].
  - cbn [Zdigits2]. unfold canon in Hc. rewrite fexp64_eq in *. lia.
  - cbn [Zdigits2]. apply mag_le in Hle. apply fexp64_mono in Hle.
    unfold canon in Hc. lia.
Qed.

Lemma exact_loc_ok m e : 0 <= m -> loc_ok m loc_Exact e (F2R m e).
Proof. intros H. split; [exact H|reflexivity]. Qed.

(** Rounding never exceeds a representable upper bound. *)
Lemma round_aux_upper s m e l x mB eB :
  loc_ok m l e x -> canon mB eB -> eB <= 971 ->
  (x <= F2R (Zpos mB) eB)%R -> e <= eB ->
  binary_round_aux prec emax s m e l = S754_zero s \/
  exists m3 e3, binary_round_aux prec emax s m e l = S754_finite s m3 e3 /\
                (F2R (Zpos m3) e3 <= F2R (Zpos mB) eB)%R.
Proof.
  intros Hloc Hc HeB Hx He. unfold binary_round_aux.
  destruct (shr_fexp_inb m e l x Hloc) as [H1 He1].
  destruct (shr_fexp prec emax m e l) as [mrs1 e1]. cbn [fst snd] in H1, He1.
  assert (Hm : 0 <= m).
  { destruct Hloc as [Hm _]. rewrite shr_m_record_of_loc in Hm. exact Hm. }
  assert (Hmx : (F2R m e <= x)%R).
  { apply inb_bounds in Hloc. rewrite shr_m_record_of_loc in Hloc. lra. }
  assert (He1B : e1 <= eB).
  { rewrite He1. apply exponent_after_shift_le with (mB := mB); auto. lra. }
  destruct (rne_bounds mrs1 e1 x H1) as [Hm2 Hup]. cbv zeta in Hm2, Hup.
  set (m2 := round_nearest_even (shr_m mrs1) (loc_of_shr_record mrs1)) in *.
  assert (Hm2B : (F2R m2 e1 <= F2R (Zpos mB) eB)%R).
  { rewrite (F2R_shift (Zpos mB) eB e1 He1B). apply F2R_le. apply Hup.
    rewrite <- F2R_shift by exact He1B. exact Hx. }
  assert (Hm20 : 0 <= m2) by (destruct H1; lia).
  destruct (shr_fexp_inb m2 e1 loc_Exact _ (exact_loc_ok m2 e1 Hm20)) as [H3 He3].
  destruct (shr_fexp prec emax m2 e1 loc_Exact) as [mrs3 e3]. cbn [fst snd] in H3, He3.
  assert (He3B : e3 <= eB).
  { rewrite He3. apply exponent_after_shift_le with (mB := mB); auto. }
  pose proof (inb_bounds _ _ _ H3) as [Hb3 _]. destruct H3 as [H30 _].
  destruct (shr_m mrs3) as [|p|p]; [left; reflexivity| |lia].
  right. exists p, e3. split; [|lra].
  replace (e3 <=? emax - prec) with true; [reflexivity|].
  symmetry. apply Z.leb_le. change (emax - prec) with 971. lia.
Qed.

(** After a right shift of an exactly known value, the truncated mantissa
    still dominates any representable lower bound. *)
Lemma shift_exact_lower m e mB eB :
  0 <= m -> canon mB eB -> (F2R (Zpos mB) eB <= F2R m e)%R ->
  (F2R (Zpos mB) eB <= F2R (shr_m (fst (shr_fexp prec emax m e loc_Exact)))
                           (snd (shr_fexp prec emax m e loc_Exact)))%R.
Proof.
  intros Hm Hc HB.
  destruct (shr_fexp_inb m e loc_Exact _ (exact_loc_ok m e Hm)) as [H1 He1].
  destruct (shr_fexp prec emax m e loc_Exact) as [mrs1 e1]. cbn [fst snd] in *.
  pose proof (inb_bounds _ _ _ H1) as [Hlo Hhi]. destruct H1 as [Hm1 _].
  destruct (Z.eq_dec e1 e) as [->|Hne].
  { apply F2R_le in Hlo. apply F2R_lt in Hhi.
    replace (shr_m mrs1) with m by lia. exact HB. }
  assert (He1f : e1 = fexp64 (Zdigits2 m + e)) by lia.
  assert (Hlt : e < e1) by lia. clear He1.
  destruct (Z_le_gt_dec e1 eB) as [Hle|Hgt].
  - rewrite (F2R_shift (Zpos mB) eB e1 Hle) in *. apply F2R_le.
    assert (Zpos mB * 2 ^ (eB - e1) < shr_m mrs1 + 1) by (apply (F2R_lt _ _ e1); lra).
    lia.
  - unfold canon in Hc.
    assert (Hmpos : 0 < m).
    { destruct (Z.eq_dec m 0) as [->|]; [|lia]. exfalso.
      assert (F2R (Zpos mB) eB <= 0)%R by (unfold F2R in *; lra).
      pose proof (digits2_F2R mB eB) as [Hq _]. pose proof (b2_pos (Zpos (digits2_pos mB) - 1 + eB)). lra. }
    destruct m as [|p|p]; [lia| |lia]. cbn [Zdigits2] in He1f.
    set (d := Zpos (digits2_pos p)) in *.
    assert (Hd : Zpos (digits2_pos mB) + eB < d + e).
    { destruct (Z_lt_le_dec (Zpos (digits2_pos mB) + eB) (d + e)) as [|Hge]; [assumption|].
      apply fexp64_mono in Hge. lia. }
    assert (He1' : e1 = d + e - 53) by (rewrite fexp64_eq in *; lia).
    pose proof (digits2_F2R p e) as [Hp _]. fold d in Hp.
    pose proof (digits2_F2R mB eB) as [_ Hq].
    assert (Hb : (b2 (52 + e1) <= F2R (Zpos p) e)%R).
    { replace (52 + e1) with (d - 1 + e) by lia. exact Hp. }
    assert (Hm52 : 2 ^ 52 <= shr_m mrs1).
    { assert (2 ^ 52 < shr_m mrs1 + 1); [|lia].
      apply (F2R_lt _ _ e1). unfold F2R at 1. rewrite <- (b2_nonneg_Z 52), <- b2_add by lia. lra. }
    apply (F2R_le _ _ e1) in Hm52. unfold F2R at 1 in Hm52.
    rewrite <- (b2_nonneg_Z 52), <- b2_add in Hm52 by lia.
    assert (b2 (Zpos (digits2_pos mB) + eB) <= b2 (52 + e1))%R by (apply b2_le; lia).
    lra.
Qed.

(** Rounding an exact value never falls below a representable lower bound. *)
Lemma round_aux_lower s m e mB eB :
  0 <= m -> canon mB eB -> (F2R (Zpos mB) eB <= F2R m e)%R ->
  binary_round_aux prec emax s m e loc_Exact = S754_infinity s \/
  exists m3 e3, binary_round_aux prec emax s m e loc_Exact = S754_finite s m3 e3 /\
                (F2R (Zpos mB) eB <= F2R (Zpos m3) e3)%R.
Proof.
  intros Hm Hc HB. unfold binary_round_aux.
  pose proof (shift_exact_lower m e mB eB Hm Hc HB) as Hlow1.
  destruct (shr_fexp_inb m e loc_Exact _ (exact_loc_ok m e Hm)) as [H1 _].
  destruct (shr_fexp prec emax m e loc_Exact) as [mrs1 e1]. cbn [fst snd] in *.
  destruct (rne_bounds mrs1 e1 _ H1) as [Hm2 _]. cbv zeta in Hm2.
  set (m2 := round_nearest_even (shr_m mrs1) (loc_of_shr_record mrs1)) in *.
  assert (Hm20 : 0 <= m2) by (destruct H1; lia).
  assert (HB2 : (F2R (Zpos mB) eB <= F2R m2 e1)%R).
  { apply (F2R_le _ _ e1) in Hm2. lra. }
  pose proof (shift_exact_lower m2 e1 mB eB Hm20 Hc HB2) as Hlow3.
  destruct (shr_fexp_inb m2 e1 loc_Exact _ (exact_loc_ok m2 e1 Hm20)) as [[H30 _] _].
  destruct (shr_fexp prec emax m2 e1 loc_Exact) as [mrs3 e3]. cbn [fst snd] in *.
  pose proof (digits2_F2R mB eB) as [Hq _].
  pose proof (b2_pos (Zpos (digits2_pos mB) - 1 + eB)).
  destruct (shr_m mrs3) as [|p|p]; [unfold F2R in Hlow3 at 2; lra| |lia].
  destruct (e3 <=? emax - prec); [right|left; reflexivity].
  exists p, e3. split; [reflexivity|exact Hlow3].
Qed.

Lemma iter_xO_pow2 m d : Zpos (Pos.iter xO m d) = Zpos m * 2 ^ Zpos d.
Proof.
  rewrite (Pos.iter_swap_gen _ _ Zpos xO (Z.mul 2)) by reflexivity.
  rewrite <- Z.shiftl_mul_pow2 by lia. reflexivity.
Qed.

Lemma shl_align_F2R mx ex ex' :
  F2R (Zpos (fst (shl_align mx ex ex'))) (snd (shl_align mx ex ex')) = F2R (Zpos mx) ex /\
  snd (shl_align mx ex ex') = Z.min ex ex'.
Proof.
  unfold shl_align. destruct (ex' - ex) as [|d|d] eqn:E; cbn [fst snd].
  - split; [reflexivity|lia].
  - split; [reflexivity|lia].
  - split; [|lia]. rewrite iter_xO_pow2, (F2R_shift (Zpos mx) ex ex') by lia.
    do 3 f_equal. lia.
Qed.

Lemma shl_align_le_F2R mx ex ez :
  ez <= ex -> F2R (Zpos (fst (shl_align mx ex ez))) ez = F2R (Zpos mx) ex.
Proof.
  intros H. destruct (shl_align_F2R mx ex ez) as [H1 H2].
  rewrite <- H1, H2. f_equal. lia.
Qed.

Lemma binary_round_upper s mx ex mB eB :
  canon mB eB -> eB <= 971 ->
  (F2R (Zpos mx) ex <= F2R (Zpos mB) eB)%R -> ex <= eB ->
  binary_round prec emax s mx ex = S754_zero s \/
  exists m3 e3, binary_round prec emax s mx ex = S754_finite s m3 e3 /\
                (F2R (Zpos m3) e3 <= F2R (Zpos mB) eB)%R.
Proof.
  intros Hc HeB Hx He. unfold binary_round.
  destruct (shl_align_F2R mx ex (fexp64 (Zpos (digits2_pos mx) + ex))) as [Hv Hz].
  destruct (shl_align mx ex _) as [mz ez]. cbn [fst snd] in *.
  apply round_aux_upper with (x := F2R (Zpos mz) ez); auto.
  - apply exact_loc_ok. lia.
  - lra.
  - lia.
Qed.

Lemma binary_round_lower s mx ex mB eB :
  canon mB eB -> (F2R (Zpos mB) eB <= F2R (Zpos mx) ex)%R ->
  binary_round prec emax s mx ex = S754_infinity s \/
  exists m3 e3, binary_round prec emax s mx ex = S754_finite s m3 e3 /\
                (F2R (Zpos mB) eB <= F2R (Zpos m3) e3)%R.
Proof.
  intros Hc Hx. unfold binary_round.
  destruct (shl_align_F2R mx ex (fexp64 (Zpos (digits2_pos mx) + ex))) as [Hv Hz].
  destruct (shl_align mx ex _) as [mz ez]. cbn [fst snd] in *.
  apply round_aux_lower; auto; [lia|lra].
Qed.

(** Sum of two positive finite numbers: at least each summand. *)
Lemma SFadd_pos_lower ma ea mb eb :
  canon ma ea -> canon mb eb ->
  let r := SF64add (S754_finite false ma ea) (S754_finite false mb eb) in
  r = S754_infinity false \/
  exists m e, r = S754_finite false m e /\
              (F2R (Zpos ma) ea <= F2R (Zpos m) e)%R /\
              (F2R (Zpos mb) eb <= F2R (Zpos m) e)%R.
Proof.
  intros Ha Hb. unfold SF64add, SFadd. cbn [cond_Zopp].
  set (ez := Z.min ea eb).
  pose proof (shl_align_le_F2R ma ea ez ltac:(lia)) as HA.
  pose proof (shl_align_le_F2R mb eb ez ltac:(lia)) as HB.
  set (pa := fst (shl_align ma ea ez)) in *. set (pb := fst (shl_align mb eb ez)) in *.
  change (Zpos pa + Zpos pb) with (Zpos (pa + pb)). cbn [binary_normalize].
  assert (Hs : F2R (Zpos (pa + pb)) ez = (F2R (Zpos ma) ea + F2R (Zpos mb) eb)%R).
  { rewrite <- HA, <- HB. unfold F2R. rewrite Pos2Z.inj_add, plus_IZR. ring. }
  assert (Hpa : (0 < F2R (Zpos ma) ea)%R).
  { unfold F2R. apply Rmult_lt_0_compat; [apply IZR_lt; lia|apply b2_pos]. }
  assert (Hpb : (0 < F2R (Zpos mb) eb)%R).
  { unfold F2R. apply Rmult_lt_0_compat; [apply IZR_lt; lia|apply b2_pos]. }
  destruct (binary_round_lower false (pa + pb) ez ma ea Ha ltac:(lra)) as [Hi|(m & e & Hr & Hle)].
  - left. exact Hi.
  - destruct (binary_round_lower false (pa + pb) ez mb eb Hb ltac:(lra)) as [Hi|(m' & e' & Hr' & Hle')].
    + left. exact Hi.
    + right. exists m, e. rewrite Hr in Hr'. injection Hr' as <- <-. auto.
Qed.

(** Difference of two positive finite numbers: magnitude at most the larger. *)
Lemma SFsub_pos_upper ma ea mb eb :
  canon ma ea -> ea <= 971 -> canon mb eb -> eb <= 971 ->
  let r := SF64sub (S754_finite false ma ea) (S754_finite false mb eb) in
  (exists s, r = S754_zero s) \/
  exists s m e, r = S754_finite s m e /\
              ((F2R (Zpos m) e <= F2R (Zpos ma) ea)%R \/
               (F2R (Zpos m) e <= F2R (Zpos mb) eb)%R).
Proof.
  intros Ha Hea Hb Heb. unfold SF64sub, SFsub. cbn [cond_Zopp].
  set (ez := Z.min ea eb).
  pose proof (shl_align_le_F2R ma ea ez ltac:(lia)) as HA.
  pose proof (shl_align_le_F2R mb eb ez ltac:(lia)) as HB.
  set (pa := fst (shl_align ma ea ez)) in *. set (pb := fst (shl_align mb eb ez)) in *.
  assert (Hpa : (0 < F2R (Zpos ma) ea)%R).
  { unfold F2R. apply Rmult_lt_0_compat; [apply IZR_lt; lia|apply b2_pos]. }
  assert (Hpb : (0 < F2R (Zpos mb) eb)%R).
  { unfold F2R. apply Rmult_lt_0_compat; [apply IZR_lt; lia|apply b2_pos]. }
  assert (Hd : F2R (Zpos pa - Zpos pb) ez = (F2R (Zpos ma) ea - F2R (Zpos mb) eb)%R).
  { rewrite <- HA, <- HB. unfold F2R. rewrite minus_IZR. ring. }
  destruct (Zpos pa - Zpos pb) as [|p|p] eqn:E; cbn [binary_normalize].
  - left. exists false. reflexivity.
  - destruct (binary_round_upper false p ez ma ea Ha Hea ltac:(lra) ltac:(lia))
      as [Hz|(m & e & Hr & Hle)].
    + left. exists false. exact Hz.
    + right. exists false, m, e. auto.
  - assert (Hn : F2R (Zpos p) ez = (F2R (Zpos mb) eb - F2R (Zpos ma) ea)%R).
    { unfold F2R in *. change (Zneg p) with (- Zpos p) in Hd. rewrite opp_IZR in Hd. lra. }
    destruct (binary_round_upper true p ez mb eb Hb Heb ltac:(lra) ltac:(lia))
      as [Hz|(m & e & Hr & Hle)].
    + left. exists true. exact Hz.
    + right. exists true, m, e. auto.
Qed.

Lemma F2R_pos p e : (0 < F2R (Zpos p) e)%R.
Proof. unfold F2R. apply Rmult_lt_0_compat; [apply IZR_lt; lia|apply b2_pos]. Qed.

Lemma new_location_ok md r q e :
  0 < md -> 0 <= r < md -> 0 <= q ->
  loc_ok q (new_location md r) e ((IZR q + IZR r / IZR md) * b2 e)%R.
Proof.
  intros Hmd Hr Hq. pose proof (b2_pos e) as Hb.
  assert (HM : (0 < IZR md)%R) by (apply IZR_lt; lia).
  set (rho := (IZR r / IZR md)%R).
  assert (Hrho : (rho * IZR md = IZR r)%R) by (unfold rho; field; lra).
  assert (Hr0 : (0 <= IZR r)%R) by (apply IZR_le; lia).
  assert (Hr1 : (IZR r < IZR md)%R) by (apply IZR_lt; lia).
  assert (Hrho1 : (0 <= rho < 1)%R).
  { split.
    - unfold rho. apply Rmult_le_pos; [lra|]. left. apply Rinv_0_lt_compat. lra.
    - destruct (Rlt_le_dec rho 1); [assumption|]. nra. }
  assert (Hcases : r = 0 \/ (0 < r /\ 2 * r < md) \/ 2 * r = md \/ (2 * r > md)) by lia.
  unfold loc_ok, inb, F2R.
  destruct Hcases as [Hz|[[Hr2 Hlt]|[Heq|Hgt]]].
  - assert (Hl : new_location md r = loc_Exact).
    { unfold new_location, new_location_even, new_location_odd. subst r.
      destruct (Z.even md); reflexivity. }
    rewrite Hl. cbn [shr_record_of_loc shr_m shr_r shr_s]. split; [lia|].
    assert (rho = 0%R) by (unfold rho; subst r; field; lra). nra.
  - assert (Hrz : (r =? 0) = false) by (apply Z.eqb_neq; lia).
    assert (Hl : new_location md r = loc_Inexact Lt).
    { unfold new_location. destruct (Z.even md);
        unfold new_location_even, new_location_odd; rewrite Hrz.
      - rewrite (proj2 (Z.compare_lt_iff _ _)) by lia. reflexivity.
      - destruct (Z.compare_spec (2 * r + 1) md); try reflexivity. lia. }
    rewrite Hl. cbn [shr_record_of_loc shr_m shr_r shr_s]. split; [lia|].
    assert (0 < IZR r)%R by (apply IZR_lt; lia).
    assert (2 * IZR r < IZR md)%R by (rewrite <- mult_IZR; apply IZR_lt; lia).
    assert (0 < rho)%R by (destruct (Rlt_le_dec 0 rho); [assumption|nra]).
    assert (rho < /2)%R by (destruct (Rlt_le_dec rho (/2)); [assumption|nra]).
    nra.
  - assert (Hrz : (r =? 0) = false) by (apply Z.eqb_neq; lia).
    assert (Hl : new_location md r = loc_Inexact Eq).
    { unfold new_location.
      replace (Z.even md) with true by (rewrite <- Heq, Z.even_mul; reflexivity).
      unfold new_location_even. rewrite Hrz.
      rewrite (proj2 (Z.compare_eq_iff _ _)) by lia. reflexivity. }
    rewrite Hl. cbn [shr_record_of_loc shr_m shr_r shr_s]. split; [lia|].
    assert (Hh : (rho = /2)%R).
    { assert (2 * IZR r = IZR md)%R by (rewrite <- mult_IZR; f_equal; lia).
      unfold rho. field_simplify_eq; lra. }
    rewrite Hh. reflexivity.
  - assert (Hrz : (r =? 0) = false) by (apply Z.eqb_neq; lia).
    assert (Hl : new_location md r = loc_Inexact Gt).
    { unfold new_location. destruct (Z.even md);
        unfold new_location_even, new_location_odd; rewrite Hrz;
        rewrite (proj2 (Z.compare_gt_iff _ _)) by lia; reflexivity. }
    rewrite Hl. cbn [shr_record_of_loc shr_m shr_r shr_s]. split; [lia|].
    assert (IZR md < 2 * IZR r)%R by (rewrite <- mult_IZR; apply IZR_lt; lia).
    assert (/2 < rho)%R by (destruct (Rlt_le_dec (/2) rho); [assumption|nra]).
    rewrite plus_IZR. nra.
Qed.

(** The quotient computed by [SFdiv_core_binary] locates the exact ratio. *)
Lemma div_core_ok mn en md ed :
  (F2R (Zpos mn) en <= F2R (Zpos md) ed)%R ->
  let '(q, e', l) := SFdiv_core_binary prec emax (Zpos mn) en (Zpos md) ed in
  loc_ok q l e' (F2R (Zpos mn) en / F2R (Zpos md) ed)%R /\ e' <= -53.
Proof.
  intros Hle. unfold SFdiv_core_binary. cbn [Zdigits2].
  set (d1 := Zpos (digits2_pos mn)). set (d2 := Zpos (digits2_pos md)).
  set (e' := Z.min (fexp64 (d1 + en - (d2 + ed))) (en - ed)).
  set (s := en - ed - e').
  assert (Hs : 0 <= s) by (unfold s, e'; lia).
  assert (He' : e' <= -53).
  { apply mag_le in Hle. fold d1 d2 in Hle. unfold e'. rewrite fexp64_eq. lia. }
  set (m' := match s with Z.pos _ => Z.shiftl (Zpos mn) s | 0 => Zpos mn | Z.neg _ => 0 end).
  assert (Hm' : m' = Zpos mn * 2 ^ s).
  { unfold m'. destruct s as [|p|p] eqn:Es; [rewrite Z.pow_0_r; lia| |lia].
    apply Z.shiftl_mul_pow2. lia. }
  pose proof (Z_div_mod m' (Zpos md) ltac:(lia)) as Hdm.
  destruct (Z.div_eucl m' (Zpos md)) as [q r]. destruct Hdm as [Hdm Hr].
  assert (Hq : 0 <= q).
  { assert (0 < 2 ^ s) by (apply Z.pow_pos_nonneg; lia). nia. }
  split; [|exact He'].
  replace (F2R (Zpos mn) en / F2R (Zpos md) ed)%R
    with ((IZR q + IZR r / IZR (Zpos md)) * b2 e')%R.
  { apply new_location_ok; lia. }
  assert (HM : (0 < IZR (Zpos md))%R) by (apply IZR_lt; lia).
  pose proof (b2_pos ed). pose proof (b2_pos e').
  assert (Hen : b2 en = (IZR (2 ^ s) * b2 e' * b2 ed)%R).
  { rewrite <- b2_nonneg_Z, <- !b2_add by lia. f_equal. unfold s. lia. }
  unfold F2R. rewrite Hen.
  assert (Hmr : (IZR (Zpos mn) * IZR (2 ^ s) = IZR (Zpos md) * IZR q + IZR r)%R).
  { rewrite <- !mult_IZR, <- plus_IZR. f_equal. lia. }
  replace (IZR (Zpos mn) * (IZR (2 ^ s) * b2 e' * b2 ed))%R
    with ((IZR (Zpos md) * IZR q + IZR r) * b2 e' * b2 ed)%R by (rewrite <- Hmr; ring).
  field. split; apply Rgt_not_eq; assumption.
Qed.

Lemma canon_one : canon (2 ^ 52)%positive (-52).
Proof. reflexivity. Qed.

Lemma F2R_one : F2R (Zpos (2 ^ 52)) (-52) = 1%R.
Proof.
  unfold F2R. change (Zpos (2 ^ 52)) with (2 ^ 52). rewrite <- b2_nonneg_Z, <- b2_add by lia.
  reflexivity.
Qed.

(** Dividing by a number of at least the same magnitude gives at most one. *)
Lemma SFdiv_le_one sn mn en sd md ed :
  (F2R (Zpos mn) en <= F2R (Zpos md) ed)%R ->
  let r := SF64div (S754_finite sn mn en) (S754_finite sd md ed) in
  r = S754_zero (xorb sn sd) \/
  exists m e, r = S754_finite (xorb sn sd) m e /\ (F2R (Zpos m) e <= 1)%R.
Proof.
  intros Hle. unfold SF64div, SFdiv.
  pose proof (div_core_ok mn en md ed Hle) as Hcore.
  destruct (SFdiv_core_binary prec emax (Zpos mn) en (Zpos md) ed) as [[q e'] l].
  destruct Hcore as [Hloc He'].
  rewrite <- F2R_one.
  apply round_aux_upper with (x := (F2R (Zpos mn) en / F2R (Zpos md) ed)%R); auto.
  - apply canon_one.
  - lia.
  - rewrite F2R_one. pose proof (F2R_pos md ed). pose proof (F2R_pos mn en).
    apply Rmult_le_reg_r with (r := F2R (Zpos md) ed); [assumption|].
    unfold Rdiv. rewrite Rmult_assoc, Rinv_l by lra. lra.
  - lia.
Qed.

(** On canonical representations the lexicographic order on
    (exponent, mantissa) is the order of the values. *)
Lemma canon_le_lex m1 e1 m2 e2 :
  canon m1 e1 -> canon m2 e2 ->
  (F2R (Zpos m1) e1 <= F2R (Zpos m2) e2)%R ->
  e1 < e2 \/ (e1 = e2 /\ (m1 <= m2)%positive).
Proof.
  intros H1 H2 Hle. unfold canon in *. rewrite fexp64_eq in *.
  destruct (Z.lt_trichotomy e1 e2) as [Hlt|[Heq|Hgt]].
  - left. exact Hlt.
  - right. split; [exact Heq|]. subst e2. apply F2R_le in Hle. lia.
  - exfalso.
    pose proof (digits2_F2R m1 e1) as [Hp _]. pose proof (digits2_F2R m2 e2) as [_ Hq].
    assert (b2 (Zpos (digits2_pos m2) + e2) <= b2 (Zpos (digits2_pos m1) - 1 + e1))%R
      by (apply b2_le; lia).
    lra.
Qed.

Lemma SFleb_pos_lex m1 e1 m2 e2 :
  e1 < e2 \/ (e1 = e2 /\ (m1 <= m2)%positive) ->
  SFleb (S754_finite false m1 e1) (S754_finite false m2 e2) = true /\
  SFleb (S754_finite true m2 e2) (S754_finite true m1 e1) = true.
Proof.
  unfold SFleb, SFcompare. intros [Hlt|[-> Hle]].
  - rewrite (proj2 (Z.compare_lt_iff e1 e2) Hlt).
    rewrite (proj2 (Z.compare_gt_iff e2 e1)) by lia. auto.
  - rewrite Z.compare_refl. change (Pos.compare_cont Eq) with Pos.compare.
    destruct (Pos.compare_spec m1 m2) as [->|Hl|Hg].
    + rewrite Pos.compare_refl. auto.
    + rewrite (proj2 (Pos.compare_gt_iff m2 m1) Hl). auto.
    + lia.
Qed.

Lemma finite_nonneg_SF x :
  finite_nonneg x ->
  (exists s, Prim2SF x = S754_zero s) \/
  (exists m e, Prim2SF x = S754_finite false m e /\ canon m e /\ e <= 971).
Proof.
  intros [H0 Hi]. rewrite FloatAxioms.leb_spec in H0. rewrite FloatAxioms.ltb_spec in Hi.
  pose proof (Prim2SF_valid x) as Hv.
  change (Prim2SF 0) with (S754_zero false) in H0.
  change (Prim2SF infinity) with (S754_infinity false) in Hi.
  destruct (Prim2SF x) as [s|s| |s m e].
  - left. exists s. reflexivity.
  - destruct s; discriminate.
  - discriminate.
  - right. destruct s; [discriminate|]. exists m, e. split; [reflexivity|].
    apply bounded_canon. exact Hv.
Qed.

Lemma unit_range_SF (x : float) :
  ((exists s, Prim2SF x = S754_zero s) \/
   (exists s m e, Prim2SF x = S754_finite s m e /\ (F2R (Zpos m) e <= 1)%R)) ->
  (-1 <=? x)%float = true /\ (x <=? 1)%float = true.
Proof.
  intros H. rewrite !FloatAxioms.leb_spec. pose proof (Prim2SF_valid x) as Hv.
  change (Prim2SF (-1)) with (S754_finite true (2 ^ 52) (-52)).
  change (Prim2SF 1) with (S754_finite false (2 ^ 52) (-52)).
  destruct H as [[s Hx]|(s & m & e & Hx & Hle)]; rewrite Hx in *.
  - split; reflexivity.
  - cbn [SpecFloat.valid_binary] in Hv. apply bounded_canon in Hv as [Hc _].
    rewrite <- F2R_one in Hle.
    pose proof (SFleb_pos_lex _ _ _ _ (canon_le_lex _ _ _ _ Hc canon_one Hle)) as [H1 H2].
    destruct s; split; auto.
Qed.

(** The normalized difference of two finite non-negative floats is either
    guarded by a zero denominator or lies between -1 and 1. *)
Lemma ratio_in_unit_range (nir red : float) :
  finite_nonneg nir -> finite_nonneg red ->
  (nir + red =? 0)%float = true \/
  ((-1 <=? (nir - red) / (nir + red))%float = true /\
   ((nir - red) / (nir + red) <=? 1)%float = true).
Proof.
  intros Hn Hr.
  apply finite_nonneg_SF in Hn, Hr.
  destruct Hn as [[sn Hn]|(mn & en & Hn & Hcn & Hen)];
    destruct Hr as [[sr Hr]|(mr & er & Hr & Hcr & Her)].
  - left. rewrite FloatAxioms.eqb_spec, add_spec, Hn, Hr. destruct sn, sr; reflexivity.
  - right. apply unit_range_SF. rewrite div_spec, sub_spec, add_spec, Hn, Hr.
    cbn [SF64sub SFsub SF64add SFadd negb].
    destruct (SFdiv_le_one true mr er false mr er (Rle_refl _)) as [Hz|(m & e & Hd & Hle)].
    + left. eexists. exact Hz.
    + right. do 3 eexists. split; [exact Hd|exact Hle].
  - right. apply unit_range_SF. rewrite div_spec, sub_spec, add_spec, Hn, Hr.
    cbn [SF64sub SFsub SF64add SFadd negb].
    destruct (SFdiv_le_one false mn en false mn en (Rle_refl _)) as [Hz|(m & e & Hd & Hle)].
    + left. eexists. exact Hz.
    + right. do 3 eexists. split; [exact Hd|exact Hle].
  - right. apply unit_range_SF. rewrite div_spec, sub_spec, add_spec, Hn, Hr.
    pose proof (SFadd_pos_lower mn en mr er Hcn Hcr) as Hadd.
    pose proof (SFsub_pos_upper mn en mr er Hcn Hen Hcr Her) as Hsub.
    cbv zeta in Hadd, Hsub.
    destruct Hsub as [[s ->]|(s & mu & eu & -> & Hu)].
    + left. destruct Hadd as [->|(ml & el & -> & _)]; eexists; reflexivity.
    + destruct Hadd as [->|(ml & el & -> & Hl1 & Hl2)].
      * left. eexists. reflexivity.
      * assert (Hle : (F2R (Zpos mu) eu <= F2R (Zpos ml) el)%R) by (destruct Hu; lra).
        destruct (SFdiv_le_one s mu eu false ml el Hle) as [Hz|(m & e & Hd & Hle')].
        -- left. eexists. exact Hz.
        -- right. do 3 eexists. split; [exact Hd|exact Hle'].
Qed.

End Binary64.

Import Binary64.

(* ================================================================== *)
(** * Part III: the program *)
(* ================================================================== *)

(** ** Order facts on floats *)


Lemma SFcompare_swap x y :
  SFcompare y x = option_map CompOpp (SFcompare x y).
Proof.
  destruct x as [sx|sx| |sx mx ex], y as [sy|sy| |sy my ey]; cbn;
    try reflexivity; try (destruct sx; reflexivity); try (destruct sy; reflexivity);
    try (destruct sx, sy; reflexivity).
  destruct sx, sy; try reflexivity; cbn; f_equal;
    rewrite (Z.compare_antisym ex ey); destruct (ex ?= ey); cbn; try reflexivity;
    rewrite ?CompOpp_involutive; change (Pos.compare_cont Eq) with Pos.compare;
    rewrite (Pos.compare_antisym mx my); rewrite ?CompOpp_involutive; reflexivity.
Qed.

Lemma is_number_compare x :
  is_number x -> SFcompare (Prim2SF x) (Prim2SF x) = Some Eq.
Proof.
  unfold is_number. rewrite FloatAxioms.eqb_spec. unfold SFeqb.
  destruct (SFcompare (Prim2SF x) (Prim2SF x)) as [[]|]; congruence.
Qed.

Lemma numbers_comparable x y :
  is_number x -> is_number y -> exists c, SFcompare (Prim2SF x) (Prim2SF y) = Some c.
Proof.
  intros Hx Hy. apply is_number_compare in Hx, Hy.
  destruct (Prim2SF x) as [sx|sx| |sx mx ex], (Prim2SF y) as [sy|sy| |sy my ey];
    cbn in *; try discriminate; eexists; reflexivity.
Qed.

Lemma float_eqb_sym x y : (x =? y)%float = (y =? x)%float.
Proof.
  rewrite !FloatAxioms.eqb_spec. unfold SFeqb. rewrite (SFcompare_swap (Prim2SF x) (Prim2SF y)).
  destruct (SFcompare (Prim2SF x) (Prim2SF y)) as [[]|]; reflexivity.
Qed.

Lemma float_ltb_asym x y : (x <? y)%float = true -> (y <? x)%float = false.
Proof.
  rewrite !FloatAxioms.ltb_spec. unfold SFltb. rewrite (SFcompare_swap (Prim2SF x) (Prim2SF y)).
  destruct (SFcompare (Prim2SF x) (Prim2SF y)) as [[]|]; cbn; congruence.
Qed.

Lemma float_not_ltb_eq x y :
  is_number x -> is_number y ->
  (x <? y)%float = false -> (y <? x)%float = false -> (x =? y)%float = true.
Proof.
  intros Hx Hy. destruct (numbers_comparable x y Hx Hy) as [c Hc].
  rewrite !FloatAxioms.ltb_spec, FloatAxioms.eqb_spec. unfold SFltb, SFeqb.
  rewrite (SFcompare_swap (Prim2SF x) (Prim2SF y)), Hc. destruct c; cbn; congruence.
Qed.

Lemma float_ltb_leb x y : (x <? y)%float = true -> (x <=? y)%float = true.
Proof.
  rewrite FloatAxioms.ltb_spec, FloatAxioms.leb_spec. unfold SFltb, SFleb.
  destruct (SFcompare (Prim2SF x) (Prim2SF y)) as [[]|]; congruence.
Qed.

Lemma float_not_ltb_leb x y :
  is_number x -> is_number y -> (y <? x)%float = false -> (x <=? y)%float = true.
Proof.
  intros Hx Hy. destruct (numbers_comparable x y Hx Hy) as [c Hc].
  rewrite FloatAxioms.ltb_spec, FloatAxioms.leb_spec. unfold SFltb, SFleb.
  rewrite (SFcompare_swap (Prim2SF x) (Prim2SF y)), Hc. destruct c; cbn; congruence.
Qed.

Lemma float_leb_refl x : is_number x -> (x <=? x)%float = true.
Proof.
  intros Hx. apply is_number_compare in Hx.
  rewrite FloatAxioms.leb_spec. unfold SFleb. rewrite Hx. reflexivity.
Qed.

Lemma float_ltb_number x y : (x <? y)%float = true -> is_number x /\ is_number y.
Proof.
  unfold is_number. rewrite FloatAxioms.ltb_spec, !FloatAxioms.eqb_spec. unfold SFltb, SFeqb.
  destruct (Prim2SF x) as [sx|sx| |sx mx ex], (Prim2SF y) as [sy|sy| |sy my ey];
    cbn; try discriminate; intros _; split; try reflexivity;
    try (destruct sx; reflexivity); try (destruct sy; reflexivity);
    rewrite ?Z.compare_refl; change (Pos.compare_cont Eq) with Pos.compare;
    rewrite ?Pos.compare_refl.
  all: try (destruct sx; reflexivity); try (destruct sy; reflexivity).
Qed.

Lemma py_max_sorted x y :
  is_number x -> is_number y ->
  ((if (y <? x)%float then x else y) =? py_max x y)%float = true.
Proof.
  intros Hx Hy. unfold py_max.
  destruct (y <? x)%float eqn:E1; destruct (x <? y)%float eqn:E2; try assumption.
  - apply float_ltb_asym in E1. congruence.
  - rewrite float_eqb_sym. apply float_not_ltb_eq; assumption.
Qed.

Lemma py_max_swap x y :
  is_number x -> is_number y ->
  ((if (y <? x)%float then x else y) =? (if (x <? y)%float then y else x))%float = true.
Proof.
  intros Hx Hy.
  destruct (y <? x)%float eqn:E1; destruct (x <? y)%float eqn:E2; try assumption.
  - apply float_ltb_asym in E1. congruence.
  - rewrite float_eqb_sym. apply float_not_ltb_eq; assumption.
Qed.

Lemma py_min_swap x y :
  is_number x -> is_number y ->
  ((if (y <? x)%float then y else x) =? (if (x <? y)%float then x else y))%float = true.
Proof.
  intros Hx Hy.
  destruct (y <? x)%float eqn:E1; destruct (x <? y)%float eqn:E2; try assumption.
  - apply float_ltb_asym in E1. congruence.
  - apply float_not_ltb_eq; assumption.
Qed.

Lemma py_min_sorted x y :
  is_number x -> is_number y ->
  ((if (y <? x)%float then y else x) =? py_min x y)%float = true.
Proof. intros Hx Hy. unfold py_min. destruct (y <? x)%float; assumption. Qed.

Lemma Prim2SF_change_threshold :
  Prim2SF change_threshold = S754_finite true 5764607523034235 (-56).
Proof. vm_compute. reflexivity. Qed.

(** A non-negative delta is never below the (negative) change threshold. *)
Lemma nonneg_not_below_threshold d :
  (0 <=? d)%float = true -> (d <? change_threshold)%float = false.
Proof.
  rewrite FloatAxioms.leb_spec, FloatAxioms.ltb_spec.
  change (Prim2SF 0) with (S754_zero false). rewrite Prim2SF_change_threshold.
  destruct (Prim2SF d) as [s|s| |s m e]; try destruct s; try reflexivity; try discriminate.
Qed.

(** ** Narrowing to binary32 *)

(** The facts of Part II on rounding to a format, for any precision and
    exponent range: they are used for binary32 (the narrowing of
    [struct.pack]) and again for binary64 (the widening back). *)
Section Format.

Context (p emx : Z).

Lemma fexp_mono a b : a <= b -> SpecFloat.fexp p emx a <= SpecFloat.fexp p emx b.
Proof. unfold SpecFloat.fexp. lia. Qed.

Lemma fexp_ge_emin a : SpecFloat.emin p emx <= SpecFloat.fexp p emx a.
Proof. unfold SpecFloat.fexp. lia. Qed.

Lemma shr_fexp_located m e l x :
  loc_ok m l e x ->
  inb (fst (shr_fexp p emx m e l)) (snd (shr_fexp p emx m e l)) x /\
  snd (shr_fexp p emx m e l) = Z.max e (SpecFloat.fexp p emx (Zdigits2 m + e)).
Proof.
  intros H. unfold shr_fexp.
  destruct (shr_inb _ e (SpecFloat.fexp p emx (Zdigits2 m + e) - e) x H) as [H1 H2].
  split; [exact H1|]. rewrite H2. lia.
Qed.

Lemma exponent_after_shift m e mB eB :
  0 <= m -> (F2R m e <= F2R (Zpos mB) eB)%R ->
  SpecFloat.fexp p emx (Zpos (digits2_pos mB) + eB) = eB -> e <= eB ->
  Z.max e (SpecFloat.fexp p emx (Zdigits2 m + e)) <= eB.
Proof.
  intros Hm Hle Hc He. destruct m as [|q|q]; [| |lia].
  - cbn [Zdigits2]. pose proof (fexp_ge_emin (Zpos (digits2_pos mB) + eB)).
    unfold SpecFloat.fexp in *. lia.
  - cbn [Zdigits2]. apply mag_le in Hle. apply fexp_mono in Hle. lia.
Qed.

(** Rounding never exceeds a representable upper bound, and the exponent
    of the result lies between the smallest one of the format and that of
    the bound. *)
Lemma round_aux_below s m e l x mB eB :
  loc_ok m l e x ->
  SpecFloat.fexp p emx (Zpos (digits2_pos mB) + eB) = eB -> eB <= emx - p ->
  (x <= F2R (Zpos mB) eB)%R -> e <= eB ->
  binary_round_aux p emx s m e l = S754_zero s \/
  exists m3 e3, binary_round_aux p emx s m e l = S754_finite s m3 e3 /\
                (F2R (Zpos m3) e3 <= F2R (Zpos mB) eB)%R /\
                SpecFloat.emin p emx <= e3 <= eB.
Proof.
  intros Hloc Hc HeB Hx He. unfold binary_round_aux.
  destruct (shr_fexp_located m e l x Hloc) as [H1 He1].
  destruct (shr_fexp p emx m e l) as [mrs1 e1]. cbn [fst snd] in H1, He1.
  assert (Hm : 0 <= m).
  { destruct Hloc as [Hm _]. rewrite shr_m_record_of_loc in Hm. exact Hm. }
  assert (Hmx : (F2R m e <= x)%R).
  { apply inb_bounds in Hloc. rewrite shr_m_record_of_loc in Hloc. lra. }
  assert (He1B : e1 <= eB).
  { rewrite He1. apply exponent_after_shift with (mB := mB); auto. lra. }
  destruct (rne_bounds mrs1 e1 x H1) as [Hm2 Hup]. cbv zeta in Hm2, Hup.
  set (m2 := round_nearest_even (shr_m mrs1) (loc_of_shr_record mrs1)) in *.
  assert (Hm2B : (F2R m2 e1 <= F2R (Zpos mB) eB)%R).
  { rewrite (F2R_shift (Zpos mB) eB e1 He1B). apply F2R_le. apply Hup.
    rewrite <- F2R_shift by exact He1B. exact Hx. }
  assert (Hm20 : 0 <= m2) by (destruct H1; lia).
  destruct (shr_fexp_located m2 e1 loc_Exact _ (exact_loc_ok m2 e1 Hm20)) as [H3 He3].
  destruct (shr_fexp p emx m2 e1 loc_Exact) as [mrs3 e3]. cbn [fst snd] in H3, He3.
  assert (He3B : e3 <= eB).
  { rewrite He3. apply exponent_after_shift with (mB := mB); auto. }
  assert (He3m : SpecFloat.emin p emx <= e3).
  { rewrite He3. pose proof (fexp_ge_emin (Zdigits2 m2 + e1)). lia. }
  pose proof (inb_bounds _ _ _ H3) as [Hb3 _]. destruct H3 as [H30 _].
  destruct (shr_m mrs3) as [|q|q]; [left; reflexivity| |lia].
  right. exists q, e3. split; [|split; [lra|lia]].
  replace (e3 <=? emx - p) with true; [reflexivity|].
  symmetry. apply Z.leb_le. lia.
Qed.

Lemma binary_round_below s mx ex mB eB :
  SpecFloat.fexp p emx (Zpos (digits2_pos mB) + eB) = eB -> eB <= emx - p ->
  (F2R (Zpos mx) ex <= F2R (Zpos mB) eB)%R ->
  binary_round p emx s mx ex = S754_zero s \/
  exists m3 e3, binary_round p emx s mx ex = S754_finite s m3 e3 /\
                (F2R (Zpos m3) e3 <= F2R (Zpos mB) eB)%R /\
                SpecFloat.emin p emx <= e3 <= eB.
Proof.
  intros Hc HeB Hx. unfold binary_round.
  destruct (shl_align_F2R mx ex (SpecFloat.fexp p emx (Zpos (digits2_pos mx) + ex))) as [Hv Hz].
  destruct (shl_align mx ex _) as [mz ez]. cbn [fst snd] in *.
  apply round_aux_below with (x := F2R (Zpos mz) ez); auto.
  - apply exact_loc_ok. lia.
  - lra.
  - pose proof (mag_le _ _ _ _ Hx) as Hmag. apply fexp_mono in Hmag. lia.
Qed.

End Format.

Lemma F2R_scale m e d : (F2R m e * b2 d = F2R m (e + d))%R.
Proof. unfold F2R. rewrite b2_add. ring. Qed.

(** A canonical binary64 power of two. *)
Lemma canon_pow2 e : -1074 <= e -> canon (2 ^ 52)%positive e.
Proof. intros H. unfold canon. rewrite fexp64_eq. cbn [digits2_pos]. change (Zpos (digits2_pos (2 ^ 52))) with 53. lia. Qed.

(** On canonical positive numbers the float order is the order of the values. *)
Lemma SFleb_pos_F2R m1 e1 m2 e2 :
  canon m1 e1 -> canon m2 e2 ->
  SFleb (S754_finite false m1 e1) (S754_finite false m2 e2) = true ->
  (F2R (Zpos m1) e1 <= F2R (Zpos m2) e2)%R.
Proof.
  intros H1 H2 Hle.
  destruct (Rle_lt_dec (F2R (Zpos m1) e1) (F2R (Zpos m2) e2)) as [Hok|Hgt]; [exact Hok|].
  exfalso.
  destruct (canon_le_lex m2 e2 m1 e1 H2 H1 ltac:(lra)) as [Hlt|[Heq Hm]].
  - unfold SFleb, SFcompare in Hle.
    rewrite (proj2 (Z.compare_gt_iff e1 e2)) in Hle by lia. discriminate.
  - subst e2. unfold SFleb, SFcompare in Hle. rewrite Z.compare_refl in Hle.
    change (Pos.compare_cont Eq) with Pos.compare in Hle.
    destruct (Pos.compare_spec m1 m2) as [->|Hl|Hg]; try discriminate.
    + lra.
    + lia.
Qed.

Lemma SFleb_neg_F2R m1 e1 m2 e2 :
  canon m1 e1 -> canon m2 e2 ->
  SFleb (S754_finite true m2 e2) (S754_finite true m1 e1) = true ->
  (F2R (Zpos m1) e1 <= F2R (Zpos m2) e2)%R.
Proof.
  intros H1 H2 Hle. apply SFleb_pos_F2R; [exact H1|exact H2|].
  unfold SFleb, SFcompare in *.
  rewrite (Z.compare_antisym e1 e2) in Hle.
  destruct (e1 ?= e2) eqn:E; cbn [CompOpp] in *; try assumption; try discriminate.
  change (Pos.compare_cont Eq) with Pos.compare in *.
  rewrite (Pos.compare_antisym m1 m2) in Hle.
  destruct (m1 ?= m2)%positive; cbn [CompOpp] in *; try assumption; try discriminate.
Qed.

(** A float in [-1, 1] is a zero or a finite number of magnitude at most 1. *)
Lemma unit_range_finite (x : float) :
  in_unit_range x = true ->
  (exists s, Prim2SF x = S754_zero s) \/
  (exists s m e, Prim2SF x = S754_finite s m e /\ (F2R (Zpos m) e <= 1)%R).
Proof.
  unfold in_unit_range. intros H. apply andb_true_iff in H as [Hlo Hhi].
  rewrite FloatAxioms.leb_spec in Hlo, Hhi. pose proof (Prim2SF_valid x) as Hv.
  change (Prim2SF (-1)) with (S754_finite true (2 ^ 52) (-52)) in Hlo.
  change (Prim2SF 1) with (S754_finite false (2 ^ 52) (-52)) in Hhi.
  destruct (Prim2SF x) as [s|s| |s m e].
  - left. exists s. reflexivity.
  - destruct s; discriminate.
  - discriminate.
  - right. exists s, m, e. split; [reflexivity|].
    cbn [SpecFloat.valid_binary] in Hv. apply bounded_canon in Hv as [Hc _].
    rewrite <- F2R_one. destruct s.
    + apply SFleb_neg_F2R; [exact Hc|apply canon_one|exact Hlo].
    + apply SFleb_pos_F2R; [exact Hc|apply canon_one|exact Hhi].
Qed.

(** Widening a finite (mantissa, exponent) pair to a double never exceeds
    a bound that is representable at the scale of the pair. *)
Lemma SF2Prim_below s m e mB eB :
  canon mB eB -> eB <= 971 -> canon mB (eB - e) -> eB - e <= 971 ->
  (F2R (Zpos m) e <= F2R (Zpos mB) eB)%R ->
  Prim2SF (SF2Prim (S754_finite s m e)) = S754_zero s \/
  exists m3 e3, Prim2SF (SF2Prim (S754_finite s m e)) = S754_finite s m3 e3 /\
                (F2R (Zpos m3) e3 <= F2R (Zpos mB) eB)%R.
Proof.
  intros Hc HeB Hc' HeB' Hle. cbn [SF2Prim].
  set (pm := of_uint63 (Uint63.of_Z (Zpos m))).
  assert (Hpm : Prim2SF pm = S754_zero false \/
                exists m2 e2, Prim2SF pm = S754_finite false m2 e2 /\
                              (F2R (Zpos m2) e2 <= F2R (Zpos mB) (eB - e))%R).
  { unfold pm. rewrite of_uint63_spec, Uint63.of_Z_spec.
    pose proof (Z.mod_pos_bound (Zpos m) Uint63.wB ltac:(reflexivity)) as [Hk0 _].
    pose proof (Z.mod_le (Zpos m) Uint63.wB ltac:(lia) ltac:(reflexivity)) as Hkm.
    destruct (Zpos m mod Uint63.wB) as [|q|q]; [left; reflexivity| |lia].
    cbn [binary_normalize].
    assert (Hq : (F2R (Zpos q) 0 <= F2R (Zpos mB) (eB - e))%R).
    { apply Rle_trans with (F2R (Zpos m) 0).
      - apply F2R_le. exact Hkm.
      - pose proof (b2_pos (- e)) as Hb.
        replace 0 with (e + - e) by lia. replace (eB - e) with (eB + - e) by lia.
        rewrite <- !F2R_scale. apply Rmult_le_compat_r; lra. }
    destruct (binary_round_below prec emax false q 0 mB (eB - e) Hc' HeB' Hq)
      as [Hz|(m2 & e2 & Hr & Hb & _)]; [left; exact Hz|right; eauto]. }
  assert (Hf : Prim2SF (Z.ldexp pm e) = S754_zero false \/
               exists m3 e3, Prim2SF (Z.ldexp pm e) = S754_finite false m3 e3 /\
                             (F2R (Zpos m3) e3 <= F2R (Zpos mB) eB)%R).
  { rewrite Z_ldexp_spec. destruct Hpm as [->|(m2 & e2 & -> & Hb)]; [left; reflexivity|].
    cbn [SFldexp].
    assert (Hs : (F2R (Zpos m2) (e2 + e) <= F2R (Zpos mB) eB)%R).
    { pose proof (b2_pos e) as Hbe. rewrite <- F2R_scale.
      replace eB with ((eB - e) + e) at 1 by lia. rewrite <- (F2R_scale (Zpos mB)).
      apply Rmult_le_compat_r; lra. }
    destruct (binary_round_below prec emax false m2 (e2 + e) mB eB Hc HeB Hs)
      as [Hz|(m3 & e3 & Hr & Hb3 & _)]; [left; exact Hz|right; eauto]. }
  destruct s.
  - rewrite opp_spec. destruct Hf as [->|(m3 & e3 & -> & Hb)]; [left; reflexivity|].
    right. exists m3, e3. auto.
  - exact Hf.
Qed.

Lemma F2R_one32 : F2R (Zpos (2 ^ 23)) (-23) = 1%R.
Proof.
  unfold F2R. change (Zpos (2 ^ 23)) with (2 ^ 23). rewrite <- b2_nonneg_Z, <- b2_add by lia.
  reflexivity.
Qed.

(** Narrowing a number of magnitude at most 1 to binary32 keeps its sign
    and gives a magnitude of at most 1. *)
Lemma pack_f_finite x s m e :
  Prim2SF x = S754_finite s m e -> (F2R (Zpos m) e <= 1)%R ->
  Prim2SF (pack_f x) = S754_zero s \/
  exists m3 e3, Prim2SF (pack_f x) = S754_finite s m3 e3 /\ (F2R (Zpos m3) e3 <= 1)%R.
Proof.
  intros Hx Hle. unfold pack_f. rewrite Hx.
  rewrite <- F2R_one32 in Hle.
  destruct (binary_round_below prec32 emax32 s m e (2 ^ 23) (-23) eq_refl ltac:(unfold emax32, prec32; lia) Hle)
    as [->|(m2 & e2 & -> & Hb & He2)].
  - left. destruct s; reflexivity.
  - unfold SpecFloat.emin, emax32, prec32 in He2. rewrite F2R_one32, <- F2R_one in Hb.
    rewrite <- F2R_one.
    apply SF2Prim_below; [apply canon_one|lia|apply canon_pow2; lia|lia|exact Hb].
Qed.

Lemma pack_f_zero x s : Prim2SF x = S754_zero s -> pack_f x = x.
Proof. intros H. unfold pack_f. rewrite H. reflexivity. Qed.

(** The narrowing of a value of [-1, 1] stays in [-1, 1]. *)
Lemma pack_f_unit_range x : in_unit_range x = true -> in_unit_range (pack_f x) = true.
Proof.
  intros H. destruct (unit_range_finite x H) as [[s Hz]|(s & m & e & Hx & Hle)].
  - rewrite (pack_f_zero x s Hz). exact H.
  - unfold in_unit_range. apply andb_true_iff. apply unit_range_SF.
    destruct (pack_f_finite x s m e Hx Hle) as [Hz|(m3 & e3 & Hp & Hb)].
    + left. eexists. exact Hz.
    + right. do 3 eexists. split; [exact Hp|exact Hb].
Qed.

(** The narrowing of a value of [-1, 1] keeps its sign. *)
Lemma pack_f_sign x :
  in_unit_range x = true ->
  ((0 <=? x)%float = true -> (0 <=? pack_f x)%float = true) /\
  ((x <=? 0)%float = true -> (pack_f x <=? 0)%float = true).
Proof.
  intros H. destruct (unit_range_finite x H) as [[s Hz]|(s & m & e & Hx & Hle)].
  - rewrite (pack_f_zero x s Hz). auto.
  - destruct (pack_f_finite x s m e Hx Hle) as [Hz|(m3 & e3 & Hp & Hb)];
      rewrite !FloatAxioms.leb_spec, Hx; [rewrite Hz|rewrite Hp];
      change (Prim2SF 0) with (S754_zero false); destruct s; split; auto.
Qed.

Lemma pack_f_0 : pack_f 0 = 0%float.
Proof. reflexivity. Qed.

(** ** The per-pixel rule *)


Lemma check_codes_sound fuel : forall start c,
  check_codes fuel start = true -> start <= c < start + Z.of_nat fuel ->
  py_in (float_of_int c) bqa_values = existsb (Z.eqb c) bqa_values.
Proof.
  induction fuel as [|fuel IH]; intros start c Hchk Hc; [lia|].
  cbn [check_codes] in Hchk. apply andb_true_iff in Hchk as [Hhere Hrest].
  destruct (Z.eq_dec c start) as [->|Hne].
  - apply Bool.eqb_prop, Hhere.
  - apply (IH (start + 1)); [exact Hrest|lia].
Qed.

Lemma check_codes_16bit : check_codes (Z.to_nat 65536) 0 = true.
Proof. vm_compute. reflexivity. Qed.

(** On the codes a 16-bit quality band can hold, the float comparison of
    [py_in] is membership of the integer code in the list. *)
Lemma py_in_quality_code (c : Z) :
  0 <= c < 65536 -> (py_in (float_of_int c) bqa_values = true <-> In c bqa_values).
Proof.
  intros Hc.
  rewrite (check_codes_sound (Z.to_nat 65536) 0 c check_codes_16bit) by lia.
  rewrite existsb_exists. split.
  - intros (x & Hx & Heq). apply Z.eqb_eq in Heq. subst x. exact Hx.
  - intros Hx. exists c. split; [exact Hx|apply Z.eqb_refl].
Qed.

(** The per-pixel rule, case by case and in its order. *)
Lemma spec_index_rule quality bandC bandA bandB :
  (py_in quality invalidCodes = true -> spec_index quality bandC bandA bandB = 0%float) /\
  (py_in quality invalidCodes = false -> (bandC <? 0.1)%float = true ->
   spec_index quality bandC bandA bandB = 0%float) /\
  (py_in quality invalidCodes = false -> (bandC <? 0.1)%float = false ->
   (bandA + bandB =? 0)%float = true ->
   spec_index quality bandC bandA bandB = 0%float) /\
  (py_in quality invalidCodes = false -> (bandC <? 0.1)%float = false ->
   (bandA + bandB =? 0)%float = false ->
   spec_index quality bandC bandA bandB = ((bandA - bandB) / (bandA + bandB))%float).
Proof.
  unfold spec_index, minValidC. repeat split; intros; 
    repeat match goal with H : _ = _ |- _ => rewrite H; clear H end; reflexivity.
Qed.

Lemma spec_index_zero_in_range : in_unit_range 0%float = true.
Proof. reflexivity. Qed.

(** The rule applied to finite non-negative ratio bands stays in [-1, 1]. *)
Lemma spec_index_in_unit_range quality gate nir red :
  finite_nonneg red -> finite_nonneg nir ->
  in_unit_range (spec_index quality gate nir red) = true.
Proof.
  intros Fr Fn. unfold spec_index.
  destruct (py_in quality invalidCodes); [reflexivity|].
  destruct (gate <? minValidC)%float; [reflexivity|].
  destruct (ratio_in_unit_range nir red Fn Fr) as [Hz|[Hlo Hhi]].
  - rewrite Hz. reflexivity.
  - destruct (nir + red =? 0)%float; [reflexivity|].
    unfold in_unit_range. rewrite Hlo, Hhi. reflexivity.
Qed.

Lemma ndvi_at_run red_tuple nir_tuple b6_tuple bqa_tuple i r n g q :
  red_tuple !! i = Some r -> nir_tuple !! i = Some n ->
  b6_tuple !! i = Some g -> bqa_tuple !! i = Some q ->
  ndvi_at red_tuple nir_tuple b6_tuple bqa_tuple i = Ok (spec_index q g n r).
Proof.
  intros Hr Hn Hg Hq. unfold ndvi_at, py_index, spec_index, invalidCodes, minValidC.
  munfold. rewrite Hq. destruct (py_in q bqa_values); [reflexivity|].
  rewrite Hg. destruct (g <? 0.1)%float; [reflexivity|].
  rewrite Hn, Hr. destruct (n + r =? 0)%float; reflexivity.
Qed.

Lemma pixel_loop_run red_tuple nir_tuple b6_tuple bqa_tuple :
  (length red_tuple <= length nir_tuple)%nat ->
  (length red_tuple <= length b6_tuple)%nat ->
  (length red_tuple <= length bqa_tuple)%nat ->
  forall indices acc,
    Forall (fun i => (i < length red_tuple)%nat) indices ->
    pixel_loop red_tuple nir_tuple b6_tuple bqa_tuple indices acc =
      Ok (acc ++ map (fun i => pack_f (spec_index (default 0%float (bqa_tuple !! i))
                                                  (default 0%float (b6_tuple !! i))
                                                  (default 0%float (nir_tuple !! i))
                                                  (default 0%float (red_tuple !! i)))) indices).
Proof.
  intros Hn Hg Hq. induction indices as [|i rest IH]; intros acc Hall.
  - cbn. rewrite app_nil_r. reflexivity.
  - apply Forall_cons in Hall as [Hi Hrest]. cbn [pixel_loop map].
    destruct (lookup_lt_is_Some_2 red_tuple i Hi) as [r Hr].
    destruct (lookup_lt_is_Some_2 nir_tuple i ltac:(lia)) as [n Hn'].
    destruct (lookup_lt_is_Some_2 b6_tuple i ltac:(lia)) as [g Hg'].
    destruct (lookup_lt_is_Some_2 bqa_tuple i ltac:(lia)) as [q Hq'].
    rewrite (ndvi_at_run _ _ _ _ i r n g q Hr Hn' Hg' Hq'). munfold.
    rewrite IH by exact Hrest. rewrite Hr, Hn', Hg', Hq'. cbn [default].
    rewrite <- app_assoc. reflexivity.
Qed.

(** The loop body at a pixel with finite non-negative ratio bands. *)
Lemma ndvi_at_in_unit_range red_tuple nir_tuple b6_tuple bqa_tuple i red nir gate quality :
  red_tuple !! i = Some red -> nir_tuple !! i = Some nir ->
  b6_tuple !! i = Some gate -> bqa_tuple !! i = Some quality ->
  finite_nonneg red -> finite_nonneg nir ->
  exists v, ndvi_at red_tuple nir_tuple b6_tuple bqa_tuple i = Ok v /\
            in_unit_range v = true.
Proof.
  intros Hr Hn Hg Hq Fr Fn. exists (spec_index quality gate nir red).
  split; [apply ndvi_at_run; assumption|]. apply spec_index_in_unit_range; assumption.
Qed.

(** ** Rasters and files *)


Lemma isfile_run path w :
  isfile path w = (Ok (bool_decide (is_Some (files w !! path))), w).
Proof. reflexivity. Qed.

Lemma open_dataset_is_file fs path ds :
  open_dataset fs path = Some ds -> fs !! path = Some (RasterFile ds).
Proof.
  unfold open_dataset. destruct (fs !! path) as [[d| |]|]; congruence.
Qed.

Lemma open_after_insert fs path ds :
  open_dataset (<[path := RasterFile ds]> fs) path = Some ds.
Proof. unfold open_dataset. rewrite lookup_insert_eq. reflexivity. Qed.

Lemma driver_Create_run path xsize ysize w :
  can_create (files w) path ->
  driver_Create path xsize ysize w =
    (Ok (Some path),
     {| files := <[path := RasterFile
                     {| RasterXSize := xsize; RasterYSize := ysize;
                        GeoTransform := (0, 1, 0, 0, 0, 1)%float;
                        Projection := EmptyString;
                        pixels := replicate ysize (replicate xsize 0%float) |}]> (files w);
        trace := trace w |}).
Proof.
  unfold can_create, driver_Create. intros H.
  destruct (files w !! path) as [[d| |]|]; congruence.
Qed.

Lemma can_create_cases fs path :
  fs !! path = Some LockedFile \/ can_create fs path.
Proof.
  unfold can_create. destruct (fs !! path) as [[d| |]|]; [right|right|left|right]; congruence.
Qed.

Lemma driver_Create_locked path xsize ysize w :
  files w !! path = Some LockedFile ->
  driver_Create path xsize ysize w = (Ok None, w).
Proof. intros H. unfold driver_Create. rewrite H. reflexivity. Qed.

Lemma update_dataset_run path f w ds :
  files w !! path = Some (RasterFile ds) ->
  update_dataset path f w =
    (Ok tt, {| files := <[path := RasterFile (f ds)]> (files w); trace := trace w |}).
Proof. intros H. unfold update_dataset. rewrite H. reflexivity. Qed.

Lemma set_pixels_id ds : set_pixels (pixels ds) ds = ds.
Proof. destruct ds; reflexivity. Qed.

Lemma wf_row ds line :
  wf_dataset ds -> (line < RasterYSize ds)%nat ->
  exists row, pixels ds !! line = Some row /\ length row = RasterXSize ds.
Proof.
  intros [Hlen Hrows] Hline.
  destruct (lookup_lt_is_Some_2 (pixels ds) line ltac:(lia)) as [row Hrow].
  exists row. split; [exact Hrow|].
  exact (proj1 (Forall_lookup _ _) Hrows line row Hrow).
Qed.

Lemma px_row ds line row i :
  pixels ds !! line = Some row -> px ds line i = default 0%float (row !! i).
Proof. intros H. unfold px, sample. rewrite H. reflexivity. Qed.

Lemma sample_row ds line row i :
  pixels ds !! line = Some row -> sample ds line i = row !! i.
Proof. intros H. unfold sample. rewrite H. reflexivity. Qed.

Lemma wf_sample ds line i :
  wf_dataset ds -> (line < RasterYSize ds)%nat -> (i < RasterXSize ds)%nat ->
  exists v, sample ds line i = Some v /\ px ds line i = v.
Proof.
  intros W Hl Hi. destruct (wf_row ds line W Hl) as (row & Hrow & Hlen).
  destruct (lookup_lt_is_Some_2 row i ltac:(lia)) as [v Hv].
  exists v. unfold px. rewrite (sample_row _ _ _ _ Hrow), Hv. auto.
Qed.

Lemma sample_inside ds line i v :
  wf_dataset ds -> sample ds line i = Some v ->
  (line < RasterYSize ds)%nat /\ (i < RasterXSize ds)%nat.
Proof.
  intros [Hlen Hrows] H. unfold sample in H.
  destruct (pixels ds !! line) as [row|] eqn:Hrow; [|discriminate]. cbn in H.
  pose proof (lookup_lt_Some _ _ _ Hrow) as Hl.
  pose proof (lookup_lt_Some _ _ _ H) as Hi.
  rewrite (proj1 (Forall_lookup _ _) Hrows line row Hrow) in Hi. lia.
Qed.

Lemma index_raster_sample red_band nir_band b6_band bqa_band line i :
  (line < RasterYSize red_band)%nat -> (i < RasterXSize red_band)%nat ->
  sample (index_raster red_band nir_band b6_band bqa_band) line i =
    Some (pack_f (spec_index (px bqa_band line i) (px b6_band line i)
                             (px nir_band line i) (px red_band line i))).
Proof.
  intros Hl Hi. unfold sample, index_raster, index_pixels, index_line. cbn [pixels].
  rewrite list_lookup_fmap, lookup_seq_lt by exact Hl. cbn.
  rewrite list_lookup_fmap, lookup_seq_lt by exact Hi. reflexivity.
Qed.

Lemma foldl_insert_lookup {A : Type} (f : nat -> A) (lines : list nat) :
  forall (l : list A) (j : nat),
    foldl (fun rows line => <[line := f line]> rows) l lines !! j =
    if decide (j ∈ lines /\ (j < length l)%nat) then Some (f j) else l !! j.
Proof.
  induction lines as [|a rest IH]; intros l j; cbn [foldl].
  - rewrite decide_False; [reflexivity|]. intros [H _]. inversion H.
  - rewrite IH, length_insert.
    destruct (decide (j ∈ rest /\ (j < length l)%nat)) as [[Hin Hlt]|Hn].
    + rewrite decide_True; [reflexivity|]. split; [right; exact Hin|exact Hlt].
    + destruct (decide (j = a)) as [->|Hne].
      * destruct (decide ((a < length l)%nat)) as [Hlt|Hge].
        -- rewrite list_lookup_insert_eq by exact Hlt.
           rewrite decide_True; [reflexivity|]. split; [left|exact Hlt].
        -- rewrite list_insert_ge by lia.
           rewrite decide_False; [reflexivity|]. intros [_ H]. lia.
      * rewrite list_lookup_insert_ne by congruence.
        rewrite decide_False; [reflexivity|].
        intros [Hin Hlt]. apply Hn. split; [|exact Hlt].
        apply elem_of_cons in Hin as [->|Hin]; [congruence|exact Hin].
Qed.

Lemma foldl_insert_all {A : Type} (f : nat -> A) (n : nat) (l : list A) :
  length l = n ->
  foldl (fun rows line => <[line := f line]> rows) l (seq 0 n) = map f (seq 0 n).
Proof.
  intros Hlen. apply list_eq. intros j. rewrite foldl_insert_lookup, list_lookup_fmap.
  destruct (decide ((j < n)%nat)) as [Hlt|Hge].
  - rewrite decide_True by (split; [apply elem_of_seq; lia|lia]).
    rewrite lookup_seq_lt by exact Hlt. reflexivity.
  - rewrite decide_False by (intros [_ H]; lia).
    rewrite lookup_ge_None_2 by lia. rewrite lookup_seq_ge by lia. reflexivity.
Qed.

Lemma line_loop_run red_band nir_band b6_band bqa_band out :
  wf_dataset red_band -> wf_dataset nir_band -> wf_dataset b6_band -> wf_dataset bqa_band ->
  covers nir_band red_band -> covers b6_band red_band -> covers bqa_band red_band ->
  forall lines w o,
    files w !! out = Some (RasterFile o) ->
    Forall (fun line => (line < RasterYSize red_band)%nat) lines ->
    line_loop red_band nir_band b6_band bqa_band out lines w =
      (Ok tt,
       {| files := <[out := RasterFile
                       (set_pixels
                          (foldl (fun rows line =>
                                    <[line := index_line red_band nir_band b6_band bqa_band line]> rows)
                                 (pixels o) lines) o)]> (files w);
          trace := trace w |}).
Proof.
  intros Wr Wn Wg Wq [Cnx Cny] [Cgx Cgy] [Cqx Cqy].
  induction lines as [|line rest IH]; intros w o Hout Hall.
  - cbn [line_loop foldl]. rewrite set_pixels_id, insert_id by exact Hout.
    destruct w; reflexivity.
  - apply Forall_cons in Hall as [Hline Hrest]. cbn [line_loop foldl].
    destruct (wf_row red_band line Wr Hline) as (rr & Hrr & Lr).
    destruct (wf_row nir_band line Wn ltac:(lia)) as (rn & Hrn & Ln).
    destruct (wf_row b6_band line Wg ltac:(lia)) as (rg & Hrg & Lg).
    destruct (wf_row bqa_band line Wq ltac:(lia)) as (rq & Hrq & Lq).
    unfold ReadRaster. rewrite Hrr, Hrn, Hrg, Hrq. munfold.
    rewrite pixel_loop_run by (try lia; apply Forall_forall; intros i Hi;
                                apply elem_of_seq in Hi; lia).
    cbn [app]. unfold WriteRaster. rewrite (update_dataset_run _ _ _ _ Hout).
    rewrite (IH _ _ (lookup_insert_eq _ _ _) Hrest).
    cbn [files trace]. rewrite insert_insert_eq. do 4 f_equal.
    unfold set_pixels. cbn [pixels RasterXSize RasterYSize GeoTransform Projection].
    do 2 f_equal. unfold index_line. rewrite Lr. f_equal. apply map_ext. intros i.
    rewrite (px_row _ _ _ i Hrr), (px_row _ _ _ i Hrn), (px_row _ _ _ i Hrg), (px_row _ _ _ i Hrq).
    reflexivity.
Qed.

(** ** Extents *)


Lemma get_image_bounds_run path w ds :
  open_dataset (files w) path = Some ds ->
  get_image_bounds path w = (Ok (bounds_of_dataset ds), w).
Proof.
  intros H. unfold get_image_bounds, gdal_Open. munfold. rewrite H.
  unfold bounds_of_dataset, extent_of_dataset, spec_extentOf.
  destruct (GeoTransform ds) as [[[[[g0 g1] g2] g3] g4] g5]. reflexivity.
Qed.

Lemma get_image_bounds_closed path w :
  open_dataset (files w) path = None ->
  get_image_bounds path w = (Raise AttributeError, w).
Proof.
  intros H. unfold get_image_bounds, gdal_Open. munfold. rewrite H. reflexivity.
Qed.

Lemma get_intersection_bounds_run p1 p2 w ds1 ds2 :
  open_dataset (files w) p1 = Some ds1 ->
  open_dataset (files w) p2 = Some ds2 ->
  get_intersection_bounds p1 p2 w =
    (Ok (intersection_bounds (extent_of_dataset ds1) (extent_of_dataset ds2)), w).
Proof.
  intros H1 H2. unfold get_intersection_bounds. munfold.
  rewrite (get_image_bounds_run p1 w ds1 H1), (get_image_bounds_run p2 w ds2 H2).
  unfold intersection_bounds, bounds_of_dataset, py_sort2. cbn [fst snd minX minY maxX maxY].
  repeat match goal with |- context [if ?c then _ else _] => destruct c end; reflexivity.
Qed.

Lemma bounds_ne_extent_eq ds1 ds2 :
  bounds_ne (bounds_of_dataset ds1) (bounds_of_dataset ds2) =
  negb (extent_eq (extent_of_dataset ds1) (extent_of_dataset ds2)).
Proof.
  unfold bounds_ne, bounds_eq, pair_eq, extent_eq, bounds_of_dataset. cbn [fst snd].
  rewrite !andb_assoc. reflexivity.
Qed.

(** An extent that satisfies the data-model invariant has numeric bounds. *)
Lemma valid_extent_numbers a : valid_extent a -> extent_numbers a.
Proof.
  intros [Hx Hy]. apply float_ltb_number in Hx as [Hx1 Hx2].
  apply float_ltb_number in Hy as [Hy1 Hy2]. repeat split; assumption.
Qed.

(** ** The two methods, for arbitrary collaborators *)

Section Collaborators.

Context (ext : collaborators) (self : Process).


Lemma run_steps_trace steps : forall w,
  exists k, trace (snd (run_steps ext steps w)) = trace w ++ take k steps /\
            (fst (run_steps ext steps w) = Ok tt -> k = length steps) /\
            (steps <> [] -> (1 <= k)%nat).
Proof.
  induction steps as [|e rest IH]; intros w.
  - exists 0%nat. cbn. rewrite app_nil_r.
    split; [reflexivity|]. split; [reflexivity|]. intros H. exfalso. apply H. reflexivity.
  - cbn [run_steps]. munfold. unfold invoke.
    destruct (ext e (files w)) as [[[]|x] fs] eqn:E.
    + destruct (IH {| files := fs; trace := trace w ++ [e] |}) as (k & Hk & Hok & _).
      exists (S k). cbn [trace] in Hk. rewrite Hk, <- app_assoc. cbn.
      split; [reflexivity|]. split; [|lia]. intros H. f_equal. auto.
    + exists 1%nat. cbn. split; [reflexivity|]. split; [discriminate|lia].
Qed.

Lemma run_steps_returns steps :
  returns_normally ext -> forall w, fst (run_steps ext steps w) = Ok tt.
Proof.
  intros Hext. induction steps as [|e rest IH]; intros w; [reflexivity|].
  cbn [run_steps]. munfold. unfold invoke.
  pose proof (Hext e (files w)) as He. destruct (ext e (files w)) as [r fs].
  cbn [fst] in He. subst r. apply IH.
Qed.

Lemma run_plan_trace plan w :
  exists k, trace (snd (run_plan ext self plan w)) =
            trace w ++ take k (plan ++ [EPrint ("Change detection created in " +:+ detection_geojson self)]) /\
            (1 <= k)%nat.
Proof.
  unfold run_plan. munfold. destruct (run_steps_trace plan w) as (k & Hk & Hok & Hpos).
  destruct (run_steps ext plan w) as [[[]|x] w'] eqn:E; cbn [fst snd] in *.
  - exists (S (length plan)). rewrite (Hok eq_refl) in Hk. rewrite firstn_all in Hk.
    unfold print. cbn [snd trace]. rewrite Hk, <- app_assoc.
    rewrite take_ge by (rewrite length_app; cbn; lia). split; [reflexivity|lia].
  - destruct plan as [|e rest]; [discriminate E|].
    exists (k `min` length (e :: rest))%nat. rewrite Hk. split.
    + f_equal. rewrite take_app_le by lia. rewrite <- take_take.
      rewrite (take_ge (e :: rest) (length (e :: rest))) by lia. reflexivity.
    + specialize (Hpos ltac:(discriminate)). cbn [length]. lia.
Qed.

Lemma run_plan_returns plan w :
  returns_normally ext -> fst (run_plan ext self plan w) = Ok tt.
Proof.
  intros Hext. unfold run_plan. munfold.
  pose proof (run_steps_returns plan Hext w) as H.
  destruct (run_steps ext plan w) as [r w']. cbn [fst] in H. subst r. reflexivity.
Qed.

Lemma new_events_run_plan plan w :
  exists k, new_events w (run_plan ext self plan w) =
            take k (plan ++ [EPrint ("Change detection created in " +:+ detection_geojson self)]) /\
            (1 <= k)%nat.
Proof.
  destruct (run_plan_trace plan w) as (k & Hk & Hpos). exists k.
  unfold new_events. rewrite Hk, drop_app_length. auto.
Qed.

Lemma run_plan_first_event e rest w :
  head (new_events w (run_plan ext self (e :: rest) w)) = Some e.
Proof.
  destruct (new_events_run_plan (e :: rest) w) as (k & -> & Hpos).
  destruct k as [|k]; [lia|]. reflexivity.
Qed.

Lemma change_detection_skip w :
  files w !! ndvi self = None \/ files w !! last_ndvi self = None ->
  change_detection ext self w =
    (Ok tt, printed "Change detection was not executed because some NDVI image is missing." w).
Proof.
  intros H. unfold change_detection. munfold. rewrite isfile_run.
  destruct (files w !! ndvi self) as [f|] eqn:E1.
  - rewrite bool_decide_eq_true_2 by eauto. rewrite isfile_run.
    destruct H as [H|H]; [discriminate|]. rewrite H.
    rewrite bool_decide_eq_false_2 by (intros [? ?]; discriminate). reflexivity.
  - rewrite bool_decide_eq_false_2 by (intros [? ?]; discriminate). reflexivity.
Qed.

Lemma change_detection_run w ds1 ds2 :
  open_dataset (files w) (ndvi self) = Some ds1 ->
  open_dataset (files w) (last_ndvi self) = Some ds2 ->
  change_detection ext self w =
    run_plan ext self
      (if extent_eq (extent_of_dataset ds1) (extent_of_dataset ds2)
       then direct_plan self
       else warp_plan self (intersection_bounds (extent_of_dataset ds1) (extent_of_dataset ds2)))
      w.
Proof.
  intros H1 H2. unfold change_detection.
  pose proof (open_dataset_is_file _ _ _ H1) as F1.
  pose proof (open_dataset_is_file _ _ _ H2) as F2.
  unfold mbind at 1, M_bind at 1. rewrite isfile_run, bool_decide_eq_true_2 by eauto.
  unfold mbind at 1, M_bind at 1. rewrite isfile_run, bool_decide_eq_true_2 by eauto.
  unfold mbind at 1, M_bind at 1. rewrite (get_image_bounds_run _ _ _ H1).
  unfold mbind at 1, M_bind at 1. rewrite (get_image_bounds_run _ _ _ H2).
  rewrite bounds_ne_extent_eq.
  destruct (extent_eq (extent_of_dataset ds1) (extent_of_dataset ds2)); cbn [negb].
  - unfold run_plan, direct_plan. cbn [run_steps]. munfold.
    destruct (invoke ext _ w) as [[[]|x] w1]; reflexivity.
  - unfold run_plan, warp_plan. cbn [run_steps]. munfold.
    rewrite (get_intersection_bounds_run _ _ _ _ _ H1 H2).
    destruct (invoke ext _ w) as [[[]|x] w1]; [|reflexivity].
    destruct (invoke ext _ w1) as [[[]|x] w2]; [|reflexivity].
    destruct (invoke ext _ w2) as [[[]|x] w3]; reflexivity.
Qed.

(** Without a metadata file calibration only prints a notice. *)
Lemma make_ref_toa_no_mtl w :
  files w !! mtl self = None ->
  make_ref_toa ext self w = (Ok tt, printed "MTL file not found" w).
Proof.
  intros H. unfold make_ref_toa. munfold. rewrite isfile_run, H.
  rewrite bool_decide_eq_false_2 by (intros [? ?]; discriminate). reflexivity.
Qed.

(** The run of [make_ndvi] once calibration has returned and the four
    datasets open, the three other bands covering the grid of the red one. *)
Lemma make_ndvi_run w w1 red_band nir_band b6_band bqa_band :
  make_ref_toa ext self w = (Ok tt, w1) ->
  open_dataset (files w1) (b4_toa self) = Some red_band ->
  open_dataset (files w1) (b5_toa self) = Some nir_band ->
  open_dataset (files w1) (b6_toa self) = Some b6_band ->
  open_dataset (files w1) (bqa self) = Some bqa_band ->
  wf_dataset red_band -> wf_dataset nir_band -> wf_dataset b6_band -> wf_dataset bqa_band ->
  can_create (files w1) (ndvi self) ->
  covers nir_band red_band -> covers b6_band red_band -> covers bqa_band red_band ->
  make_ndvi ext self w =
    (Ok tt,
     printed ("NDVI Created in " +:+ ndvi self)
       {| files := <[ndvi self := RasterFile (index_raster red_band nir_band b6_band bqa_band)]>
                     (files w1);
          trace := trace w1 |}).
Proof.
  intros Htoa H4 H5 H6 Hqa Wr Wn Wg Wq Hcreate Cn Cg Cq.
  unfold make_ndvi. unfold mbind at 1, M_bind at 1. rewrite Htoa.
  unfold gdal_Open. munfold. rewrite H4, H5, H6, Hqa.
  rewrite (driver_Create_run _ _ _ _ Hcreate).
  unfold SetGeoTransform, SetProjection.
  rewrite (update_dataset_run _ _ _ _ (lookup_insert_eq _ _ _)). cbn [files trace].
  rewrite insert_insert_eq.
  rewrite (update_dataset_run _ _ _ _ (lookup_insert_eq _ _ _)). cbn [files trace].
  rewrite insert_insert_eq.
  rewrite (line_loop_run red_band nir_band b6_band bqa_band (ndvi self) Wr Wn Wg Wq Cn Cg Cq
             _ _ _ (lookup_insert_eq _ _ _))
    by (apply Forall_forall; intros i Hi; apply elem_of_seq in Hi; lia).
  cbn [files trace]. rewrite insert_insert_eq.
  unfold print, printed. cbn [files trace]. do 4 f_equal.
  unfold set_pixels, set_projection, set_geotransform, index_raster, index_pixels.
  cbn [pixels RasterXSize RasterYSize GeoTransform Projection]. f_equal.
  apply foldl_insert_all. apply length_replicate.
Qed.


End Collaborators.


Lemma run_steps_ok steps : forall w,
  run_steps ext_ok steps w = (Ok tt, {| files := files w; trace := trace w ++ steps |}).
Proof.
  induction steps as [|e rest IH]; intros w.
  - cbn. rewrite app_nil_r. destruct w; reflexivity.
  - cbn [run_steps]. munfold. unfold invoke, ext_ok. rewrite IH. cbn.
    rewrite <- app_assoc. reflexivity.
Qed.

Lemma direct_plan_no_warp self :
  Forall (fun e => is_warp e = false)
         (direct_plan self ++ [EPrint ("Change detection created in " +:+ detection_geojson self)]).
Proof. repeat constructor. Qed.

(* ================================================================== *)
(** * Part IV: the stated properties *)
(* ================================================================== *)

(** The sample bands open in the sample world (there is no metadata file,
    so calibration only prints its notice) and nothing is in the way of the
    index raster. *)

Lemma ex_bands_open nir_band :
  wf_dataset nir_band ->
  bands_open ext_ok ex_self (ex_bands nir_band) (printed "MTL file not found" (ex_bands nir_band))
             ex_red nir_band ex_b6 ex_bqa.
Proof.
  intros W. repeat split; try reflexivity; try exact (proj1 W); try exact (proj2 W);
    try (intros H; vm_compute in H; discriminate); repeat constructor.
Qed.

(** ** computeIndex ([make_ndvi]) *)


(** C1: for every pixel of the index raster written by [make_ndvi] (the
    four bands open and the raster can be created, [bands_open]; the
    near-infrared, B6 and quality bands covering the grid of the red band, as
    they do when the four bands share a grid), the output sample is the
    per-pixel rule of computeIndex applied to the four input samples at that
    position, stored as the Float32 sample of the output raster: 0 if the
    quality code is in the invalid set, else 0 if the B6 value is below 0.1,
    else, with numerator nir - red and denominator nir + red, 0 if the
    denominator equals 0 and numerator / denominator otherwise.  The value
    of the rule is what the loop hands to [struct.pack('f', ...)]
    ([ndvi_at_run]); the raster holds its binary32 rounding, which keeps
    every 0 ([pack_f_0]). *)
Theorem make_ndvi_pixel_rule ext self w w1 red_band nir_band b6_band bqa_band :
  bands_open ext self w w1 red_band nir_band b6_band bqa_band ->
  covers nir_band red_band -> covers b6_band red_band -> covers bqa_band red_band ->
  exists w2 out,
    make_ndvi ext self w = (Ok tt, w2) /\
    open_dataset (files w2) (ndvi self) = Some out /\
    forall line i,
      (line < RasterYSize red_band)%nat -> (i < RasterXSize red_band)%nat ->
      exists quality gate nir red,
        sample bqa_band line i = Some quality /\
        sample b6_band line i = Some gate /\
        sample nir_band line i = Some nir /\
        sample red_band line i = Some red /\
        sample out line i = Some (pack_f (spec_index quality gate nir red)).
Proof.
  intros (Htoa & H4 & H5 & H6 & Hqa & Wr & Wn & Wg & Wq & Hcreate) Cn Cg Cq.
  eexists _, (index_raster red_band nir_band b6_band bqa_band). split; [|split].
  - apply (make_ndvi_run ext self w w1 red_band nir_band b6_band bqa_band); auto.
  - unfold printed. cbn [files]. apply open_after_insert.
  - intros line i Hl Hi. destruct Cn as [Cnx Cny], Cg as [Cgx Cgy], Cq as [Cqx Cqy].
    destruct (wf_sample bqa_band line i Wq ltac:(lia) ltac:(lia)) as (q & Sq & Pq).
    destruct (wf_sample b6_band line i Wg ltac:(lia) ltac:(lia)) as (g & Sg & Pg).
    destruct (wf_sample nir_band line i Wn ltac:(lia) ltac:(lia)) as (n & Sn & Pn).
    destruct (wf_sample red_band line i Wr Hl Hi) as (r & Sr & Pr).
    exists q, g, n, r. repeat (split; [assumption|]).
    rewrite index_raster_sample by assumption. rewrite Pq, Pg, Pn, Pr. reflexivity.
Qed.

Lemma make_ndvi_pixel_rule_witness :
  (bands_open ext_ok ex_self (ex_bands ex_nir) (printed "MTL file not found" (ex_bands ex_nir))
              ex_red ex_nir ex_b6 ex_bqa /\
   covers ex_nir ex_red /\ covers ex_b6 ex_red /\ covers ex_bqa ex_red) /\
  exists w2 out,
    make_ndvi ext_ok ex_self (ex_bands ex_nir) = (Ok tt, w2) /\
    open_dataset (files w2) (ndvi ex_self) = Some out /\
    forall line i,
      (line < RasterYSize ex_red)%nat -> (i < RasterXSize ex_red)%nat ->
      exists quality gate nir red,
        sample ex_bqa line i = Some quality /\
        sample ex_b6 line i = Some gate /\
        sample ex_nir line i = Some nir /\
        sample ex_red line i = Some red /\
        sample out line i = Some (pack_f (spec_index quality gate nir red)).
Proof.
  assert (W : wf_dataset ex_nir) by (split; [reflexivity|repeat constructor]).
  assert (C1 : covers ex_nir ex_red) by (split; cbn; lia).
  assert (C2 : covers ex_b6 ex_red) by (split; cbn; lia).
  assert (C3 : covers ex_bqa ex_red) by (split; cbn; lia).
  split.
  - split; [exact (ex_bands_open ex_nir W)|]. auto.
  - exact (make_ndvi_pixel_rule ext_ok ex_self (ex_bands ex_nir)
             (printed "MTL file not found" (ex_bands ex_nir)) ex_red ex_nir ex_b6 ex_bqa
             (ex_bands_open ex_nir W) C1 C2 C3).
Defined.

(** C5 (counterexample): the near-infrared band lies on a 3 x 2 grid, the
    other bands on a 2 x 1 grid; [make_ndvi] does not fail: it returns
    normally and writes an index raster over the grid of the red band. *)
Lemma make_ndvi_mixed_grids_complete :
  ~ same_grid ex_nir_wide ex_red /\
  fst (make_ndvi ext_ok ex_self (ex_bands ex_nir_wide)) = Ok tt /\
  open_dataset (files (snd (make_ndvi ext_ok ex_self (ex_bands ex_nir_wide)))) (ndvi ex_self)
    = Some (ex_raster 2 1 ex_gt [[pack_f ((0.5 - 0.125) / (0.5 + 0.125)); 0]%float]).
Proof.
  split; [|split].
  - intros [H _]. discriminate H.
  - vm_compute. reflexivity.
  - vm_compute. reflexivity.
Qed.

(** With a near-infrared band narrower than the red band the pixel loop runs
    off the end of the scanline tuple as soon as a pixel beyond it passes the
    quality mask and the validity gate: the call stops with [IndexError],
    after the output raster has been created.  A pixel that is masked first
    does not touch the near-infrared tuple, and then the call completes. *)
Example make_ndvi_narrow_band_index_error :
  fst (make_ndvi ext_ok ex_self (ex_files ex_red ex_nir_narrow ex_b6_clear ex_bqa))
    = Raise IndexError /\
  open_dataset
    (files (snd (make_ndvi ext_ok ex_self (ex_files ex_red ex_nir_narrow ex_b6_clear ex_bqa))))
    (ndvi ex_self)
    = Some (ex_raster 2 1 ex_gt [[0; 0]%float]) /\
  fst (make_ndvi ext_ok ex_self (ex_files ex_red ex_nir_narrow ex_b6 ex_bqa)) = Ok tt.
Proof. repeat split; vm_compute; reflexivity. Qed.

(** C5 (amended): [make_ndvi] makes no check of grid dimensions.  Whenever
    the near-infrared, B6 and quality bands are at least as wide and as high
    as the red band B4 (in particular when all four share a grid) it returns
    normally, and the raster it writes has the width, height, geotransform
    and projection of the red band B4.  (The four bands open and the index
    raster can be created: [bands_open].) *)
Theorem make_ndvi_inherits_red_grid ext self w w1 red_band nir_band b6_band bqa_band :
  bands_open ext self w w1 red_band nir_band b6_band bqa_band ->
  covers nir_band red_band -> covers b6_band red_band -> covers bqa_band red_band ->
  exists w2 out,
    make_ndvi ext self w = (Ok tt, w2) /\
    open_dataset (files w2) (ndvi self) = Some out /\
    RasterXSize out = RasterXSize red_band /\
    RasterYSize out = RasterYSize red_band /\
    GeoTransform out = GeoTransform red_band /\
    Projection out = Projection red_band /\
    wf_dataset out.
Proof.
  intros (Htoa & H4 & H5 & H6 & Hqa & Wr & Wn & Wg & Wq & Hcreate) Cn Cg Cq.
  eexists _, (index_raster red_band nir_band b6_band bqa_band). split; [|split].
  - apply (make_ndvi_run ext self w w1 red_band nir_band b6_band bqa_band); auto.
  - unfold printed. cbn [files]. apply open_after_insert.
  - repeat split; try reflexivity.
    + unfold index_raster, index_pixels. cbn [pixels RasterYSize].
      rewrite length_map, length_seq. reflexivity.
    + unfold index_raster, index_pixels. cbn [pixels RasterXSize].
      apply Forall_forall. intros row Hrow. apply list_elem_of_fmap in Hrow as (line & -> & _).
      unfold index_line. rewrite length_map, length_seq. reflexivity.
Qed.

Lemma make_ndvi_inherits_red_grid_witness :
  (bands_open ext_ok ex_self (ex_bands ex_nir_wide)
              (printed "MTL file not found" (ex_bands ex_nir_wide))
              ex_red ex_nir_wide ex_b6 ex_bqa /\
   covers ex_nir_wide ex_red /\ covers ex_b6 ex_red /\ covers ex_bqa ex_red) /\
  exists w2 out,
    make_ndvi ext_ok ex_self (ex_bands ex_nir_wide) = (Ok tt, w2) /\
    open_dataset (files w2) (ndvi ex_self) = Some out /\
    RasterXSize out = RasterXSize ex_red /\
    RasterYSize out = RasterYSize ex_red /\
    GeoTransform out = GeoTransform ex_red /\
    Projection out = Projection ex_red /\
    wf_dataset out.
Proof.
  assert (W : wf_dataset ex_nir_wide) by (split; [reflexivity|repeat constructor]).
  assert (C1 : covers ex_nir_wide ex_red) by (split; cbn; lia).
  assert (C2 : covers ex_b6 ex_red) by (split; cbn; lia).
  assert (C3 : covers ex_bqa ex_red) by (split; cbn; lia).
  split.
  - split; [exact (ex_bands_open ex_nir_wide W)|]. auto.
  - exact (make_ndvi_inherits_red_grid ext_ok ex_self (ex_bands ex_nir_wide)
             (printed "MTL file not found" (ex_bands ex_nir_wide))
             ex_red ex_nir_wide ex_b6 ex_bqa (ex_bands_open ex_nir_wide W) C1 C2 C3).
Defined.

(** C8 (counterexample): the near-infrared sample of the first pixel is
    +infinity, which is non-negative; the pixel is not masked and its
    denominator is not zero, yet the output sample is NaN, which is outside
    [-1, 1]. *)
Lemma make_ndvi_infinite_band_is_nan :
  sample ex_red 0 0 = Some 0.125%float /\ (0 <=? 0.125)%float = true /\
  sample ex_nir_inf 0 0 = Some infinity /\ (0 <=? infinity)%float = true /\
  fst (make_ndvi ext_ok ex_self (ex_bands ex_nir_inf)) = Ok tt /\
  open_dataset (files (snd (make_ndvi ext_ok ex_self (ex_bands ex_nir_inf)))) (ndvi ex_self)
    = Some (ex_raster 2 1 ex_gt [[nan; 0]%float]) /\
  in_unit_range nan = false.
Proof. repeat split; vm_compute; reflexivity. Qed.

(** C8 (amended): for every pixel whose red and near-infrared samples are
    finite and non-negative, the sample [make_ndvi] writes lies in [-1, 1],
    whether it is forced to 0 by the quality, validity-gate or
    zero-denominator rule or computed as the ratio.  The bound is that of
    the binary64 quotient, and the narrowing to Float32 keeps it
    ([pack_f_unit_range]): -1 and 1 are binary32 numbers and the rounding
    is monotone. *)
Theorem make_ndvi_unit_range ext self w w1 red_band nir_band b6_band bqa_band :
  bands_open ext self w w1 red_band nir_band b6_band bqa_band ->
  covers nir_band red_band -> covers b6_band red_band -> covers bqa_band red_band ->
  exists w2 out,
    make_ndvi ext self w = (Ok tt, w2) /\
    open_dataset (files w2) (ndvi self) = Some out /\
    forall line i red nir,
      sample red_band line i = Some red -> sample nir_band line i = Some nir ->
      finite_nonneg red -> finite_nonneg nir ->
      exists v, sample out line i = Some v /\ in_unit_range v = true.
Proof.
  intros (Htoa & H4 & H5 & H6 & Hqa & Wr & Wn & Wg & Wq & Hcreate) Cn Cg Cq.
  eexists _, (index_raster red_band nir_band b6_band bqa_band). split; [|split].
  - apply (make_ndvi_run ext self w w1 red_band nir_band b6_band bqa_band); auto.
  - unfold printed. cbn [files]. apply open_after_insert.
  - intros line i red nir Sr Sn Fr Fn.
    destruct (sample_inside red_band line i red Wr Sr) as [Hl Hi].
    eexists. split; [apply index_raster_sample; assumption|].
    unfold px at 3 4. rewrite Sr, Sn. cbn [default].
    apply pack_f_unit_range, spec_index_in_unit_range; assumption.
Qed.

Lemma make_ndvi_unit_range_witness :
  (bands_open ext_ok ex_self (ex_bands ex_nir) (printed "MTL file not found" (ex_bands ex_nir))
              ex_red ex_nir ex_b6 ex_bqa /\
   covers ex_nir ex_red /\ covers ex_b6 ex_red /\ covers ex_bqa ex_red) /\
  exists w2 out,
    make_ndvi ext_ok ex_self (ex_bands ex_nir) = (Ok tt, w2) /\
    open_dataset (files w2) (ndvi ex_self) = Some out /\
    forall line i red nir,
      sample ex_red line i = Some red -> sample ex_nir line i = Some nir ->
      finite_nonneg red -> finite_nonneg nir ->
      exists v, sample out line i = Some v /\ in_unit_range v = true.
Proof.
  assert (W : wf_dataset ex_nir) by (split; [reflexivity|repeat constructor]).
  assert (C1 : covers ex_nir ex_red) by (split; cbn; lia).
  assert (C2 : covers ex_b6 ex_red) by (split; cbn; lia).
  assert (C3 : covers ex_bqa ex_red) by (split; cbn; lia).
  split.
  - split; [exact (ex_bands_open ex_nir W)|]. auto.
  - exact (make_ndvi_unit_range ext_ok ex_self (ex_bands ex_nir)
             (printed "MTL file not found" (ex_bands ex_nir)) ex_red ex_nir ex_b6 ex_bqa
             (ex_bands_open ex_nir W) C1 C2 C3).
Defined.




(** ** extentOf and intersection ([get_image_bounds], [get_intersection_bounds]) *)


(** C7: for a raster with geotransform (originX, pixelW, rotX, originY,
    rotY, pixelH), width w and height h, [get_image_bounds] returns
    minX = originX, maxY = originY, maxX = originX + w * pixelW + h * rotX
    and minY = originY + w * rotY + h * pixelH. *)
Theorem get_image_bounds_extent path w ds originX pixelW rotX originY rotY pixelH :
  open_dataset (files w) path = Some ds ->
  GeoTransform ds = (originX, pixelW, rotX, originY, rotY, pixelH) ->
  exists b,
    get_image_bounds path w = (Ok b, w) /\
    minX (extent_of_bounds b) = originX /\
    maxY (extent_of_bounds b) = originY /\
    maxX (extent_of_bounds b) =
      (originX + float_of_int (Z.of_nat (RasterXSize ds)) * pixelW
               + float_of_int (Z.of_nat (RasterYSize ds)) * rotX)%float /\
    minY (extent_of_bounds b) =
      (originY + float_of_int (Z.of_nat (RasterXSize ds)) * rotY
               + float_of_int (Z.of_nat (RasterYSize ds)) * pixelH)%float.
Proof.
  intros Hopen Hgt. exists (bounds_of_dataset ds).
  split; [apply get_image_bounds_run, Hopen|].
  unfold bounds_of_dataset, extent_of_dataset, spec_extentOf, extent_of_bounds.
  rewrite Hgt. cbn. repeat split; reflexivity.
Qed.

Lemma get_image_bounds_extent_witness :
  (open_dataset (files (ex_bands ex_nir_wide)) (b5_toa ex_self) = Some ex_nir_wide /\
   GeoTransform ex_nir_wide = (100, 30, 0, 200, 0, -30)%float) /\
  exists b,
    get_image_bounds (b5_toa ex_self) (ex_bands ex_nir_wide) = (Ok b, ex_bands ex_nir_wide) /\
    minX (extent_of_bounds b) = 100%float /\
    maxY (extent_of_bounds b) = 200%float /\
    maxX (extent_of_bounds b) =
      (100 + float_of_int (Z.of_nat (RasterXSize ex_nir_wide)) * 30
           + float_of_int (Z.of_nat (RasterYSize ex_nir_wide)) * 0)%float /\
    minY (extent_of_bounds b) =
      (200 + float_of_int (Z.of_nat (RasterXSize ex_nir_wide)) * 0
           + float_of_int (Z.of_nat (RasterYSize ex_nir_wide)) * -30)%float.
Proof.
  split.
  - split; reflexivity.
  - apply (get_image_bounds_extent (b5_toa ex_self) (ex_bands ex_nir_wide) ex_nir_wide);
      reflexivity.
Defined.

(** Outside the data model: a geotransform whose origin is NaN gives an
    extent that is no valid extent, and the two-element sorts then leave
    their arguments in place, so the result depends on the argument order. *)
Example get_intersection_bounds_nan_order :
  fst (get_intersection_bounds (ndvi ex_self) (last_ndvi ex_self)
         (ex_scenes (ex_index nan 0.5) (ex_index 1 0.75)))
    = Ok [1; 0; nan; 10]%float /\
  fst (get_intersection_bounds (last_ndvi ex_self) (ndvi ex_self)
         (ex_scenes (ex_index nan 0.5) (ex_index 1 0.75)))
    = Ok [nan; 0; 11; 10]%float /\
  py_list_eq [1; 0; nan; 10]%float [nan; 0; 11; 10]%float = false.
Proof. repeat split; vm_compute; reflexivity. Qed.

(** C9: [get_intersection_bounds] is commutative.  For every pair of
    rasters (their extents satisfying the invariant of the data model,
    minX < maxX and minY < maxY), the lists returned for the two orders of
    the arguments are equal, and each is the component-wise maximum of the
    two minX and minY values and minimum of the two maxX and maxY values. *)
Theorem get_intersection_bounds_comm p1 p2 w ds1 ds2 :
  open_dataset (files w) p1 = Some ds1 ->
  open_dataset (files w) p2 = Some ds2 ->
  valid_extent (extent_of_dataset ds1) ->
  valid_extent (extent_of_dataset ds2) ->
  exists l12 l21,
    get_intersection_bounds p1 p2 w = (Ok l12, w) /\
    get_intersection_bounds p2 p1 w = (Ok l21, w) /\
    py_list_eq l12 l21 = true /\
    py_list_eq l12 (intersection_list (extent_of_dataset ds1) (extent_of_dataset ds2)) = true /\
    py_list_eq l21 (intersection_list (extent_of_dataset ds2) (extent_of_dataset ds1)) = true.
Proof.
  intros H1 H2 V1 V2.
  destruct (valid_extent_numbers _ V1) as (A1 & A2 & A3 & A4).
  destruct (valid_extent_numbers _ V2) as (B1 & B2 & B3 & B4).
  eexists _, _. split; [|split; [|split; [|split]]].
  - apply get_intersection_bounds_run; eassumption.
  - apply get_intersection_bounds_run; eassumption.
  - unfold intersection_bounds, py_list_eq.
    rewrite !py_max_swap, !py_min_swap by assumption. reflexivity.
  - unfold intersection_bounds, intersection_list, py_list_eq.
    rewrite !py_max_sorted, !py_min_sorted by assumption. reflexivity.
  - unfold intersection_bounds, intersection_list, py_list_eq.
    rewrite !py_max_sorted, !py_min_sorted by assumption. reflexivity.
Qed.

Lemma get_intersection_bounds_comm_witness :
  (open_dataset (files (ex_scenes (ex_index 0 0.5) (ex_index 5 0.75))) (ndvi ex_self)
     = Some (ex_index 0 0.5) /\
   open_dataset (files (ex_scenes (ex_index 0 0.5) (ex_index 5 0.75))) (last_ndvi ex_self)
     = Some (ex_index 5 0.75) /\
   valid_extent (extent_of_dataset (ex_index 0 0.5)) /\
   valid_extent (extent_of_dataset (ex_index 5 0.75))) /\
  exists l12 l21,
    get_intersection_bounds (ndvi ex_self) (last_ndvi ex_self)
      (ex_scenes (ex_index 0 0.5) (ex_index 5 0.75))
      = (Ok l12, ex_scenes (ex_index 0 0.5) (ex_index 5 0.75)) /\
    get_intersection_bounds (last_ndvi ex_self) (ndvi ex_self)
      (ex_scenes (ex_index 0 0.5) (ex_index 5 0.75))
      = (Ok l21, ex_scenes (ex_index 0 0.5) (ex_index 5 0.75)) /\
    py_list_eq l12 l21 = true /\
    py_list_eq l12 (intersection_list (extent_of_dataset (ex_index 0 0.5))
                                      (extent_of_dataset (ex_index 5 0.75))) = true /\
    py_list_eq l21 (intersection_list (extent_of_dataset (ex_index 5 0.75))
                                      (extent_of_dataset (ex_index 0 0.5))) = true.
Proof.
  split.
  - repeat split; reflexivity.
  - apply (get_intersection_bounds_comm (ndvi ex_self) (last_ndvi ex_self)
             (ex_scenes (ex_index 0 0.5) (ex_index 5 0.75)) (ex_index 0 0.5) (ex_index 5 0.75));
      repeat split; reflexivity.
Defined.

(** ** detectChange ([change_detection]) *)


(** C2: when the current or the prior index file is absent,
    [change_detection] is skipped, not failed: it returns normally, its only
    effect is the printed notice, no collaborator (alignment, differencing,
    thresholding, vectorization) is called and no file is touched. *)
Theorem change_detection_skipped ext self w :
  files w !! ndvi self = None \/ files w !! last_ndvi self = None ->
  change_detection ext self w =
    (Ok tt, printed "Change detection was not executed because some NDVI image is missing." w) /\
  files (snd (change_detection ext self w)) = files w /\
  new_events w (change_detection ext self w) =
    [EPrint "Change detection was not executed because some NDVI image is missing."].
Proof.
  intros H. rewrite (change_detection_skip ext self w H).
  split; [reflexivity|]. split; [reflexivity|].
  unfold new_events, printed. cbn [snd trace]. rewrite drop_app_length. reflexivity.
Qed.

Lemma change_detection_skipped_witness :
  (files ex_first_scene !! ndvi ex_self = None \/
   files ex_first_scene !! last_ndvi ex_self = None) /\
  change_detection ext_ok ex_self ex_first_scene =
    (Ok tt, printed "Change detection was not executed because some NDVI image is missing."
              ex_first_scene) /\
  files (snd (change_detection ext_ok ex_self ex_first_scene)) = files ex_first_scene /\
  new_events ex_first_scene (change_detection ext_ok ex_self ex_first_scene) =
    [EPrint "Change detection was not executed because some NDVI image is missing."].
Proof.
  assert (H : files ex_first_scene !! last_ndvi ex_self = None) by reflexivity.
  split.
  - right. exact H.
  - apply (change_detection_skipped ext_ok ex_self ex_first_scene). right. exact H.
Defined.

(** C3: for two present index rasters, [change_detection] compares their
    extents exactly.  If all four bounds are equal it runs the subtraction
    on the two original files and calls no warp; if they differ it warps
    both files onto the intersection extent and subtracts the warped files. *)
Theorem change_detection_alignment ext self w current prior :
  indices_open self w current prior ->
  (extent_eq (extent_of_dataset current) (extent_of_dataset prior) = true ->
     change_detection ext self w = run_plan ext self (direct_plan self) w /\
     Forall (fun e => is_warp e = false) (new_events w (change_detection ext self w))) /\
  (extent_eq (extent_of_dataset current) (extent_of_dataset prior) = false ->
     change_detection ext self w =
       run_plan ext self
         (warp_plan self (intersection_bounds (extent_of_dataset current)
                                              (extent_of_dataset prior))) w).
Proof.
  intros [H1 H2]. pose proof (change_detection_run ext self w current prior H1 H2) as Hrun.
  split; intros He; rewrite He in Hrun.
  - split; [exact Hrun|]. rewrite Hrun.
    destruct (new_events_run_plan ext self (direct_plan self) w) as (k & -> & _).
    apply Forall_take, direct_plan_no_warp.
  - exact Hrun.
Qed.

Lemma change_detection_alignment_witness :
  (indices_open ex_self (ex_scenes (ex_index 0 0.5) (ex_index 0 0.75))
                (ex_index 0 0.5) (ex_index 0 0.75) /\
   extent_eq (extent_of_dataset (ex_index 0 0.5)) (extent_of_dataset (ex_index 0 0.75)) = true /\
   change_detection ext_ok ex_self (ex_scenes (ex_index 0 0.5) (ex_index 0 0.75)) =
     run_plan ext_ok ex_self (direct_plan ex_self) (ex_scenes (ex_index 0 0.5) (ex_index 0 0.75))) /\
  (indices_open ex_self (ex_scenes (ex_index 0 0.5) (ex_index 5 0.75))
                (ex_index 0 0.5) (ex_index 5 0.75) /\
   extent_eq (extent_of_dataset (ex_index 0 0.5)) (extent_of_dataset (ex_index 5 0.75)) = false /\
   change_detection ext_ok ex_self (ex_scenes (ex_index 0 0.5) (ex_index 5 0.75)) =
     run_plan ext_ok ex_self (warp_plan ex_self [5; 0; 10; 10]%float)
       (ex_scenes (ex_index 0 0.5) (ex_index 5 0.75))).
Proof.
  assert (O1 : indices_open ex_self (ex_scenes (ex_index 0 0.5) (ex_index 0 0.75))
                 (ex_index 0 0.5) (ex_index 0 0.75)) by (split; reflexivity).
  assert (O2 : indices_open ex_self (ex_scenes (ex_index 0 0.5) (ex_index 5 0.75))
                 (ex_index 0 0.5) (ex_index 5 0.75)) by (split; reflexivity).
  split.
  - split; [exact O1|]. split; [reflexivity|].
    exact (proj1 (proj1 (change_detection_alignment ext_ok ex_self _ _ _ O1) eq_refl)).
  - split; [exact O2|]. split; [reflexivity|].
    exact (proj2 (change_detection_alignment ext_ok ex_self _ _ _ O2) eq_refl).
Defined.

(** C4: the change mask is 1 exactly where the delta is strictly less than
    the threshold -0.08 that [change_detection] passes to [mask_image], and
    0 elsewhere: -0.09 is flagged, -0.07 and +0.5 are not, and no positive
    delta is ever flagged. *)
Theorem change_mask_threshold :
  change_threshold = (-0.08)%float /\
  (forall self, In (EMask (changes self) change_threshold (changes_mask self))
                   (after_subtract self)) /\
  (forall delta, mask_pixel change_threshold delta = 1 <-> (delta <? -0.08)%float = true) /\
  (forall delta, mask_pixel change_threshold delta = 0 <-> (delta <? -0.08)%float = false) /\
  (forall rows line i row delta,
      rows !! line = Some row -> row !! i = Some delta ->
      (mask_image_pixels change_threshold rows !! line) ≫= (fun r => r !! i)
        = Some (mask_pixel change_threshold delta)) /\
  mask_pixel change_threshold (-0.09) = 1 /\
  mask_pixel change_threshold (-0.07) = 0 /\
  mask_pixel change_threshold 0.5 = 0 /\
  (forall delta, (0 <? delta)%float = true -> mask_pixel change_threshold delta = 0).
Proof.
  split; [reflexivity|]. split; [intros self; left; reflexivity|].
  split; [|split; [|split; [|split; [|split; [|split]]]]].
  - intros delta. unfold mask_pixel. change (-0.08)%float with change_threshold.
    destruct (delta <? change_threshold)%float; split; congruence.
  - intros delta. unfold mask_pixel. change (-0.08)%float with change_threshold.
    destruct (delta <? change_threshold)%float; split; congruence.
  - intros rows line i row delta Hrow Hdelta. unfold mask_image_pixels.
    rewrite list_lookup_fmap, Hrow. cbn. rewrite list_lookup_fmap, Hdelta. reflexivity.
  - reflexivity.
  - reflexivity.
  - reflexivity.
  - intros delta Hpos. unfold mask_pixel.
    rewrite nonneg_not_below_threshold; [reflexivity|]. apply float_ltb_leb, Hpos.
Qed.

(** C6 (counterexample): the two index rasters cover [0, 10] and [20, 30]
    in x; their intersection (20, 0, 10, 10) is degenerate.  With
    collaborators that return, [change_detection] does not fail: it hands
    the degenerate extent to [warp_image] for both files and runs to the end. *)
Lemma change_detection_disjoint_proceeds :
  extent_of_list (intersection_bounds (extent_of_dataset (ex_index 0 0.5))
                                      (extent_of_dataset (ex_index 20 0.75)))
    = Some {| minX := 20; minY := 0; maxX := 10; maxY := 10 |} /\
  degenerate {| minX := 20; minY := 0; maxX := 10; maxY := 10 |} = true /\
  fst (change_detection ext_ok ex_self (ex_scenes (ex_index 0 0.5) (ex_index 20 0.75))) = Ok tt /\
  take 2 (trace (snd (change_detection ext_ok ex_self
                        (ex_scenes (ex_index 0 0.5) (ex_index 20 0.75))))) =
    [ EWarp (ndvi ex_self) [20; 0; 10; 10]%float (ndvi_warp ex_self);
      EWarp (last_ndvi ex_self) [20; 0; 10; 10]%float (last_ndvi_warp ex_self) ].
Proof. repeat split; vm_compute; reflexivity. Qed.

(** C6 (amended): for two present index rasters whose extents differ,
    [change_detection] makes no overlap check: also when the intersection
    extent is degenerate, the first thing it does is hand that extent to
    [warp_image], for the current and then the prior file, and it goes on
    with the subtraction, the mask and the vectorization; it raises only if
    a collaborator raises, and returns normally when the collaborators do. *)
Theorem change_detection_degenerate_extent ext self w current prior e :
  indices_open self w current prior ->
  extent_eq (extent_of_dataset current) (extent_of_dataset prior) = false ->
  extent_of_list (intersection_bounds (extent_of_dataset current) (extent_of_dataset prior))
    = Some e ->
  degenerate e = true ->
  change_detection ext self w =
    run_plan ext self
      (warp_plan self (intersection_bounds (extent_of_dataset current)
                                           (extent_of_dataset prior))) w /\
  head (new_events w (change_detection ext self w)) =
    Some (EWarp (ndvi self)
                (intersection_bounds (extent_of_dataset current) (extent_of_dataset prior))
                (ndvi_warp self)) /\
  (returns_normally ext -> fst (change_detection ext self w) = Ok tt).
Proof.
  intros [H1 H2] He _ _. pose proof (change_detection_run ext self w current prior H1 H2) as Hrun.
  rewrite He in Hrun. split; [exact Hrun|]. rewrite Hrun. split.
  - apply run_plan_first_event.
  - intros Hext. apply run_plan_returns, Hext.
Qed.

Lemma change_detection_degenerate_extent_witness :
  (indices_open ex_self (ex_scenes (ex_index 0 0.5) (ex_index 20 0.75))
                (ex_index 0 0.5) (ex_index 20 0.75) /\
   extent_eq (extent_of_dataset (ex_index 0 0.5)) (extent_of_dataset (ex_index 20 0.75)) = false /\
   extent_of_list (intersection_bounds (extent_of_dataset (ex_index 0 0.5))
                                       (extent_of_dataset (ex_index 20 0.75)))
     = Some {| minX := 20; minY := 0; maxX := 10; maxY := 10 |} /\
   degenerate {| minX := 20; minY := 0; maxX := 10; maxY := 10 |} = true) /\
  change_detection ext_ok ex_self (ex_scenes (ex_index 0 0.5) (ex_index 20 0.75)) =
    run_plan ext_ok ex_self
      (warp_plan ex_self (intersection_bounds (extent_of_dataset (ex_index 0 0.5))
                                              (extent_of_dataset (ex_index 20 0.75))))
      (ex_scenes (ex_index 0 0.5) (ex_index 20 0.75)) /\
  head (new_events (ex_scenes (ex_index 0 0.5) (ex_index 20 0.75))
          (change_detection ext_ok ex_self (ex_scenes (ex_index 0 0.5) (ex_index 20 0.75)))) =
    Some (EWarp (ndvi ex_self)
                (intersection_bounds (extent_of_dataset (ex_index 0 0.5))
                                     (extent_of_dataset (ex_index 20 0.75)))
                (ndvi_warp ex_self)) /\
  (returns_normally ext_ok ->
   fst (change_detection ext_ok ex_self (ex_scenes (ex_index 0 0.5) (ex_index 20 0.75))) = Ok tt).
Proof.
  assert (O : indices_open ex_self (ex_scenes (ex_index 0 0.5) (ex_index 20 0.75))
                (ex_index 0 0.5) (ex_index 20 0.75)) by (split; reflexivity).
  split.
  - split; [exact O|]. repeat split; reflexivity.
  - apply (change_detection_degenerate_extent ext_ok ex_self _ _ _
             {| minX := 20; minY := 0; maxX := 10; maxY := 10 |} O); reflexivity.
Defined.

(* ================================================================== *)
(** * Part V: further properties of the code *)
(* ================================================================== *)

(** ** Extents ([get_intersection_bounds]) *)

Lemma float_self_select (x : float) : (if (x <? x)%float then x else x) = x.
Proof. destruct (x <? x)%float; reflexivity. Qed.

(** X1: the intersection of an image with itself is its own extent: for
    every raster that opens, [get_intersection_bounds p p] returns the four
    bounds of the raster unchanged (also when a bound is NaN) and leaves the
    world as it was. *)
Theorem get_intersection_bounds_self p w ds :
  open_dataset (files w) p = Some ds ->
  get_intersection_bounds p p w =
    (Ok [minX (extent_of_dataset ds); minY (extent_of_dataset ds);
         maxX (extent_of_dataset ds); maxY (extent_of_dataset ds)], w).
Proof.
  intros H. rewrite (get_intersection_bounds_run p p w ds ds H H).
  unfold intersection_bounds. rewrite !float_self_select. reflexivity.
Qed.

Lemma get_intersection_bounds_self_witness :
  open_dataset (files (ex_scenes (ex_index nan 0.5) (ex_index 1 0.75))) (ndvi ex_self)
    = Some (ex_index nan 0.5) /\
  get_intersection_bounds (ndvi ex_self) (ndvi ex_self)
    (ex_scenes (ex_index nan 0.5) (ex_index 1 0.75)) =
    (Ok [minX (extent_of_dataset (ex_index nan 0.5)); minY (extent_of_dataset (ex_index nan 0.5));
         maxX (extent_of_dataset (ex_index nan 0.5)); maxY (extent_of_dataset (ex_index nan 0.5))],
     ex_scenes (ex_index nan 0.5) (ex_index 1 0.75)).
Proof.
  assert (H : open_dataset (files (ex_scenes (ex_index nan 0.5) (ex_index 1 0.75))) (ndvi ex_self)
              = Some (ex_index nan 0.5)) by reflexivity.
  split; [exact H|].
  exact (get_intersection_bounds_self (ndvi ex_self)
           (ex_scenes (ex_index nan 0.5) (ex_index 1 0.75)) (ex_index nan 0.5) H).
Defined.

Lemma select_max_bounds x y :
  is_number x -> is_number y ->
  (x <=? (if (y <? x)%float then x else y))%float = true /\
  (y <=? (if (y <? x)%float then x else y))%float = true.
Proof.
  intros Hx Hy. destruct (y <? x)%float eqn:E.
  - split; [apply float_leb_refl, Hx|apply float_ltb_leb, E].
  - split; [apply float_not_ltb_leb; assumption|apply float_leb_refl, Hy].
Qed.

Lemma select_min_bounds x y :
  is_number x -> is_number y ->
  ((if (y <? x)%float then y else x) <=? x)%float = true /\
  ((if (y <? x)%float then y else x) <=? y)%float = true.
Proof.
  intros Hx Hy. destruct (y <? x)%float eqn:E.
  - split; [apply float_ltb_leb, E|apply float_leb_refl, Hy].
  - split; [apply float_leb_refl, Hx|apply float_not_ltb_leb; assumption].
Qed.

(** X2: for two rasters whose extent bounds are all numbers, the extent
    [get_intersection_bounds] returns lies within both extents: its minX and
    minY are at least those of each raster, its maxX and maxY at most those
    of each raster, and its own bounds are numbers. *)
Theorem get_intersection_bounds_within p1 p2 w ds1 ds2 :
  open_dataset (files w) p1 = Some ds1 ->
  open_dataset (files w) p2 = Some ds2 ->
  extent_numbers (extent_of_dataset ds1) ->
  extent_numbers (extent_of_dataset ds2) ->
  exists l e,
    get_intersection_bounds p1 p2 w = (Ok l, w) /\
    extent_of_list l = Some e /\
    extent_numbers e /\
    extent_within e (extent_of_dataset ds1) = true /\
    extent_within e (extent_of_dataset ds2) = true.
Proof.
  intros H1 H2 (A1 & A2 & A3 & A4) (B1 & B2 & B3 & B4).
  eexists _, _. split; [apply get_intersection_bounds_run; eassumption|].
  split; [reflexivity|].
  destruct (select_max_bounds _ _ A1 B1) as [X1 X2].
  destruct (select_max_bounds _ _ A2 B2) as [Y1 Y2].
  destruct (select_min_bounds _ _ A3 B3) as [X3 X4].
  destruct (select_min_bounds _ _ A4 B4) as [Y3 Y4].
  split; [|split].
  - repeat split; cbn [minX minY maxX maxY];
      match goal with |- is_number (if ?c then _ else _) => destruct c; assumption end.
  - unfold extent_within. cbn [minX minY maxX maxY]. rewrite X1, Y1, X3, Y3. reflexivity.
  - unfold extent_within. cbn [minX minY maxX maxY]. rewrite X2, Y2, X4, Y4. reflexivity.
Qed.

Lemma get_intersection_bounds_within_witness :
  (open_dataset (files (ex_scenes (ex_index 0 0.5) (ex_index 5 0.75))) (ndvi ex_self)
     = Some (ex_index 0 0.5) /\
   open_dataset (files (ex_scenes (ex_index 0 0.5) (ex_index 5 0.75))) (last_ndvi ex_self)
     = Some (ex_index 5 0.75) /\
   extent_numbers (extent_of_dataset (ex_index 0 0.5)) /\
   extent_numbers (extent_of_dataset (ex_index 5 0.75))) /\
  exists l e,
    get_intersection_bounds (ndvi ex_self) (last_ndvi ex_self)
      (ex_scenes (ex_index 0 0.5) (ex_index 5 0.75))
      = (Ok l, ex_scenes (ex_index 0 0.5) (ex_index 5 0.75)) /\
    extent_of_list l = Some e /\
    extent_numbers e /\
    extent_within e (extent_of_dataset (ex_index 0 0.5)) = true /\
    extent_within e (extent_of_dataset (ex_index 5 0.75)) = true.
Proof.
  split.
  - repeat split; reflexivity.
  - apply (get_intersection_bounds_within (ndvi ex_self) (last_ndvi ex_self)
             (ex_scenes (ex_index 0 0.5) (ex_index 5 0.75)) (ex_index 0 0.5) (ex_index 5 0.75));
      repeat split; reflexivity.
Defined.

(** X3: [get_intersection_bounds] never changes the world; it raises
    exactly when one of the two images does not open, and the only exception
    it raises is [AttributeError] (the attribute access on [None] in
    [get_image_bounds]); when it returns, the list has four entries. *)
Theorem get_intersection_bounds_outcome p1 p2 w :
  snd (get_intersection_bounds p1 p2 w) = w /\
  (fst (get_intersection_bounds p1 p2 w) = Raise AttributeError <->
   open_dataset (files w) p1 = None \/ open_dataset (files w) p2 = None) /\
  (forall e, fst (get_intersection_bounds p1 p2 w) = Raise e -> e = AttributeError) /\
  (forall l, fst (get_intersection_bounds p1 p2 w) = Ok l -> length l = 4%nat).
Proof.
  destruct (open_dataset (files w) p1) as [ds1|] eqn:H1.
  - destruct (open_dataset (files w) p2) as [ds2|] eqn:H2.
    + rewrite (get_intersection_bounds_run p1 p2 w ds1 ds2 H1 H2). cbn [fst snd].
      split; [reflexivity|]. split; [|split].
      * split; [discriminate|]. intros [H|H]; discriminate.
      * discriminate.
      * intros l [= <-]. reflexivity.
    + unfold get_intersection_bounds. munfold.
      rewrite (get_image_bounds_run p1 w ds1 H1), (get_image_bounds_closed p2 w H2).
      cbn [fst snd]. split; [reflexivity|]. split; [|split].
      * split; auto.
      * intros e [= <-]. reflexivity.
      * discriminate.
  - unfold get_intersection_bounds. munfold. rewrite (get_image_bounds_closed p1 w H1).
    cbn [fst snd]. split; [reflexivity|]. split; [|split].
    * split; auto.
    * intros e [= <-]. reflexivity.
    * discriminate.
Qed.

(** ** Orchestration of [change_detection] *)

Section Orchestration.
Context (ext : collaborators) (self : Process).

Lemma run_steps_result steps : forall w,
  (fst (run_steps ext steps w) = Ok tt /\
   trace (snd (run_steps ext steps w)) = trace w ++ steps) \/
  (exists k e x fs,
     steps !! k = Some e /\ fst (ext e fs) = Raise x /\
     fst (run_steps ext steps w) = Raise x /\
     trace (snd (run_steps ext steps w)) = trace w ++ take (S k) steps).
Proof.
  induction steps as [|e rest IH]; intros w.
  - left. cbn. rewrite app_nil_r. auto.
  - cbn [run_steps]. munfold. unfold invoke.
    destruct (ext e (files w)) as [[[]|x] fs] eqn:E.
    + destruct (IH {| files := fs; trace := trace w ++ [e] |})
        as [[Hok Htr]|(k & e' & x & fs' & Hk & He & Hr & Htr)]; cbn [trace] in Htr.
      * left. split; [exact Hok|]. rewrite Htr, <- app_assoc. reflexivity.
      * right. exists (S k), e', x, fs'. split; [exact Hk|]. split; [exact He|].
        split; [exact Hr|]. rewrite Htr, <- app_assoc. reflexivity.
    + right. exists 0%nat, e, x, (files w). rewrite E. cbn. auto.
Qed.

Lemma run_plan_result plan w :
  (fst (run_plan ext self plan w) = Ok tt /\
   new_events w (run_plan ext self plan w) =
     plan ++ [EPrint ("Change detection created in " +:+ detection_geojson self)]) \/
  (exists k e x fs,
     plan !! k = Some e /\ fst (ext e fs) = Raise x /\
     fst (run_plan ext self plan w) = Raise x /\
     new_events w (run_plan ext self plan w) = take (S k) plan).
Proof.
  unfold run_plan, new_events. munfold.
  destruct (run_steps_result plan w) as [[Hok Htr]|(k & e & x & fs & Hk & He & Hr & Htr)].
  - left. destruct (run_steps ext plan w) as [[[]|y] w']; cbn [fst snd] in *; [|discriminate].
    split; [reflexivity|]. unfold print. cbn [snd trace].
    rewrite Htr, <- app_assoc, drop_app_length. reflexivity.
  - right. exists k, e, x, fs. split; [exact Hk|]. split; [exact He|].
    destruct (run_steps ext plan w) as [[[]|y] w']; cbn [fst snd] in *; [discriminate|].
    split; [exact Hr|]. rewrite Htr, drop_app_length. reflexivity.
Qed.

Lemma run_steps_invariant (Inv : gmap string file -> Prop) steps :
  (forall e fs, Inv fs -> Inv (snd (ext e fs))) ->
  forall w, Inv (files w) -> Inv (files (snd (run_steps ext steps w))).
Proof.
  intros Hext. induction steps as [|e rest IH]; intros w Hw; [exact Hw|].
  cbn [run_steps]. munfold. unfold invoke.
  pose proof (Hext e (files w) Hw) as He.
  destruct (ext e (files w)) as [[[]|x] fs]; cbn [snd] in He.
  - apply IH. exact He.
  - exact He.
Qed.

Lemma invoke_invariant (Inv : gmap string file -> Prop) e w :
  (forall e fs, Inv fs -> Inv (snd (ext e fs))) ->
  Inv (files w) -> Inv (files (snd (invoke ext e w))).
Proof.
  intros Hext Hw. unfold invoke. pose proof (Hext e (files w) Hw) as He.
  destruct (ext e (files w)) as [r fs]. exact He.
Qed.

Lemma get_image_bounds_world path w : snd (get_image_bounds path w) = w.
Proof.
  unfold get_image_bounds, gdal_Open. munfold.
  destruct (open_dataset (files w) path); reflexivity.
Qed.

Lemma get_intersection_bounds_world p1 p2 w : snd (get_intersection_bounds p1 p2 w) = w.
Proof.
  unfold get_intersection_bounds. munfold.
  pose proof (get_image_bounds_world p1 w) as H1.
  destruct (get_image_bounds p1 w) as [[b1|x] w1]; cbn [snd] in H1; subst w1; [|reflexivity].
  pose proof (get_image_bounds_world p2 w) as H2.
  destruct (get_image_bounds p2 w) as [[b2|x] w2]; cbn [snd] in H2; subst w2; reflexivity.
Qed.

Lemma change_detection_invariant (Inv : gmap string file -> Prop) w :
  (forall e fs, Inv fs -> Inv (snd (ext e fs))) ->
  Inv (files w) -> Inv (files (snd (change_detection ext self w))).
Proof.
  intros Hext Hw. unfold change_detection.
  unfold mbind at 1, M_bind at 1. rewrite isfile_run.
  unfold mbind at 1, M_bind at 1.
  assert (Hthere : exists b,
            (if bool_decide (is_Some (files w !! ndvi self))
             then isfile (last_ndvi self) else mret false) w = (Ok b, w)).
  { destruct (bool_decide (is_Some (files w !! ndvi self))); eexists; reflexivity. }
  destruct Hthere as [b ->]. destruct b; [|exact Hw].
  unfold mbind at 1, M_bind at 1.
  pose proof (get_image_bounds_world (ndvi self) w) as H1.
  destruct (get_image_bounds (ndvi self) w) as [[cur|x] w1]; cbn [snd] in H1; subst w1;
    [|exact Hw].
  unfold mbind at 1, M_bind at 1.
  pose proof (get_image_bounds_world (last_ndvi self) w) as H2.
  destruct (get_image_bounds (last_ndvi self) w) as [[prev|x] w2]; cbn [snd] in H2; subst w2;
    [|exact Hw].
  unfold mbind at 1, M_bind at 1.
  match goal with
  | |- context [(if bounds_ne cur prev then ?a else ?b) w] =>
      assert (Hsub : Inv (files (snd ((if bounds_ne cur prev then a else b) w))));
      [|destruct ((if bounds_ne cur prev then a else b) w) as [[[]|x] w6]; cbn [snd] in Hsub;
        [|exact Hsub]]
  end.
  { destruct (bounds_ne cur prev).
    - munfold. pose proof (get_intersection_bounds_world (ndvi self) (last_ndvi self) w) as H3.
      destruct (get_intersection_bounds (ndvi self) (last_ndvi self) w) as [[bounds|x] w3];
        cbn [snd] in H3; subst w3; [|exact Hw].
      pose proof (invoke_invariant Inv (EWarp (ndvi self) bounds (ndvi_warp self)) w Hext Hw) as I1.
      destruct (invoke ext _ w) as [[[]|x] w4]; cbn [snd] in I1; [|exact I1].
      pose proof (invoke_invariant Inv (EWarp (last_ndvi self) bounds (last_ndvi_warp self)) w4 Hext I1) as I2.
      destruct (invoke ext _ w4) as [[[]|x] w5]; cbn [snd] in I2; [|exact I2].
      apply invoke_invariant; assumption.
    - apply invoke_invariant; assumption. }
  munfold.
  pose proof (run_steps_invariant Inv (after_subtract self) Hext w6 Hsub) as Hrs.
  destruct (run_steps ext (after_subtract self) w6) as [[[]|x] w7]; cbn [snd] in Hrs;
    exact Hrs.
Qed.

Lemma change_detection_not_raster w :
  is_Some (files w !! ndvi self) -> is_Some (files w !! last_ndvi self) ->
  open_dataset (files w) (ndvi self) = None \/
  open_dataset (files w) (last_ndvi self) = None ->
  change_detection ext self w = (Raise AttributeError, w).
Proof.
  intros F1 F2 H. unfold change_detection.
  unfold mbind at 1, M_bind at 1. rewrite isfile_run, bool_decide_eq_true_2 by exact F1.
  unfold mbind at 1, M_bind at 1. rewrite isfile_run, bool_decide_eq_true_2 by exact F2.
  unfold mbind at 1, M_bind at 1.
  destruct (open_dataset (files w) (ndvi self)) as [ds1|] eqn:O1.
  - rewrite (get_image_bounds_run _ _ _ O1).
    unfold mbind at 1, M_bind at 1.
    destruct H as [H|H]; [discriminate|]. rewrite (get_image_bounds_closed _ _ H). reflexivity.
  - rewrite (get_image_bounds_closed _ _ O1). reflexivity.
Qed.

End Orchestration.

(** X4: the guard of [change_detection] only tests that the two index
    files exist.  When both exist but one of them is not a raster that GDAL
    opens, [change_detection] raises [AttributeError] before any
    collaborator is called: nothing is printed and no file is touched. *)
Theorem change_detection_unreadable_index ext self w :
  is_Some (files w !! ndvi self) -> is_Some (files w !! last_ndvi self) ->
  open_dataset (files w) (ndvi self) = None \/
  open_dataset (files w) (last_ndvi self) = None ->
  change_detection ext self w = (Raise AttributeError, w) /\
  new_events w (change_detection ext self w) = [].
Proof.
  intros F1 F2 H. rewrite (change_detection_not_raster ext self w F1 F2 H).
  split; [reflexivity|]. unfold new_events. cbn [snd]. apply drop_all.
Qed.

Lemma change_detection_unreadable_index_witness :
  (is_Some (files ex_unreadable_prior !! ndvi ex_self) /\
   is_Some (files ex_unreadable_prior !! last_ndvi ex_self) /\
   (open_dataset (files ex_unreadable_prior) (ndvi ex_self) = None \/
    open_dataset (files ex_unreadable_prior) (last_ndvi ex_self) = None)) /\
  change_detection ext_ok ex_self ex_unreadable_prior = (Raise AttributeError, ex_unreadable_prior) /\
  new_events ex_unreadable_prior (change_detection ext_ok ex_self ex_unreadable_prior) = [].
Proof.
  assert (F1 : is_Some (files ex_unreadable_prior !! ndvi ex_self)) by (vm_compute; eexists; reflexivity).
  assert (F2 : is_Some (files ex_unreadable_prior !! last_ndvi ex_self)) by (vm_compute; eexists; reflexivity).
  assert (H : open_dataset (files ex_unreadable_prior) (last_ndvi ex_self) = None) by reflexivity.
  split.
  - split; [exact F1|]. split; [exact F2|]. right. exact H.
  - apply (change_detection_unreadable_index ext_ok ex_self ex_unreadable_prior F1 F2).
    right. exact H.
Defined.

(** X5: for two present index rasters, [change_detection] runs the calls
    of its plan (subtraction, preceded by the two warps when the extents
    differ, then mask, sieve, polygonize and the GeoJSON conversion) in
    order and stops at the first one that raises.  Either every call
    returned, and the events of the run are the whole plan followed by the
    message that the detection was created; or the call at some position k
    raised x, and then [change_detection] raises x, its events are exactly
    the first k + 1 calls of the plan, no later call is made and the message
    is not printed. *)
Theorem change_detection_stops_at_failure ext self w current prior :
  indices_open self w current prior ->
  exists plan,
    plan = (if extent_eq (extent_of_dataset current) (extent_of_dataset prior)
            then direct_plan self
            else warp_plan self (intersection_bounds (extent_of_dataset current)
                                                     (extent_of_dataset prior))) /\
    ((fst (change_detection ext self w) = Ok tt /\
      new_events w (change_detection ext self w) =
        plan ++ [EPrint ("Change detection created in " +:+ detection_geojson self)]) \/
     (exists k e x fs,
        plan !! k = Some e /\ fst (ext e fs) = Raise x /\
        fst (change_detection ext self w) = Raise x /\
        new_events w (change_detection ext self w) = take (S k) plan)).
Proof.
  intros [H1 H2]. eexists. split; [reflexivity|].
  rewrite (change_detection_run ext self w current prior H1 H2).
  apply run_plan_result.
Qed.

Lemma change_detection_stops_at_failure_witness :
  indices_open ex_self (ex_scenes (ex_index 0 0.5) (ex_index 5 0.75))
               (ex_index 0 0.5) (ex_index 5 0.75) /\
  exists plan,
    plan = (if extent_eq (extent_of_dataset (ex_index 0 0.5)) (extent_of_dataset (ex_index 5 0.75))
            then direct_plan ex_self
            else warp_plan ex_self (intersection_bounds (extent_of_dataset (ex_index 0 0.5))
                                                        (extent_of_dataset (ex_index 5 0.75)))) /\
    ((fst (change_detection ext_subtract_fails ex_self
             (ex_scenes (ex_index 0 0.5) (ex_index 5 0.75))) = Ok tt /\
      new_events (ex_scenes (ex_index 0 0.5) (ex_index 5 0.75))
        (change_detection ext_subtract_fails ex_self
           (ex_scenes (ex_index 0 0.5) (ex_index 5 0.75))) =
        plan ++ [EPrint ("Change detection created in " +:+ detection_geojson ex_self)]) \/
     (exists k e x fs,
        plan !! k = Some e /\ fst (ext_subtract_fails e fs) = Raise x /\
        fst (change_detection ext_subtract_fails ex_self
               (ex_scenes (ex_index 0 0.5) (ex_index 5 0.75))) = Raise x /\
        new_events (ex_scenes (ex_index 0 0.5) (ex_index 5 0.75))
          (change_detection ext_subtract_fails ex_self
             (ex_scenes (ex_index 0 0.5) (ex_index 5 0.75))) = take (S k) plan)).
Proof.
  assert (O : indices_open ex_self (ex_scenes (ex_index 0 0.5) (ex_index 5 0.75))
                (ex_index 0 0.5) (ex_index 5 0.75)) by (split; reflexivity).
  split; [exact O|].
  exact (change_detection_stops_at_failure ext_subtract_fails ex_self _ _ _ O).
Defined.

(** X6: [change_detection] changes the file system only through its
    collaborators: every property of the file system that each collaborator
    call preserves still holds after [change_detection], whatever its
    outcome; with collaborators that leave the files alone, the file system
    is the one it started from. *)
Theorem change_detection_files_through_collaborators
    ext self w (Inv : gmap string file -> Prop) :
  (forall e fs, Inv fs -> Inv (snd (ext e fs))) ->
  Inv (files w) ->
  Inv (files (snd (change_detection ext self w))).
Proof. intros Hext Hw. apply change_detection_invariant; assumption. Qed.

Lemma change_detection_files_through_collaborators_witness :
  ((forall e fs, fs = files (ex_scenes (ex_index 0 0.5) (ex_index 5 0.75)) ->
                 snd (ext_ok e fs) = files (ex_scenes (ex_index 0 0.5) (ex_index 5 0.75))) /\
   files (ex_scenes (ex_index 0 0.5) (ex_index 5 0.75)) =
     files (ex_scenes (ex_index 0 0.5) (ex_index 5 0.75))) /\
  files (snd (change_detection ext_ok ex_self (ex_scenes (ex_index 0 0.5) (ex_index 5 0.75)))) =
    files (ex_scenes (ex_index 0 0.5) (ex_index 5 0.75)).
Proof.
  assert (Hext : forall e fs, fs = files (ex_scenes (ex_index 0 0.5) (ex_index 5 0.75)) ->
                 snd (ext_ok e fs) = files (ex_scenes (ex_index 0 0.5) (ex_index 5 0.75)))
    by (intros e fs H; exact H).
  split.
  - split; [exact Hext|reflexivity].
  - exact (change_detection_files_through_collaborators ext_ok ex_self
             (ex_scenes (ex_index 0 0.5) (ex_index 5 0.75))
             (fun fs => fs = files (ex_scenes (ex_index 0 0.5) (ex_index 5 0.75)))
             Hext eq_refl).
Defined.

(** ** Effects and failures of [make_ndvi] *)

Lemma update_dataset_frame out f w path :
  path <> out ->
  files (snd (update_dataset out f w)) !! path = files w !! path.
Proof.
  intros Hne. unfold update_dataset.
  destruct (files w !! out) as [[ds| |]|]; cbn [snd files]; try reflexivity.
  apply lookup_insert_ne. congruence.
Qed.

Lemma update_dataset_ok out f w : fst (update_dataset out f w) = Ok tt.
Proof. unfold update_dataset. destruct (files w !! out) as [[ds| |]|]; reflexivity. Qed.

Lemma update_dataset_trace out f w : trace (snd (update_dataset out f w)) = trace w.
Proof. unfold update_dataset. destruct (files w !! out) as [[ds| |]|]; reflexivity. Qed.

Lemma pixel_loop_raises red_tuple nir_tuple b6_tuple bqa_tuple indices : forall acc e,
  pixel_loop red_tuple nir_tuple b6_tuple bqa_tuple indices acc = Raise e -> e = IndexError.
Proof.
  induction indices as [|i rest IH]; intros acc e; cbn [pixel_loop]; munfold; [discriminate|].
  destruct (ndvi_at red_tuple nir_tuple b6_tuple bqa_tuple i) as [v|x] eqn:E.
  - apply IH.
  - intros [= <-]. revert E. unfold ndvi_at, py_index. munfold.
    repeat match goal with
           | |- context [match ?l !! i with _ => _ end] => destruct (l !! i)
           | |- context [if ?c then _ else _] => destruct c
           end; congruence.
Qed.

Lemma line_loop_frame red_band nir_band b6_band bqa_band out lines : forall w,
  (forall path, path <> out ->
     files (snd (line_loop red_band nir_band b6_band bqa_band out lines w)) !! path
       = files w !! path) /\
  trace (snd (line_loop red_band nir_band b6_band bqa_band out lines w)) = trace w /\
  (forall e, fst (line_loop red_band nir_band b6_band bqa_band out lines w) = Raise e ->
     e = IndexError \/ e = RasterReadError).
Proof.
  induction lines as [|line rest IH]; intros w.
  - cbn. split; [auto|]. split; [reflexivity|discriminate].
  - cbn [line_loop]. munfold. unfold ReadRaster.
    assert (Hstop : forall x : exn, x = IndexError \/ x = RasterReadError ->
              (forall path, path <> out ->
                 files (snd (@Raise unit x, w)) !! path = files w !! path) /\
              trace (snd (@Raise unit x, w)) = trace w /\
              (forall e, fst (@Raise unit x, w) = Raise e -> e = IndexError \/ e = RasterReadError)).
    { intros x Hx. split; [auto|]. split; [reflexivity|]. intros e [= <-]. exact Hx. }
    destruct (pixels red_band !! line) as [rr|]; [|apply Hstop; auto].
    destruct (pixels nir_band !! line) as [rn|]; [|apply Hstop; auto].
    destruct (pixels b6_band !! line) as [rg|]; [|apply Hstop; auto].
    destruct (pixels bqa_band !! line) as [rq|]; [|apply Hstop; auto].
    destruct (pixel_loop rr rn rg rq (seq 0 (length rr)) []) as [outputLine|x] eqn:E;
      [|apply Hstop; left; exact (pixel_loop_raises _ _ _ _ _ _ _ E)].
    unfold WriteRaster.
    pose proof (update_dataset_ok out (fun ds => set_pixels (<[line := outputLine]> (pixels ds)) ds) w) as Hok.
    pose proof (update_dataset_trace out (fun ds => set_pixels (<[line := outputLine]> (pixels ds)) ds) w) as Htr.
    pose proof (update_dataset_frame out (fun ds => set_pixels (<[line := outputLine]> (pixels ds)) ds) w) as Hfr.
    destruct (update_dataset out _ w) as [r w1]. cbn [fst snd] in Hok, Htr, Hfr. subst r.
    destruct (IH w1) as (F & T & R). split; [|split].
    + intros path Hne. rewrite F by exact Hne. apply Hfr, Hne.
    + rewrite T. exact Htr.
    + exact R.
Qed.

Section IndexEffects.
Context (ext : collaborators) (self : Process).

Lemma make_ndvi_effects w :
  (forall path, path <> ndvi self ->
     files (snd (make_ndvi ext self w)) !! path
       = files (snd (make_ref_toa ext self w)) !! path) /\
  (forall e, fst (make_ndvi ext self w) = Raise e ->
     fst (make_ref_toa ext self w) = Raise e \/ e = IndexError \/ e = RasterReadError \/
     (e = AttributeError /\
      files (snd (make_ref_toa ext self w)) !! ndvi self = Some LockedFile)).
Proof.
  remember (make_ndvi ext self w) as r eqn:Hr.
  unfold make_ndvi in Hr. unfold mbind at 1, M_bind at 1 in Hr.
  destruct (make_ref_toa ext self w) as [[[]|x] w1]; cbn [fst snd];
    [|subst r; split; [intros; reflexivity|intros e He; injection He as <-; auto]].
  unfold gdal_Open in Hr. revert Hr. munfold.
  destruct (open_dataset (files w1) (b4_toa self)) as [red_band|];
    [|intros ->; split; [intros; reflexivity|discriminate]].
  destruct (open_dataset (files w1) (b5_toa self)) as [nir_band|];
    [|intros ->; split; [intros; reflexivity|discriminate]].
  destruct (open_dataset (files w1) (b6_toa self)) as [b6_band|];
    [|intros ->; split; [intros; reflexivity|discriminate]].
  destruct (open_dataset (files w1) (bqa self)) as [bqa_band|];
    [|intros ->; split; [intros; reflexivity|discriminate]].
  destruct (can_create_cases (files w1) (ndvi self)) as [Hlocked|Hcreate].
  { rewrite (driver_Create_locked _ _ _ _ Hlocked). intros ->.
    split; [intros; reflexivity|]. intros e He. injection He as <-. auto. }
  rewrite (driver_Create_run _ _ _ _ Hcreate).
  unfold SetGeoTransform, SetProjection.
  rewrite (update_dataset_run _ _ _ _ (lookup_insert_eq _ _ _)). cbn [files trace].
  rewrite insert_insert_eq.
  rewrite (update_dataset_run _ _ _ _ (lookup_insert_eq _ _ _)). cbn [files trace].
  rewrite insert_insert_eq.
  match goal with
  | |- context [line_loop ?a ?b ?c ?d ?o ?l ?w0] =>
      destruct (line_loop_frame a b c d o l w0) as (F & T & R);
      destruct (line_loop a b c d o l w0) as [[[]|x] w2]; cbn [fst snd files] in *
  end.
  - intros ->. split; [|discriminate]. intros path Hne. cbn [snd print files].
    rewrite F by exact Hne. apply lookup_insert_ne. congruence.
  - intros ->. split.
    + intros path Hne. cbn [snd]. rewrite F by exact Hne. apply lookup_insert_ne. congruence.
    + intros e He. injection He as <-. destruct (R x eq_refl) as [->| ->]; auto.
Qed.

End IndexEffects.

(** X7: [make_ndvi] writes to no file but the index raster: whatever its
    outcome (completion, unopened datasets, an exception midway, a failed
    calibration), every path other than [self.ndvi] holds after [make_ndvi]
    what it held when the calibration step [make_ref_toa] had run. *)
Theorem make_ndvi_touches_only_index ext self w path :
  path <> ndvi self ->
  files (snd (make_ndvi ext self w)) !! path = files (snd (make_ref_toa ext self w)) !! path.
Proof. intros Hne. apply (proj1 (make_ndvi_effects ext self w)), Hne. Qed.

Lemma make_ndvi_touches_only_index_witness :
  b4_toa ex_self <> ndvi ex_self /\
  files (snd (make_ndvi ext_ok ex_self (ex_bands ex_nir))) !! b4_toa ex_self =
    files (snd (make_ref_toa ext_ok ex_self (ex_bands ex_nir))) !! b4_toa ex_self.
Proof.
  assert (Hne : b4_toa ex_self <> ndvi ex_self) by discriminate.
  split; [exact Hne|].
  exact (make_ndvi_touches_only_index ext_ok ex_self (ex_bands ex_nir) (b4_toa ex_self) Hne).
Defined.



(** X19: when the four rasters open but the index raster cannot be
    created, [driver.Create] returns [None] and the unguarded
    [outDataset.SetGeoTransform] raises [AttributeError]: nothing is
    written and nothing is printed. *)
Theorem make_ndvi_create_fails ext self w w1 red_band nir_band b6_band bqa_band :
  make_ref_toa ext self w = (Ok tt, w1) ->
  open_dataset (files w1) (b4_toa self) = Some red_band ->
  open_dataset (files w1) (b5_toa self) = Some nir_band ->
  open_dataset (files w1) (b6_toa self) = Some b6_band ->
  open_dataset (files w1) (bqa self) = Some bqa_band ->
  files w1 !! ndvi self = Some LockedFile ->
  make_ndvi ext self w = (Raise AttributeError, w1).
Proof.
  intros Htoa H4 H5 H6 Hqa Hlocked.
  unfold make_ndvi. unfold mbind at 1, M_bind at 1. rewrite Htoa.
  unfold gdal_Open. munfold. rewrite H4, H5, H6, Hqa.
  rewrite (driver_Create_locked _ _ _ _ Hlocked). reflexivity.
Qed.

Lemma make_ndvi_create_fails_witness :
  (make_ref_toa ext_ok ex_self ex_locked_index
     = (Ok tt, printed "MTL file not found" ex_locked_index) /\
   open_dataset (files (printed "MTL file not found" ex_locked_index)) (b4_toa ex_self)
     = Some ex_red /\
   open_dataset (files (printed "MTL file not found" ex_locked_index)) (b5_toa ex_self)
     = Some ex_nir /\
   open_dataset (files (printed "MTL file not found" ex_locked_index)) (b6_toa ex_self)
     = Some ex_b6 /\
   open_dataset (files (printed "MTL file not found" ex_locked_index)) (bqa ex_self)
     = Some ex_bqa /\
   files (printed "MTL file not found" ex_locked_index) !! ndvi ex_self = Some LockedFile) /\
  make_ndvi ext_ok ex_self ex_locked_index
    = (Raise AttributeError, printed "MTL file not found" ex_locked_index).
Proof.
  split.
  - repeat split; reflexivity.
  - apply (make_ndvi_create_fails ext_ok ex_self ex_locked_index
             (printed "MTL file not found" ex_locked_index) ex_red ex_nir ex_b6 ex_bqa);
      reflexivity.
Defined.

Lemma line_loop_app red_band nir_band b6_band bqa_band out pre post : forall w,
  line_loop red_band nir_band b6_band bqa_band out (pre ++ post) w =
  match line_loop red_band nir_band b6_band bqa_band out pre w with
  | (Ok _, w') => line_loop red_band nir_band b6_band bqa_band out post w'
  | (Raise e, w') => (Raise e, w')
  end.
Proof.
  induction pre as [|line rest IH]; intros w; [reflexivity|].
  cbn [app line_loop]. munfold.
  destruct (ReadRaster red_band line) as [rr|]; [|reflexivity].
  destruct (ReadRaster nir_band line) as [rn|]; [|reflexivity].
  destruct (ReadRaster b6_band line) as [rg|]; [|reflexivity].
  destruct (ReadRaster bqa_band line) as [rq|]; [|reflexivity].
  destruct (pixel_loop rr rn rg rq (seq 0 (length rr)) []) as [outputLine|]; [|reflexivity].
  destruct (WriteRaster out line outputLine w) as [[[]|x] w1]; [apply IH|reflexivity].
Qed.

Lemma line_loop_rows red_band nir_band b6_band bqa_band out :
  wf_dataset red_band -> wf_dataset nir_band -> wf_dataset b6_band -> wf_dataset bqa_band ->
  (RasterXSize red_band <= RasterXSize nir_band)%nat ->
  (RasterXSize red_band <= RasterXSize b6_band)%nat ->
  (RasterXSize red_band <= RasterXSize bqa_band)%nat ->
  forall lines w o,
    files w !! out = Some (RasterFile o) ->
    Forall (fun line => (line < RasterYSize red_band)%nat /\ (line < RasterYSize nir_band)%nat /\
                        (line < RasterYSize b6_band)%nat /\ (line < RasterYSize bqa_band)%nat)
           lines ->
    line_loop red_band nir_band b6_band bqa_band out lines w =
      (Ok tt,
       {| files := <[out := RasterFile
                       (set_pixels
                          (foldl (fun rows line =>
                                    <[line := index_line red_band nir_band b6_band bqa_band line]> rows)
                                 (pixels o) lines) o)]> (files w);
          trace := trace w |}).
Proof.
  intros Wr Wn Wg Wq Cnx Cgx Cqx.
  induction lines as [|line rest IH]; intros w o Hout Hall.
  - cbn [line_loop foldl]. rewrite set_pixels_id, insert_id by exact Hout.
    destruct w; reflexivity.
  - apply Forall_cons in Hall as [(Hr & Hn & Hg & Hq) Hrest]. cbn [line_loop foldl].
    destruct (wf_row red_band line Wr Hr) as (rr & Hrr & Lr).
    destruct (wf_row nir_band line Wn Hn) as (rn & Hrn & Ln).
    destruct (wf_row b6_band line Wg Hg) as (rg & Hrg & Lg).
    destruct (wf_row bqa_band line Wq Hq) as (rq & Hrq & Lq).
    unfold ReadRaster. rewrite Hrr, Hrn, Hrg, Hrq. munfold.
    rewrite pixel_loop_run by (try lia; apply Forall_forall; intros i Hi;
                                apply elem_of_seq in Hi; lia).
    cbn [app]. unfold WriteRaster. rewrite (update_dataset_run _ _ _ _ Hout).
    rewrite (IH _ _ (lookup_insert_eq _ _ _) Hrest).
    cbn [files trace]. rewrite insert_insert_eq. do 4 f_equal.
    unfold set_pixels. cbn [pixels RasterXSize RasterYSize GeoTransform Projection].
    do 2 f_equal. unfold index_line. rewrite Lr. f_equal. apply map_ext. intros i.
    rewrite (px_row _ _ _ i Hrr), (px_row _ _ _ i Hrn), (px_row _ _ _ i Hrg), (px_row _ _ _ i Hrq).
    reflexivity.
Qed.

Lemma wf_no_row ds line :
  wf_dataset ds -> (RasterYSize ds <= line)%nat -> ReadRaster ds line = Raise RasterReadError.
Proof.
  intros [Hlen _] Hge. unfold ReadRaster. rewrite lookup_ge_None_2 by lia. reflexivity.
Qed.

Lemma line_loop_short red_band nir_band b6_band bqa_band out line rest w :
  wf_dataset nir_band -> wf_dataset b6_band -> wf_dataset bqa_band ->
  (RasterYSize nir_band <= line)%nat \/ (RasterYSize b6_band <= line)%nat \/
  (RasterYSize bqa_band <= line)%nat ->
  line_loop red_band nir_band b6_band bqa_band out (line :: rest) w = (Raise RasterReadError, w).
Proof.
  intros Wn Wg Wq H. cbn [line_loop]. munfold.
  assert (Hread : forall ds, ReadRaster ds line = Raise RasterReadError \/
                             exists row, ReadRaster ds line = Ok row).
  { intros ds. unfold ReadRaster. destruct (pixels ds !! line); eauto. }
  destruct (Hread red_band) as [->|[rr ->]]; [reflexivity|].
  destruct (Hread nir_band) as [->|[rn En]]; [reflexivity|].
  destruct (Hread b6_band) as [Eg|[rg Eg]]; [rewrite En, Eg; reflexivity|].
  destruct (Hread bqa_band) as [Eq|[rq Eq]]; [rewrite En, Eg, Eq; reflexivity|].
  exfalso. destruct H as [H|[H|H]].
  - rewrite (wf_no_row _ _ Wn H) in En. discriminate.
  - rewrite (wf_no_row _ _ Wg H) in Eg. discriminate.
  - rewrite (wf_no_row _ _ Wq H) in Eq. discriminate.
Qed.

(** X9: an input band with fewer scanlines than the red band.  When the
    near-infrared, B6 and quality bands are at least as wide as the red band
    and the shortest of them has k scanlines, k below the height of the red
    band, [make_ndvi] raises the read error at line k, after the index
    raster has been created over the grid of the red band and its lines
    0 .. k-1 written: those lines hold the index as Float32 samples
    ([index_line]), the lines from k on are still zero, and the message
    that the index was created is not printed. *)
Theorem make_ndvi_short_band ext self w w1 red_band nir_band b6_band bqa_band k :
  bands_open ext self w w1 red_band nir_band b6_band bqa_band ->
  (RasterXSize red_band <= RasterXSize nir_band)%nat ->
  (RasterXSize red_band <= RasterXSize b6_band)%nat ->
  (RasterXSize red_band <= RasterXSize bqa_band)%nat ->
  k = (RasterYSize nir_band `min` (RasterYSize b6_band `min` RasterYSize bqa_band))%nat ->
  (k < RasterYSize red_band)%nat ->
  exists w2 out,
    make_ndvi ext self w = (Raise RasterReadError, w2) /\
    trace w2 = trace w1 /\
    open_dataset (files w2) (ndvi self) = Some out /\
    RasterXSize out = RasterXSize red_band /\
    RasterYSize out = RasterYSize red_band /\
    GeoTransform out = GeoTransform red_band /\
    (forall line, (line < k)%nat ->
       pixels out !! line = Some (index_line red_band nir_band b6_band bqa_band line)) /\
    (forall line, (k <= line < RasterYSize red_band)%nat ->
       pixels out !! line = Some (replicate (RasterXSize red_band) 0%float)).
Proof.
  intros (Htoa & H4 & H5 & H6 & Hqa & Wr & Wn & Wg & Wq & Hcreate) Cn Cg Cq Hk Hlt.
  unfold make_ndvi. unfold mbind at 1, M_bind at 1. rewrite Htoa.
  unfold gdal_Open. munfold. rewrite H4, H5, H6, Hqa.
  rewrite (driver_Create_run _ _ _ _ Hcreate).
  unfold SetGeoTransform, SetProjection.
  rewrite (update_dataset_run _ _ _ _ (lookup_insert_eq _ _ _)). cbn [files trace].
  rewrite insert_insert_eq.
  rewrite (update_dataset_run _ _ _ _ (lookup_insert_eq _ _ _)). cbn [files trace].
  rewrite insert_insert_eq.
  assert (Hseq : seq 0 (RasterYSize red_band) = seq 0 k ++ seq k (RasterYSize red_band - k)).
  { change k with (0 + k)%nat at 2. rewrite <- seq_app. f_equal. lia. }
  rewrite Hseq, line_loop_app.
  rewrite (line_loop_rows red_band nir_band b6_band bqa_band (ndvi self) Wr Wn Wg Wq Cn Cg Cq
             _ _ _ (lookup_insert_eq _ _ _))
    by (apply Forall_forall; intros i Hi; apply elem_of_seq in Hi; lia).
  cbn [files trace]. rewrite insert_insert_eq.
  destruct (RasterYSize red_band - k)%nat as [|n] eqn:En; [lia|]. cbn [seq].
  match goal with
  | |- context [line_loop _ _ _ _ _ (k :: ?rest) ?w0] =>
      rewrite (line_loop_short red_band nir_band b6_band bqa_band (ndvi self) k rest w0
                 Wn Wg Wq ltac:(lia))
  end.
  eexists _, _. split; [reflexivity|]. cbn [files trace].
  split; [reflexivity|]. split; [apply open_after_insert|].
  unfold set_pixels, set_projection, set_geotransform.
  cbn [pixels RasterXSize RasterYSize GeoTransform Projection].
  split; [reflexivity|]. split; [reflexivity|]. split; [reflexivity|]. split.
  - intros line Hl. rewrite foldl_insert_lookup.
    rewrite decide_True; [reflexivity|].
    split; [apply elem_of_seq; lia|rewrite length_replicate; lia].
  - intros line Hl. rewrite foldl_insert_lookup.
    rewrite decide_False by (intros [Hin _]; apply elem_of_seq in Hin; lia).
    apply lookup_replicate_2. lia.
Qed.

Lemma make_ndvi_short_band_witness :
  (bands_open ext_ok ex_self ex_tall_bands (printed "MTL file not found" ex_tall_bands)
              ex_red_tall ex_nir ex_b6_tall ex_bqa_tall /\
   (RasterXSize ex_red_tall <= RasterXSize ex_nir)%nat /\
   (RasterXSize ex_red_tall <= RasterXSize ex_b6_tall)%nat /\
   (RasterXSize ex_red_tall <= RasterXSize ex_bqa_tall)%nat /\
   1%nat = (RasterYSize ex_nir `min` (RasterYSize ex_b6_tall `min` RasterYSize ex_bqa_tall))%nat /\
   (1 < RasterYSize ex_red_tall)%nat) /\
  exists w2 out,
    make_ndvi ext_ok ex_self ex_tall_bands = (Raise RasterReadError, w2) /\
    trace w2 = trace (printed "MTL file not found" ex_tall_bands) /\
    open_dataset (files w2) (ndvi ex_self) = Some out /\
    RasterXSize out = RasterXSize ex_red_tall /\
    RasterYSize out = RasterYSize ex_red_tall /\
    GeoTransform out = GeoTransform ex_red_tall /\
    (forall line, (line < 1)%nat ->
       pixels out !! line = Some (index_line ex_red_tall ex_nir ex_b6_tall ex_bqa_tall line)) /\
    (forall line, (1 <= line < RasterYSize ex_red_tall)%nat ->
       pixels out !! line = Some (replicate (RasterXSize ex_red_tall) 0%float)).
Proof.
  assert (B : bands_open ext_ok ex_self ex_tall_bands (printed "MTL file not found" ex_tall_bands)
                ex_red_tall ex_nir ex_b6_tall ex_bqa_tall).
  { repeat split; try reflexivity; try (intros H; vm_compute in H; discriminate);
      repeat constructor. }
  assert (C1 : (RasterXSize ex_red_tall <= RasterXSize ex_nir)%nat) by (cbn; lia).
  assert (C2 : (RasterXSize ex_red_tall <= RasterXSize ex_b6_tall)%nat) by (cbn; lia).
  assert (C3 : (RasterXSize ex_red_tall <= RasterXSize ex_bqa_tall)%nat) by (cbn; lia).
  assert (K : 1%nat = (RasterYSize ex_nir `min` (RasterYSize ex_b6_tall `min` RasterYSize ex_bqa_tall))%nat)
    by reflexivity.
  assert (L : (1 < RasterYSize ex_red_tall)%nat) by (cbn; lia).
  split.
  - repeat (split; [assumption|]). assumption.
  - exact (make_ndvi_short_band ext_ok ex_self ex_tall_bands
             (printed "MTL file not found" ex_tall_bands)
             ex_red_tall ex_nir ex_b6_tall ex_bqa_tall 1%nat B C1 C2 C3 K L).
Defined.

(** ** Sign of the index *)

(** Difference of two positive finite numbers: its sign is that of the
    larger operand, its magnitude at most the larger operand. *)
Lemma SFsub_pos_sign ma ea mb eb :
  canon ma ea -> ea <= 971 -> canon mb eb -> eb <= 971 ->
  let r := SF64sub (S754_finite false ma ea) (S754_finite false mb eb) in
  ((F2R (Zpos mb) eb <= F2R (Zpos ma) ea)%R ->
   r = S754_zero false \/
   exists m e, r = S754_finite false m e /\ (F2R (Zpos m) e <= F2R (Zpos ma) ea)%R) /\
  ((F2R (Zpos ma) ea <= F2R (Zpos mb) eb)%R ->
   r = S754_zero false \/ r = S754_zero true \/
   exists m e, r = S754_finite true m e /\ (F2R (Zpos m) e <= F2R (Zpos mb) eb)%R).
Proof.
  intros Ha Hea Hb Heb. unfold SF64sub, SFsub. cbn [cond_Zopp].
  set (ez := Z.min ea eb).
  pose proof (shl_align_le_F2R ma ea ez ltac:(lia)) as HA.
  pose proof (shl_align_le_F2R mb eb ez ltac:(lia)) as HB.
  set (pa := fst (shl_align ma ea ez)) in *. set (pb := fst (shl_align mb eb ez)) in *.
  pose proof (F2R_pos ma ea) as Hpa. pose proof (F2R_pos mb eb) as Hpb.
  assert (Hd : F2R (Zpos pa - Zpos pb) ez = (F2R (Zpos ma) ea - F2R (Zpos mb) eb)%R).
  { rewrite <- HA, <- HB. unfold F2R. rewrite minus_IZR. ring. }
  destruct (Zpos pa - Zpos pb) as [|p|p] eqn:E; cbn [binary_normalize].
  - split; intros _; auto.
  - pose proof (F2R_pos p ez) as Hp. split; intros Hord.
    + destruct (binary_round_upper false p ez ma ea Ha Hea ltac:(lra) ltac:(lia))
        as [Hz|(m & e & Hr & Hle)]; [left; exact Hz|right; exists m, e; auto].
    + exfalso. lra.
  - assert (Hn : F2R (Zpos p) ez = (F2R (Zpos mb) eb - F2R (Zpos ma) ea)%R).
    { unfold F2R in *. change (Zneg p) with (- Zpos p) in Hd. rewrite opp_IZR in Hd. lra. }
    pose proof (F2R_pos p ez) as Hp. split; intros Hord.
    + exfalso. lra.
    + destruct (binary_round_upper true p ez mb eb Hb Heb ltac:(lra) ltac:(lia))
        as [Hz|(m & e & Hr & Hle)]; [right; left; exact Hz|right; right; exists m, e; auto].
Qed.

Lemma SF_sign_nonneg (x : float) :
  (exists s, Prim2SF x = S754_zero s) \/ (exists m e, Prim2SF x = S754_finite false m e) ->
  (0 <=? x)%float = true.
Proof.
  intros H. rewrite FloatAxioms.leb_spec. change (Prim2SF 0) with (S754_zero false).
  destruct H as [[s ->]|(m & e & ->)]; [destruct s|]; reflexivity.
Qed.

Lemma SF_sign_nonpos (x : float) :
  (exists s, Prim2SF x = S754_zero s) \/ (exists m e, Prim2SF x = S754_finite true m e) ->
  (x <=? 0)%float = true.
Proof.
  intros H. rewrite FloatAxioms.leb_spec. change (Prim2SF 0) with (S754_zero false).
  destruct H as [[s ->]|(m & e & ->)]; [destruct s|]; reflexivity.
Qed.

(** The sign of the normalized difference of two finite non-negative
    floats follows the order of its operands. *)
Lemma ratio_sign (nir red : float) :
  finite_nonneg nir -> finite_nonneg red ->
  (nir + red =? 0)%float = true \/
  (((red <=? nir)%float = true -> (0 <=? (nir - red) / (nir + red))%float = true) /\
   ((nir <=? red)%float = true -> ((nir - red) / (nir + red) <=? 0)%float = true)).
Proof.
  intros Hn Hr.
  apply finite_nonneg_SF in Hn, Hr.
  destruct Hn as [[sn Hn]|(mn & en & Hn & Hcn & Hen)];
    destruct Hr as [[sr Hr]|(mr & er & Hr & Hcr & Her)].
  - left. rewrite FloatAxioms.eqb_spec, add_spec, Hn, Hr. destruct sn, sr; reflexivity.
  - right. split; intros Hord.
    + rewrite FloatAxioms.leb_spec, Hn, Hr in Hord. discriminate.
    + apply SF_sign_nonpos. rewrite div_spec, sub_spec, add_spec, Hn, Hr.
      cbn [SF64sub SFsub SF64add SFadd negb].
      destruct (SFdiv_le_one true mr er false mr er (Rle_refl _)) as [Hz|(m & e & Hd & Hle)].
      * left. eexists. exact Hz.
      * right. do 2 eexists. exact Hd.
  - right. split; intros Hord.
    + apply SF_sign_nonneg. rewrite div_spec, sub_spec, add_spec, Hn, Hr.
      cbn [SF64sub SFsub SF64add SFadd negb].
      destruct (SFdiv_le_one false mn en false mn en (Rle_refl _)) as [Hz|(m & e & Hd & Hle)].
      * left. eexists. exact Hz.
      * right. do 2 eexists. exact Hd.
    + rewrite FloatAxioms.leb_spec, Hn, Hr in Hord. discriminate.
  - right.
    pose proof (SFadd_pos_lower mn en mr er Hcn Hcr) as Hadd.
    pose proof (SFsub_pos_sign mn en mr er Hcn Hen Hcr Her) as [Hge Hle].
    cbv zeta in Hadd, Hge, Hle.
    split; intros Hord; rewrite FloatAxioms.leb_spec, Hn, Hr in Hord.
    + apply SF_sign_nonneg. rewrite div_spec, sub_spec, add_spec, Hn, Hr.
      specialize (Hge (SFleb_pos_F2R _ _ _ _ Hcr Hcn Hord)).
      destruct Hge as [->|(mu & eu & -> & Hu)].
      * left. destruct Hadd as [->|(ml & el & -> & _)]; eexists; reflexivity.
      * destruct Hadd as [->|(ml & el & -> & Hl1 & Hl2)]; [left; eexists; reflexivity|].
        destruct (SFdiv_le_one false mu eu false ml el ltac:(lra)) as [Hz|(m & e & Hd & _)].
        -- left. eexists. exact Hz.
        -- right. do 2 eexists. exact Hd.
    + apply SF_sign_nonpos. rewrite div_spec, sub_spec, add_spec, Hn, Hr.
      specialize (Hle (SFleb_pos_F2R _ _ _ _ Hcn Hcr Hord)).
      destruct Hle as [->|[->|(mu & eu & -> & Hu)]].
      * left. destruct Hadd as [->|(ml & el & -> & _)]; eexists; reflexivity.
      * left. destruct Hadd as [->|(ml & el & -> & _)]; eexists; reflexivity.
      * destruct Hadd as [->|(ml & el & -> & Hl1 & Hl2)]; [left; eexists; reflexivity|].
        destruct (SFdiv_le_one true mu eu false ml el ltac:(lra)) as [Hz|(m & e & Hd & _)].
        -- left. eexists. exact Hz.
        -- right. do 2 eexists. exact Hd.
Qed.

Lemma spec_index_sign quality gate nir red :
  finite_nonneg red -> finite_nonneg nir ->
  ((red <=? nir)%float = true -> (0 <=? spec_index quality gate nir red)%float = true) /\
  ((nir <=? red)%float = true -> (spec_index quality gate nir red <=? 0)%float = true).
Proof.
  intros Fr Fn. unfold spec_index.
  destruct (py_in quality invalidCodes); [split; reflexivity|].
  destruct (gate <? minValidC)%float; [split; reflexivity|].
  destruct (ratio_sign nir red Fn Fr) as [Hz|Hs].
  - rewrite Hz. split; reflexivity.
  - destruct (nir + red =? 0)%float; [split; reflexivity|exact Hs].
Qed.

(** X10: the sign of the index follows the order of the two bands: for
    every pixel whose red and near-infrared samples are finite and
    non-negative, the sample [make_ndvi] writes is at least 0 when
    red <= nir and at most 0 when nir <= red (so it is zero when the two
    samples are equal); the narrowing to Float32 keeps the sign
    ([pack_f_sign]). *)
Theorem make_ndvi_sign ext self w w1 red_band nir_band b6_band bqa_band :
  bands_open ext self w w1 red_band nir_band b6_band bqa_band ->
  covers nir_band red_band -> covers b6_band red_band -> covers bqa_band red_band ->
  exists w2 out,
    make_ndvi ext self w = (Ok tt, w2) /\
    open_dataset (files w2) (ndvi self) = Some out /\
    forall line i red nir,
      sample red_band line i = Some red -> sample nir_band line i = Some nir ->
      finite_nonneg red -> finite_nonneg nir ->
      exists v, sample out line i = Some v /\
                ((red <=? nir)%float = true -> (0 <=? v)%float = true) /\
                ((nir <=? red)%float = true -> (v <=? 0)%float = true).
Proof.
  intros (Htoa & H4 & H5 & H6 & Hqa & Wr & Wn & Wg & Wq & Hcreate) Cn Cg Cq.
  eexists _, (index_raster red_band nir_band b6_band bqa_band). split; [|split].
  - apply (make_ndvi_run ext self w w1 red_band nir_band b6_band bqa_band); auto.
  - unfold printed. cbn [files]. apply open_after_insert.
  - intros line i red nir Sr Sn Fr Fn.
    destruct (sample_inside red_band line i red Wr Sr) as [Hl Hi].
    eexists. split; [apply index_raster_sample; assumption|].
    assert (Pr : px red_band line i = red) by (unfold px; rewrite Sr; reflexivity).
    assert (Pn : px nir_band line i = nir) by (unfold px; rewrite Sn; reflexivity).
    rewrite Pr, Pn.
    destruct (spec_index_sign (px bqa_band line i) (px b6_band line i) nir red Fr Fn)
      as [Hpos Hneg].
    destruct (pack_f_sign _ (spec_index_in_unit_range
                               (px bqa_band line i) (px b6_band line i) nir red Fr Fn))
      as [Ppos Pneg].
    split; intros Hord; [apply Ppos, Hpos|apply Pneg, Hneg]; exact Hord.
Qed.

Lemma make_ndvi_sign_witness :
  (bands_open ext_ok ex_self (ex_bands ex_nir) (printed "MTL file not found" (ex_bands ex_nir))
              ex_red ex_nir ex_b6 ex_bqa /\
   covers ex_nir ex_red /\ covers ex_b6 ex_red /\ covers ex_bqa ex_red) /\
  exists w2 out,
    make_ndvi ext_ok ex_self (ex_bands ex_nir) = (Ok tt, w2) /\
    open_dataset (files w2) (ndvi ex_self) = Some out /\
    forall line i red nir,
      sample ex_red line i = Some red -> sample ex_nir line i = Some nir ->
      finite_nonneg red -> finite_nonneg nir ->
      exists v, sample out line i = Some v /\
                ((red <=? nir)%float = true -> (0 <=? v)%float = true) /\
                ((nir <=? red)%float = true -> (v <=? 0)%float = true).
Proof.
  assert (W : wf_dataset ex_nir) by (split; [reflexivity|repeat constructor]).
  assert (C1 : covers ex_nir ex_red) by (split; cbn; lia).
  assert (C2 : covers ex_b6 ex_red) by (split; cbn; lia).
  assert (C3 : covers ex_bqa ex_red) by (split; cbn; lia).
  split.
  - split; [exact (ex_bands_open ex_nir W)|]. auto.
  - exact (make_ndvi_sign ext_ok ex_self (ex_bands ex_nir)
             (printed "MTL file not found" (ex_bands ex_nir)) ex_red ex_nir ex_b6 ex_bqa
             (ex_bands_open ex_nir W) C1 C2 C3).
Defined.

(** ** From the index to the detection *)

Lemma extent_of_index_raster red_band nir_band b6_band bqa_band :
  extent_of_dataset (index_raster red_band nir_band b6_band bqa_band) =
  extent_of_dataset red_band.
Proof. reflexivity. Qed.

(** X11: [make_ndvi] followed by [change_detection] (the index path
    differing from the prior index path).  Once [make_ndvi] has completed,
    [change_detection] finds the current index.  Without a prior index file
    it is skipped with its notice; with a prior index that opens, the index
    raster having the extent of the red band B4, the alignment is decided by
    comparing the extent of B4 with that of the prior index: equal extents
    give the direct plan, different ones the warp plan onto their
    intersection. *)
Theorem make_ndvi_then_change_detection ext self w w1 red_band nir_band b6_band bqa_band :
  bands_open ext self w w1 red_band nir_band b6_band bqa_band ->
  covers nir_band red_band -> covers b6_band red_band -> covers bqa_band red_band ->
  ndvi self <> last_ndvi self ->
  exists w2,
    make_ndvi ext self w = (Ok tt, w2) /\
    (files w1 !! last_ndvi self = None ->
     change_detection ext self w2 =
       (Ok tt, printed "Change detection was not executed because some NDVI image is missing."
                 w2)) /\
    (forall prior, open_dataset (files w1) (last_ndvi self) = Some prior ->
       change_detection ext self w2 =
         run_plan ext self
           (if extent_eq (extent_of_dataset red_band) (extent_of_dataset prior)
            then direct_plan self
            else warp_plan self (intersection_bounds (extent_of_dataset red_band)
                                                     (extent_of_dataset prior)))
           w2).
Proof.
  intros (Htoa & H4 & H5 & H6 & Hqa & Wr & Wn & Wg & Wq & Hcreate) Cn Cg Cq Hne.
  eexists. split.
  - apply (make_ndvi_run ext self w w1 red_band nir_band b6_band bqa_band); auto.
  - unfold printed at 1 3. cbn [files]. split.
    + intros Hnone. apply change_detection_skip. right. cbn [files printed].
      rewrite lookup_insert_ne by exact Hne. exact Hnone.
    + intros prior Hprior.
      rewrite <- (extent_of_index_raster red_band nir_band b6_band bqa_band).
      apply change_detection_run; cbn [files printed].
      * apply open_after_insert.
      * unfold open_dataset. rewrite lookup_insert_ne by exact Hne. exact Hprior.
Qed.

Lemma make_ndvi_then_change_detection_witness :
  (bands_open ext_ok ex_self (ex_bands_with_prior (ex_index 0 0.5))
              (printed "MTL file not found" (ex_bands_with_prior (ex_index 0 0.5)))
              ex_red ex_nir ex_b6 ex_bqa /\
   covers ex_nir ex_red /\ covers ex_b6 ex_red /\ covers ex_bqa ex_red /\
   ndvi ex_self <> last_ndvi ex_self) /\
  exists w2,
    make_ndvi ext_ok ex_self (ex_bands_with_prior (ex_index 0 0.5)) = (Ok tt, w2) /\
    (files (printed "MTL file not found" (ex_bands_with_prior (ex_index 0 0.5)))
       !! last_ndvi ex_self = None ->
     change_detection ext_ok ex_self w2 =
       (Ok tt, printed "Change detection was not executed because some NDVI image is missing."
                 w2)) /\
    (forall prior,
       open_dataset (files (printed "MTL file not found" (ex_bands_with_prior (ex_index 0 0.5))))
                    (last_ndvi ex_self) = Some prior ->
       change_detection ext_ok ex_self w2 =
         run_plan ext_ok ex_self
           (if extent_eq (extent_of_dataset ex_red) (extent_of_dataset prior)
            then direct_plan ex_self
            else warp_plan ex_self (intersection_bounds (extent_of_dataset ex_red)
                                                        (extent_of_dataset prior)))
           w2).
Proof.
  assert (B : bands_open ext_ok ex_self (ex_bands_with_prior (ex_index 0 0.5))
                (printed "MTL file not found" (ex_bands_with_prior (ex_index 0 0.5)))
                ex_red ex_nir ex_b6 ex_bqa).
  { repeat split; try reflexivity; try (intros H; vm_compute in H; discriminate);
      repeat constructor. }
  assert (C1 : covers ex_nir ex_red) by (split; cbn; lia).
  assert (C2 : covers ex_b6 ex_red) by (split; cbn; lia).
  assert (C3 : covers ex_bqa ex_red) by (split; cbn; lia).
  assert (Hne : ndvi ex_self <> last_ndvi ex_self) by discriminate.
  split.
  - split; [exact B|]. auto.
  - exact (make_ndvi_then_change_detection ext_ok ex_self _ _ ex_red ex_nir ex_b6 ex_bqa
             B C1 C2 C3 Hne).
Defined.

(** ** File names ([get_file]) *)

Lemma append_nil (y : string) : EmptyString +:+ y = y.
Proof. reflexivity. Qed.

Lemma append_cons c (x y : string) : String c x +:+ y = String c (x +:+ y).
Proof. reflexivity. Qed.

Lemma has_char_app c x y : has_char c (x +:+ y) = has_char c x || has_char c y.
Proof.
  induction x as [|d x IH]; [reflexivity|]. rewrite ?append_cons, ?append_nil; cbn [has_char].
  rewrite IH, orb_assoc. reflexivity.
Qed.

Lemma rfind_from_absent c s : forall pos last,
  has_char c s = false -> rfind_from c s pos last = last.
Proof.
  induction s as [|d s IH]; intros pos last H; [reflexivity|].
  cbn [has_char] in H. apply orb_false_iff in H as [Hd Hs].
  cbn [rfind_from]. rewrite Hd. apply IH, Hs.
Qed.

Lemma rfind_from_last c x b : forall pos last,
  has_char c b = false ->
  rfind_from c (x +:+ String c b) pos last = pos + Z.of_nat (String.length x).
Proof.
  induction x as [|d x IH]; intros pos last H.
  - rewrite ?append_cons, ?append_nil; cbn [rfind_from String.length]. rewrite Ascii.eqb_refl.
    rewrite rfind_from_absent by exact H. lia.
  - rewrite ?append_cons, ?append_nil; cbn [rfind_from String.length]. rewrite IH by exact H. lia.
Qed.

Lemma py_slice_from_app x y : py_slice_from (x +:+ y) (String.length x) = y.
Proof.
  induction x as [|d x IH]; rewrite ?append_cons, ?append_nil; cbn [String.length py_slice_from].
  - destruct y; reflexivity.
  - exact IH.
Qed.

Lemma py_slice_from_0 s : py_slice_from s 0 = s.
Proof. destruct s; reflexivity. Qed.

Lemma has_char_split c s :
  has_char c s = true ->
  exists x b, s = x +:+ String c b /\ has_char c b = false.
Proof.
  induction s as [|d s IH]; [discriminate|]. cbn [has_char]. intros H.
  destruct (has_char c s) eqn:Hs.
  - destruct (IH eq_refl) as (x & b & -> & Hb). exists (String d x), b. auto.
  - rewrite orb_false_r in H. apply Ascii.eqb_eq in H. subst d.
    exists EmptyString, s. auto.
Qed.

Lemma get_file_after_slash x b :
  has_char "/" b = false -> get_file (x +:+ String "/" b) = b.
Proof.
  intros H. unfold get_file, py_rfind. rewrite rfind_from_last by exact H.
  replace (Z.to_nat (0 + Z.of_nat (String.length x) + 1)) with (String.length (x +:+ "/")).
  - replace (x +:+ String "/" b) with ((x +:+ "/") +:+ b).
    + apply py_slice_from_app.
    + induction x as [|d x IH]; [reflexivity|]. rewrite ?append_cons, ?append_nil. rewrite IH. reflexivity.
  - induction x as [|d x IH]; [reflexivity|]. rewrite ?append_cons, ?append_nil; cbn [String.length]. rewrite IH. lia.
Qed.

Lemma get_file_plain p : has_char "/" p = false -> get_file p = p.
Proof.
  intros H. unfold get_file, py_rfind. rewrite rfind_from_absent by exact H.
  apply py_slice_from_0.
Qed.

Lemma ends_with_slash a :
  String.eqb (String.substring (String.length a - 1) 1 a) "/" = true ->
  exists a', a = a' +:+ "/".
Proof.
  induction a as [|c a IH]; [discriminate|].
  cbn [String.length]. rewrite Nat.sub_succ, Nat.sub_0_r.
  destruct a as [|c' a].
  - cbn. intros H. destruct (Ascii.eqb_spec c "/") as [->|Hne]; [|discriminate].
    exists EmptyString. reflexivity.
  - cbn [String.length String.substring]. cbn [String.length] in IH.
    rewrite Nat.sub_succ, Nat.sub_0_r in IH. intros H.
    destruct (IH H) as [a' Ha]. exists (String c a'). rewrite ?append_cons, ?append_nil. rewrite <- Ha. reflexivity.
Qed.

Lemma prefix_slash b : String.prefix "/" b = true -> has_char "/" b = true.
Proof.
  destruct b as [|c b]; [discriminate|]. cbn [String.prefix has_char].
  destruct (ascii_dec "/" c) as [<-|Hne]; [reflexivity|discriminate].
Qed.

Lemma app_assoc_slash x b : (x +:+ "/") +:+ b = x +:+ String "/" b.
Proof. induction x as [|d x IH]; [reflexivity|]. rewrite ?append_cons, ?append_nil. rewrite IH. reflexivity. Qed.

Lemma string_app_assoc (x y z : string) : (x +:+ y) +:+ z = x +:+ (y +:+ z).
Proof. induction x as [|d x IH]; [reflexivity|]. rewrite ?append_cons, ?append_nil. rewrite IH. reflexivity. Qed.

Lemma get_file_no_slash path : has_char "/" (get_file path) = false.
Proof.
  destruct (has_char "/" path) eqn:H.
  - destruct (has_char_split _ _ H) as (x & b & -> & Hb).
    rewrite (get_file_after_slash x b Hb). exact Hb.
  - rewrite (get_file_plain path H). exact H.
Qed.

(** X12: [get_file] undoes [os.path.join]: for every directory [a] and
    every name [b] without a slash, [get_file(os.path.join(a, b))] is [b]. *)
Theorem get_file_join a b :
  has_char "/" b = false -> get_file (os_path_join a b) = b.
Proof.
  intros H. unfold os_path_join.
  destruct (String.prefix "/" b) eqn:Hp.
  - apply prefix_slash in Hp. congruence.
  - destruct (String.eqb a EmptyString) eqn:Ha; cbn [orb].
    + apply String.eqb_eq in Ha. subst a. apply get_file_plain, H.
    + destruct (String.eqb (String.substring (String.length a - 1) 1 a) "/") eqn:Hs.
      * destruct (ends_with_slash a Hs) as [a' ->]. rewrite app_assoc_slash.
        apply get_file_after_slash, H.
      * change (a +:+ "/" +:+ b) with (a +:+ String "/" b). apply get_file_after_slash, H.
Qed.

Lemma get_file_join_witness :
  has_char "/" "LC82200682014017LGN00_B4.TIF" = false /\
  get_file (os_path_join "/ls/temp/LC82200682014017LGN00" "LC82200682014017LGN00_B4.TIF")
    = "LC82200682014017LGN00_B4.TIF".
Proof.
  split; [reflexivity|].
  apply (get_file_join "/ls/temp/LC82200682014017LGN00" "LC82200682014017LGN00_B4.TIF").
  reflexivity.
Defined.

(** X13: [get_file] returns the last component of the path: the result
    holds no slash, and the path is the result preceded by a directory part
    that is empty or ends with a slash (so a path ending with a slash has
    the empty name). *)
Theorem get_file_is_last_component path :
  has_char "/" (get_file path) = false /\
  exists dir, path = dir +:+ get_file path /\
              (dir = EmptyString \/ exists d, dir = d +:+ "/").
Proof.
  split; [apply get_file_no_slash|].
  destruct (has_char "/" path) eqn:H.
  - destruct (has_char_split _ _ H) as (x & b & -> & Hb).
    rewrite (get_file_after_slash x b Hb).
    exists (x +:+ "/"). split; [symmetry; apply app_assoc_slash|]. right. exists x. reflexivity.
  - rewrite (get_file_plain path H).
    exists EmptyString. split; [reflexivity|]. left. reflexivity.
Qed.

(** ** The calendar of [datetime.date] *)

Lemma check_year_days_sound year fuel : forall start n,
  check_year_days year fuel start = true -> start <= n < start + Z.of_nat fuel ->
  let '(m, d) := month_and_day year n (is_leap year) in
  days_before_month year m + d = n + 1 /\ 1 <= m <= 12 /\ 1 <= d <= 31.
Proof.
  induction fuel as [|fuel IH]; intros start n Hchk Hn; [lia|].
  cbn [check_year_days] in Hchk. apply andb_true_iff in Hchk as [Hhere Hrest].
  destruct (Z.eq_dec n start) as [->|Hne].
  - destruct (month_and_day year start (is_leap year)) as [m d].
    repeat (apply andb_true_iff in Hhere as [Hhere ?]). lia.
  - apply (IH (start + 1)); [exact Hrest|lia].
Qed.

Lemma check_leap_year : check_year_days 2000 365 0 = true.
Proof. vm_compute. reflexivity. Qed.

Lemma check_common_year : check_year_days 2001 365 0 = true.
Proof. vm_compute. reflexivity. Qed.

Lemma days_in_month_leap year rep m :
  is_leap year = is_leap rep -> days_in_month year m = days_in_month rep m.
Proof. intros H. unfold days_in_month. rewrite H. reflexivity. Qed.

Lemma days_before_month_leap year rep m :
  is_leap year = is_leap rep -> days_before_month year m = days_before_month rep m.
Proof. intros H. unfold days_before_month. rewrite H. reflexivity. Qed.

Lemma month_and_day_leap year rep n leap :
  is_leap year = is_leap rep -> month_and_day year n leap = month_and_day rep n leap.
Proof.
  intros H. unfold month_and_day. rewrite (days_in_month_leap year rep _ H). reflexivity.
Qed.

(** Month and day of the day [n] of any year. *)
Lemma month_and_day_spec year n :
  0 <= n < 365 ->
  let '(m, d) := month_and_day year n (is_leap year) in
  days_before_month year m + d = n + 1 /\ 1 <= m <= 12 /\ 1 <= d <= 31.
Proof.
  intros Hn. destruct (is_leap year) eqn:L.
  - assert (H : is_leap year = is_leap 2000) by (rewrite L; reflexivity).
    pose proof (check_year_days_sound 2000 365 0 n check_leap_year ltac:(lia)) as Hc.
    rewrite (month_and_day_leap year 2000 n true H).
    change true with (is_leap 2000) at 1.
    destruct (month_and_day 2000 n (is_leap 2000)) as [m d].
    rewrite (days_before_month_leap year 2000 m H). exact Hc.
  - assert (H : is_leap year = is_leap 2001) by (rewrite L; reflexivity).
    pose proof (check_year_days_sound 2001 365 0 n check_common_year ltac:(lia)) as Hc.
    rewrite (month_and_day_leap year 2001 n false H).
    change false with (is_leap 2001) at 1.
    destruct (month_and_day 2001 n (is_leap 2001)) as [m d].
    rewrite (days_before_month_leap year 2001 m H). exact Hc.
Qed.

Lemma is_leap_cycle a b c d :
  0 <= a -> 0 <= b <= 3 -> 0 <= c <= 24 -> 0 <= d <= 3 ->
  is_leap (a * 400 + 1 + b * 100 + c * 4 + d) = (d =? 3) && (negb (c =? 24) || (b =? 3)).
Proof.
  intros Ha Hb Hc Hd. unfold is_leap.
  destruct (Z.eqb_spec d 3) as [E1|E1]; destruct (Z.eqb_spec c 24) as [E2|E2];
    destruct (Z.eqb_spec b 3) as [E3|E3];
    destruct (Z.eqb_spec ((a * 400 + 1 + b * 100 + c * 4 + d) mod 4) 0) as [M4|M4];
    destruct (Z.eqb_spec ((a * 400 + 1 + b * 100 + c * 4 + d) mod 100) 0) as [M100|M100];
    destruct (Z.eqb_spec ((a * 400 + 1 + b * 100 + c * 4 + d) mod 400) 0) as [M400|M400];
    cbn; try reflexivity; exfalso;
    revert M4 M100 M400; Z.div_mod_to_equations; lia.
Qed.

Lemma days_before_year_cycle a b c d :
  0 <= a -> 0 <= b <= 3 -> 0 <= c <= 24 -> 0 <= d <= 3 ->
  days_before_year (a * 400 + 1 + b * 100 + c * 4 + d) =
    146097 * a + 36524 * b + 1461 * c + 365 * d.
Proof.
  intros Ha Hb Hc Hd. unfold days_before_year.
  replace (a * 400 + 1 + b * 100 + c * 4 + d - 1) with (a * 400 + b * 100 + c * 4 + d) by lia.
  Z.div_mod_to_equations. lia.
Qed.

Lemma days_before_year_next year :
  1 <= year ->
  days_before_year (year + 1) = days_before_year year + (if is_leap year then 366 else 365).
Proof.
  intros Hy. unfold days_before_year, is_leap.
  replace (year + 1 - 1) with year by lia.
  destruct (Z.eqb_spec (year mod 4) 0) as [M4|M4];
    destruct (Z.eqb_spec (year mod 100) 0) as [M100|M100];
    destruct (Z.eqb_spec (year mod 400) 0) as [M400|M400]; cbn;
    revert M4 M100 M400; Z.div_mod_to_equations; lia.
Qed.

(** [ord_to_ymd] inverts [ymd_to_ord]: the date it yields has the day
    number it came from, and lies in the year containing that day. *)
Lemma ord_to_ymd_spec o :
  1 <= o ->
  let '(y, m, d) := ord_to_ymd o in
  ymd_to_ord y m d = o /\ 1 <= y /\ 1 <= m <= 12 /\ 1 <= d <= 31 /\
  days_before_year y < o <= days_before_year (y + 1).
Proof.
  intros Ho. unfold ord_to_ymd.
  pose proof (Z.div_mod (o - 1) 146097 ltac:(lia)) as E400.
  pose proof (Z.mod_pos_bound (o - 1) 146097 ltac:(lia)) as B400.
  assert (Q400 : 0 <= (o - 1) / 146097) by (apply Z.div_pos; lia).
  set (q400 := (o - 1) / 146097) in *. set (r400 := (o - 1) mod 146097) in *.
  pose proof (Z.div_mod r400 36524 ltac:(lia)) as E100.
  pose proof (Z.mod_pos_bound r400 36524 ltac:(lia)) as B100.
  assert (Q100 : 0 <= r400 / 36524) by (apply Z.div_pos; lia).
  set (q100 := r400 / 36524) in *. set (r100 := r400 mod 36524) in *.
  pose proof (Z.div_mod r100 1461 ltac:(lia)) as E4.
  pose proof (Z.mod_pos_bound r100 1461 ltac:(lia)) as B4.
  assert (Q4 : 0 <= r100 / 1461) by (apply Z.div_pos; lia).
  set (q4 := r100 / 1461) in *. set (r4 := r100 mod 1461) in *.
  pose proof (Z.div_mod r4 365 ltac:(lia)) as E1.
  pose proof (Z.mod_pos_bound r4 365 ltac:(lia)) as B1.
  assert (Q1 : 0 <= r4 / 365) by (apply Z.div_pos; lia).
  set (q1 := r4 / 365) in *. set (r1 := r4 mod 365) in *.
  clearbody q400 r400 q100 r100 q4 r4 q1 r1.
  destruct ((q1 =? 4) || (q100 =? 4)) eqn:Hend.
  - (* the last day of a leap year *)
    assert (Hy : exists a b c d, 0 <= a /\ 0 <= b <= 3 /\ 0 <= c <= 24 /\ 0 <= d <= 3 /\
                   q400 * 400 + 1 + q100 * 100 + q4 * 4 + q1 - 1 = a * 400 + 1 + b * 100 + c * 4 + d /\
                   146097 * a + 36524 * b + 1461 * c + 365 * d + 366 = o /\
                   d = 3 /\ (c <> 24 \/ b = 3)).
    { apply orb_true_iff in Hend as [H|H]; apply Z.eqb_eq in H.
      - exists q400, q100, q4, 3. lia.
      - exists q400, 3, 24, 3. lia. }
    destruct Hy as (a & b & c & d & Ha & Hb & Hc & Hd & -> & Hord & Hd3 & Hcb).
    assert (Hleap : is_leap (a * 400 + 1 + b * 100 + c * 4 + d) = true).
    { rewrite is_leap_cycle by lia. subst d. cbn.
      destruct (Z.eqb_spec c 24); destruct (Z.eqb_spec b 3); cbn; try reflexivity. lia. }
    unfold ymd_to_ord, days_before_month. rewrite Hleap.
    rewrite days_before_year_next by lia. rewrite Hleap.
    rewrite days_before_year_cycle by lia.
    change (nth (Z.to_nat 12) days_before_month_table 0) with 334.
    change (2 <? 12) with true. cbn [andb]. lia.
  - apply orb_false_iff in Hend as [H1 H100]. apply Z.eqb_neq in H1, H100.
    assert (Hb : 0 <= q100 <= 3) by lia. assert (Hc : 0 <= q4 <= 24) by lia.
    assert (Hd : 0 <= q1 <= 3) by lia.
    rewrite <- (is_leap_cycle q400 q100 q4 q1 Q400 Hb Hc Hd).
    set (year := q400 * 400 + 1 + q100 * 100 + q4 * 4 + q1).
    pose proof (month_and_day_spec year r1 B1) as Hmd.
    destruct (month_and_day year r1 (is_leap year)) as [m d].
    destruct Hmd as (Hpos & Hm & Hdd).
    pose proof (days_before_year_cycle q400 q100 q4 q1 Q400 Hb Hc Hd) as Hdby.
    fold year in Hdby. assert (Hyear : 1 <= year) by (unfold year; lia). clearbody year.
    unfold ymd_to_ord. rewrite days_before_year_next by exact Hyear. rewrite Hdby.
    destruct (is_leap year); lia.
Qed.

Lemma days_before_year_mono y1 y2 :
  1 <= y1 -> y1 <= y2 -> days_before_year y1 <= days_before_year y2.
Proof.
  intros H1 H2. unfold days_before_year. Z.div_mod_to_equations. lia.
Qed.

(** The year of a day number is at least 1900 exactly from 1900-01-01 on,
    and at most 9999 up to the last supported day. *)
Lemma ord_to_ymd_year o :
  1 <= o ->
  let '(y, m, d) := ord_to_ymd o in
  (1900 <= y <-> 693596 <= o) /\ (o <= MAXORDINAL -> y <= 9999).
Proof.
  intros Ho. pose proof (ord_to_ymd_spec o Ho) as H.
  destruct (ord_to_ymd o) as [[y m] d]. destruct H as (_ & Hy & _ & _ & Hlo & Hhi).
  split; [split|].
  - intros Hge. pose proof (days_before_year_mono 1900 y ltac:(lia) Hge) as Hm.
    change (days_before_year 1900) with 693595 in Hm. lia.
  - intros Hge. destruct (Z_lt_le_dec y 1900) as [Hlt|Hok]; [|exact Hok].
    pose proof (days_before_year_mono (y + 1) 1900 ltac:(lia) ltac:(lia)) as Hm.
    change (days_before_year 1900) with 693595 in Hm. lia.
  - intros Hmax. destruct (Z_lt_le_dec 9999 y) as [Hgt|Hok]; [|lia].
    pose proof (days_before_year_mono 10000 y ltac:(lia) ltac:(lia)) as Hm.
    change (days_before_year 10000) with 3652059 in Hm. unfold MAXORDINAL in Hmax. lia.
Qed.

(** ** Date strings *)

Lemma digit_char_inj a b : 0 <= a < 200 -> 0 <= b < 200 -> digit_char a = digit_char b -> a = b.
Proof.
  intros Ha Hb H. unfold digit_char in H.
  apply (f_equal nat_of_ascii) in H.
  rewrite !nat_ascii_embedding in H by lia. lia.
Qed.

Lemma two_digits_inj a b :
  0 <= a < 2000 -> 0 <= b < 2000 -> two_digits a = two_digits b -> a = b.
Proof.
  intros Ha Hb H. unfold two_digits in H. injection H as H1 H0.
  apply digit_char_inj in H1; [|Z.div_mod_to_equations; lia..].
  apply digit_char_inj in H0; [|Z.div_mod_to_equations; lia..].
  Z.div_mod_to_equations. lia.
Qed.

Lemma date_fields_inj y1 m1 d1 y2 m2 d2 :
  0 <= y1 < 10000 -> 0 <= m1 < 100 -> 0 <= d1 < 100 ->
  0 <= y2 < 10000 -> 0 <= m2 < 100 -> 0 <= d2 < 100 ->
  four_digits y1 +:+ two_digits m1 +:+ two_digits d1 =
  four_digits y2 +:+ two_digits m2 +:+ two_digits d2 ->
  y1 = y2 /\ m1 = m2 /\ d1 = d2.
Proof.
  intros Hy1 Hm1 Hd1 Hy2 Hm2 Hd2 H. unfold four_digits, two_digits in H.
  rewrite ?append_cons, ?append_nil in H.
  injection H as A1 A2 A3 A4 A5 A6 A7 A8.
  assert (Hh : y1 / 100 = y2 / 100).
  { apply two_digits_inj; [Z.div_mod_to_equations; lia..|]. unfold two_digits. congruence. }
  assert (Hl : y1 mod 100 = y2 mod 100).
  { apply two_digits_inj; [Z.div_mod_to_equations; lia..|]. unfold two_digits. congruence. }
  split; [|split].
  - rewrite (Z.div_mod y1 100), (Z.div_mod y2 100) by lia. congruence.
  - apply two_digits_inj; [lia..|]. unfold two_digits. congruence.
  - apply two_digits_inj; [lia..|]. unfold two_digits. congruence.
Qed.

Lemma date_string_length o s : date_string o = inr s -> String.length s = 8%nat.
Proof.
  unfold date_string. destruct ((1 <=? o) && (o <=? MAXORDINAL)); [|discriminate].
  destruct (ord_to_ymd o) as [[y m] d]. destruct (y <? 1900); [discriminate|].
  intros [= <-]. reflexivity.
Qed.

(** A date string is produced exactly for the days from 1900-01-01 to
    9999-12-31. *)
Lemma date_string_outcome o :
  ((o < 1 \/ MAXORDINAL < o) -> date_string o = inl OverflowError) /\
  (1 <= o < FIRST_STRFTIME_ORDINAL -> date_string o = inl ValueError) /\
  (FIRST_STRFTIME_ORDINAL <= o <= MAXORDINAL -> exists s, date_string o = inr s).
Proof.
  unfold date_string, FIRST_STRFTIME_ORDINAL, MAXORDINAL.
  split; [|split]; intros Ho.
  - replace ((1 <=? o) && (o <=? 3652059)) with false; [reflexivity|].
    symmetry. apply andb_false_iff. destruct Ho; [left|right]; apply Z.leb_gt; lia.
  - replace ((1 <=? o) && (o <=? 3652059)) with true
      by (symmetry; apply andb_true_iff; split; apply Z.leb_le; lia).
    pose proof (ord_to_ymd_year o ltac:(lia)) as Hy.
    destruct (ord_to_ymd o) as [[y m] d]. destruct Hy as [Hy _].
    destruct (Z.ltb_spec y 1900); [reflexivity|]. lia.
  - replace ((1 <=? o) && (o <=? 3652059)) with true
      by (symmetry; apply andb_true_iff; split; apply Z.leb_le; lia).
    pose proof (ord_to_ymd_year o ltac:(lia)) as Hy.
    destruct (ord_to_ymd o) as [[y m] d]. destruct Hy as [Hy _].
    destruct (Z.ltb_spec y 1900); [lia|]. eexists. reflexivity.
Qed.

(** Different days have different date strings. *)
Lemma date_string_inj o1 o2 s :
  date_string o1 = inr s -> date_string o2 = inr s -> o1 = o2.
Proof.
  unfold date_string. intros H1 H2.
  destruct ((1 <=? o1) && (o1 <=? MAXORDINAL)) eqn:R1; [|discriminate].
  destruct ((1 <=? o2) && (o2 <=? MAXORDINAL)) eqn:R2; [|discriminate].
  apply andb_true_iff in R1 as [L1 U1], R2 as [L2 U2].
  apply Z.leb_le in L1, U1, L2, U2.
  pose proof (ord_to_ymd_spec o1 L1) as S1. pose proof (ord_to_ymd_year o1 L1) as Y1.
  pose proof (ord_to_ymd_spec o2 L2) as S2. pose proof (ord_to_ymd_year o2 L2) as Y2.
  destruct (ord_to_ymd o1) as [[y1 m1] d1]. destruct (ord_to_ymd o2) as [[y2 m2] d2].
  destruct (y1 <? 1900); [discriminate|]. destruct (y2 <? 1900); [discriminate|].
  injection H1 as H1. injection H2 as H2.
  destruct S1 as (E1 & ? & ? & ? & _), S2 as (E2 & ? & ? & ? & _).
  destruct Y1 as [_ Y1], Y2 as [_ Y2]. specialize (Y1 U1). specialize (Y2 U2).
  destruct (date_fields_inj y1 m1 d1 y2 m2 d2) as (-> & -> & ->); try lia; congruence.
Qed.

(** ** The constructor *)

Lemma scene_date_ordinal image back :
  scene_date (py_slice image 9 13) (py_slice image 13 16) back =
  match scene_ordinal image with
  | None => inl ValueError
  | Some o => date_string (o + 1 - back)
  end.
Proof.
  unfold scene_date, scene_ordinal.
  destruct (py_int (py_slice image 9 13)) as [y|]; [|reflexivity].
  destruct ((1 <=? y) && (y <=? 9999)); [|reflexivity].
  destruct (py_int (py_slice image 13 16)) as [d|]; [|reflexivity].
  f_equal. lia.
Qed.

(** What a successful construction computed: the day number of the
    acquisition, the two date strings and the attributes built from them. *)
Lemma init_attributes_inv home zip_image base_dir P :
  init_attributes home zip_image base_dir = inr P ->
  exists o date last_date base,
    scene_ordinal (image P) = Some o /\
    date_string o = inr date /\
    date_string (o - 16) = inr last_date /\
    image P = py_split_head "." (get_file zip_image) /\
    base = match base_dir with
           | Some (String c d) => String c d
           | _ => os_path_join home "landsat"
           end /\
    new_name P = scene_name (py_slice (image P) 0 3) (py_slice (image P) 3 6)
                            (py_slice (image P) 6 9) date (py_slice_from (image P) 16) /\
    last_image P = scene_name (py_slice (image P) 0 3) (py_slice (image P) 3 6)
                              (py_slice (image P) 6 9) last_date (py_slice_from (image P) 16) /\
    delivery_path P = os_path_join (os_path_join (os_path_join base "processed")
                                                 (py_slice (image P) 3 6))
                                   (py_slice (image P) 6 9) /\
    src_image_path P = os_path_join (os_path_join base "temp") (image P) /\
    bqa P = os_path_join (src_image_path P) (image P +:+ "_BQA.TIF") /\
    ndvi P = os_path_join (delivery_path P) (new_name P +:+ "_ndvi.tif").
Proof.
  unfold init_attributes. rewrite !scene_date_ordinal.
  destruct (scene_ordinal (py_split_head "." (get_file zip_image))) as [o|] eqn:Ho;
    [|discriminate].
  replace (o + 1 - 1) with o by lia. replace (o + 1 - 17) with (o - 16) by lia.
  destruct (date_string o) as [e|date] eqn:Hd; [discriminate|].
  destruct (date_string (o - 16)) as [e|last_date] eqn:Hl; [discriminate|].
  intros [= <-]. cbn [image new_name last_image delivery_path src_image_path bqa ndvi].
  exists o, date, last_date. eexists. repeat (split; [eassumption || reflexivity|]). reflexivity.
Qed.

(** X15: the prior scene.  For two constructed scenes with the same
    sensor, path, row and suffix fields whose acquisition days are 16 days
    apart, the [last_image] name the later scene computes is the [new_name]
    of the earlier one, and the prior index [last_ndvi] that
    [change_detection] looks for is the index file [ndvi] the earlier scene
    writes (also across a change of year). *)
Theorem last_ndvi_is_prior_scene_index home base_dir zip1 zip2 P1 P2 o :
  init_attributes home zip1 base_dir = inr P1 ->
  init_attributes home zip2 base_dir = inr P2 ->
  py_slice (image P1) 0 3 = py_slice (image P2) 0 3 ->
  py_slice (image P1) 3 6 = py_slice (image P2) 3 6 ->
  py_slice (image P1) 6 9 = py_slice (image P2) 6 9 ->
  py_slice_from (image P1) 16 = py_slice_from (image P2) 16 ->
  scene_ordinal (image P2) = Some o ->
  scene_ordinal (image P1) = Some (o + 16) ->
  last_image P1 = new_name P2 /\ last_ndvi P1 = ndvi P2.
Proof.
  intros H1 H2 Es Ep Er Ex O2 O1.
  destruct (init_attributes_inv _ _ _ _ H1)
    as (o1 & date1 & last1 & base1 & Ho1 & Hd1 & Hl1 & _ & Hb1 & Hn1 & Hi1 & Hp1 & _ & _ & _).
  destruct (init_attributes_inv _ _ _ _ H2)
    as (o2 & date2 & last2 & base2 & Ho2 & Hd2 & Hl2 & _ & Hb2 & Hn2 & Hi2 & Hp2 & _ & _ & Hv2).
  rewrite O1 in Ho1. injection Ho1 as <-. rewrite O2 in Ho2. injection Ho2 as <-.
  replace (o + 16 - 16) with o in Hl1 by lia.
  rewrite Hd2 in Hl1. injection Hl1 as <-.
  assert (Hname : last_image P1 = new_name P2).
  { rewrite Hi1, Hn2, Es, Ep, Er, Ex. reflexivity. }
  split; [exact Hname|].
  unfold last_ndvi. rewrite Hv2, Hname. f_equal.
  rewrite Hp1, Hp2, Hb1, Hb2, Ep, Er. reflexivity.
Qed.

Lemma last_ndvi_is_prior_scene_index_witness :
  (init_attributes "/home/user" "/data/LC82200682014017LGN00.tar.bz" (Some "/ls") = inr ex_self /\
   init_attributes "/home/user" "/data/LC82200682014001LGN00.tar.bz" (Some "/ls")
     = inr ex_prior_self /\
   py_slice (image ex_self) 0 3 = py_slice (image ex_prior_self) 0 3 /\
   py_slice (image ex_self) 3 6 = py_slice (image ex_prior_self) 3 6 /\
   py_slice (image ex_self) 6 9 = py_slice (image ex_prior_self) 6 9 /\
   py_slice_from (image ex_self) 16 = py_slice_from (image ex_prior_self) 16 /\
   scene_ordinal (image ex_prior_self) = Some 735234 /\
   scene_ordinal (image ex_self) = Some (735234 + 16)) /\
  last_image ex_self = new_name ex_prior_self /\ last_ndvi ex_self = ndvi ex_prior_self.
Proof.
  assert (H1 : init_attributes "/home/user" "/data/LC82200682014017LGN00.tar.bz" (Some "/ls")
               = inr ex_self) by (vm_compute; reflexivity).
  assert (H2 : init_attributes "/home/user" "/data/LC82200682014001LGN00.tar.bz" (Some "/ls")
               = inr ex_prior_self) by (vm_compute; reflexivity).
  assert (O2 : scene_ordinal (image ex_prior_self) = Some 735234) by (vm_compute; reflexivity).
  assert (O1 : scene_ordinal (image ex_self) = Some (735234 + 16)) by (vm_compute; reflexivity).
  split.
  - split; [exact H1|]. split; [exact H2|].
    split; [reflexivity|]. split; [reflexivity|]. split; [reflexivity|]. split; [reflexivity|].
    split; [exact O2|exact O1].
  - exact (last_ndvi_is_prior_scene_index "/home/user" (Some "/ls")
             "/data/LC82200682014017LGN00.tar.bz" "/data/LC82200682014001LGN00.tar.bz"
             ex_self ex_prior_self 735234 H1 H2 eq_refl eq_refl eq_refl eq_refl O2 O1).
Defined.

(** X14: which scene identifiers the constructor accepts.  With the
    identifier taken from the file name up to its first dot: if the year or
    day-of-year field is not an integer, or the year is outside 1..9999, the
    constructor raises [ValueError]; otherwise, with o the day number of the
    acquisition, it raises [OverflowError] when o is outside the calendar
    (before 0001-01-01 or after 9999-12-31), [ValueError] when o is before
    1900-01-17 (the date, or the date 16 days earlier, is in a year that
    [strftime] refuses), and succeeds from 1900-01-17 to 9999-12-31. *)
Theorem init_attributes_outcome home zip_image base_dir :
  (scene_ordinal (py_split_head "." (get_file zip_image)) = None ->
   init_attributes home zip_image base_dir = inl ValueError) /\
  (forall o, scene_ordinal (py_split_head "." (get_file zip_image)) = Some o ->
     ((o < 1 \/ MAXORDINAL < o) ->
      init_attributes home zip_image base_dir = inl OverflowError) /\
     (1 <= o < FIRST_STRFTIME_ORDINAL + 16 ->
      init_attributes home zip_image base_dir = inl ValueError) /\
     (FIRST_STRFTIME_ORDINAL + 16 <= o <= MAXORDINAL ->
      exists P, init_attributes home zip_image base_dir = inr P /\
                image P = py_split_head "." (get_file zip_image))).
Proof.
  unfold init_attributes. rewrite !scene_date_ordinal. split.
  - intros ->. reflexivity.
  - intros o ->. replace (o + 1 - 1) with o by lia. replace (o + 1 - 17) with (o - 16) by lia.
    destruct (date_string_outcome o) as (Hover & Hold & Hok).
    destruct (date_string_outcome (o - 16)) as (Hover' & Hold' & Hok').
    unfold FIRST_STRFTIME_ORDINAL, MAXORDINAL in *.
    split; [|split]; intros Ho.
    + rewrite Hover by exact Ho. reflexivity.
    + destruct (Z_lt_le_dec o 693596) as [Hlt|Hge].
      * rewrite Hold by lia. reflexivity.
      * destruct (Hok ltac:(lia)) as [date ->]. rewrite Hold' by lia. reflexivity.
    + destruct (Hok ltac:(lia)) as [date ->]. destruct (Hok' ltac:(lia)) as [last_date ->].
      eexists. split; reflexivity.
Qed.

Lemma substring_length s : forall i n,
  (i + n <= String.length s)%nat -> String.length (String.substring i n s) = n.
Proof.
  induction s as [|c s IH]; intros i n H; cbn [String.length] in H.
  - assert (i = 0%nat) by lia. assert (n = 0%nat) by lia. subst. reflexivity.
  - destruct i as [|i].
    + destruct n as [|n]; [reflexivity|]. cbn [String.substring String.length].
      rewrite IH by lia. reflexivity.
    + cbn [String.substring]. apply IH. lia.
Qed.

Lemma substring_beyond s : forall i n,
  (String.length s <= i)%nat -> String.substring i n s = EmptyString.
Proof.
  induction s as [|c s IH]; intros i n H; cbn [String.length] in H.
  - destruct i, n; reflexivity.
  - destruct i as [|i]; [lia|]. cbn [String.substring]. apply IH. lia.
Qed.

Lemma append_inj_length (a a' b b' : string) :
  String.length a = String.length a' -> a +:+ b = a' +:+ b' -> a = a' /\ b = b'.
Proof.
  revert a'. induction a as [|c a IH]; intros [|c' a'] Hlen H; try discriminate.
  - rewrite !append_nil in H. auto.
  - rewrite !append_cons in H. injection H as -> H. cbn [String.length] in Hlen.
    destruct (IH a' ltac:(lia) H) as [-> ->]. auto.
Qed.

(** A scene identifier whose day-of-year field parses has at least 14
    characters, so that its sensor, path and row fields are complete. *)
Lemma scene_ordinal_length image o :
  scene_ordinal image = Some o -> (14 <= String.length image)%nat.
Proof.
  unfold scene_ordinal. intros H.
  destruct (py_int (py_slice image 9 13)) as [y|]; [|discriminate].
  destruct ((1 <=? y) && (y <=? 9999)); [|discriminate].
  destruct (py_int (py_slice image 13 16)) as [d|] eqn:Hd; [|discriminate].
  destruct (le_lt_dec (String.length image) 13) as [Hshort|Hlong]; [|lia].
  unfold py_slice in Hd. rewrite substring_beyond in Hd by exact Hshort. discriminate.
Qed.

Lemma scene_name_inj s1 p1 r1 d1 x1 s2 p2 r2 d2 x2 :
  String.length s1 = 3%nat -> String.length p1 = 3%nat -> String.length r1 = 3%nat ->
  String.length d1 = 8%nat ->
  String.length s2 = 3%nat -> String.length p2 = 3%nat -> String.length r2 = 3%nat ->
  String.length d2 = 8%nat ->
  scene_name s1 p1 r1 d1 x1 = scene_name s2 p2 r2 d2 x2 ->
  s1 = s2 /\ p1 = p2 /\ r1 = r2 /\ d1 = d2 /\ x1 = x2.
Proof.
  intros Ls1 Lp1 Lr1 Ld1 Ls2 Lp2 Lr2 Ld2 H. unfold scene_name in H.
  rewrite !append_cons, !append_nil in H.
  apply append_inj_length in H as [-> H]; [|congruence]. injection H as H.
  apply append_inj_length in H as [-> H]; [|congruence]. injection H as H.
  apply append_inj_length in H as [-> H]; [|congruence]. injection H as H.
  apply append_inj_length in H as [-> H]; [|congruence]. injection H as H.
  auto.
Qed.

(** X16: the delivered name identifies the scene: two constructed
    scenes have the same [new_name] only if their sensor, path, row and
    suffix fields are equal and they were acquired on the same day. *)
Theorem new_name_identifies_scene home1 home2 base1 base2 zip1 zip2 P1 P2 :
  init_attributes home1 zip1 base1 = inr P1 ->
  init_attributes home2 zip2 base2 = inr P2 ->
  new_name P1 = new_name P2 ->
  py_slice (image P1) 0 3 = py_slice (image P2) 0 3 /\
  py_slice (image P1) 3 6 = py_slice (image P2) 3 6 /\
  py_slice (image P1) 6 9 = py_slice (image P2) 6 9 /\
  py_slice_from (image P1) 16 = py_slice_from (image P2) 16 /\
  scene_ordinal (image P1) = scene_ordinal (image P2).
Proof.
  intros H1 H2 Hname.
  destruct (init_attributes_inv _ _ _ _ H1)
    as (o1 & date1 & last1 & b1 & Ho1 & Hd1 & _ & _ & _ & Hn1 & _).
  destruct (init_attributes_inv _ _ _ _ H2)
    as (o2 & date2 & last2 & b2 & Ho2 & Hd2 & _ & _ & _ & Hn2 & _).
  pose proof (scene_ordinal_length _ _ Ho1) as L1.
  pose proof (scene_ordinal_length _ _ Ho2) as L2.
  rewrite Hn1, Hn2 in Hname.
  apply scene_name_inj in Hname as (Es & Ep & Er & Ed & Ex);
    try (unfold py_slice; apply substring_length; cbn; lia);
    try (eapply date_string_length; eassumption).
  repeat (split; [assumption|]).
  rewrite Ho1, Ho2. f_equal. subst date2. exact (date_string_inj o1 o2 date1 Hd1 Hd2).
Qed.

Lemma new_name_identifies_scene_witness :
  (init_attributes "/home/user" "/data/LC82200682014017LGN00.tar.bz" (Some "/ls") = inr ex_self /\
   init_attributes "/root" "LC82200682014017LGN00.tgz" (Some "/ls") = inr ex_self /\
   new_name ex_self = new_name ex_self) /\
  py_slice (image ex_self) 0 3 = py_slice (image ex_self) 0 3 /\
  py_slice (image ex_self) 3 6 = py_slice (image ex_self) 3 6 /\
  py_slice (image ex_self) 6 9 = py_slice (image ex_self) 6 9 /\
  py_slice_from (image ex_self) 16 = py_slice_from (image ex_self) 16 /\
  scene_ordinal (image ex_self) = scene_ordinal (image ex_self).
Proof.
  assert (H1 : init_attributes "/home/user" "/data/LC82200682014017LGN00.tar.bz" (Some "/ls")
               = inr ex_self) by (vm_compute; reflexivity).
  assert (H2 : init_attributes "/root" "LC82200682014017LGN00.tgz" (Some "/ls")
               = inr ex_self) by (vm_compute; reflexivity).
  split.
  - split; [exact H1|]. split; [exact H2|reflexivity].
  - exact (new_name_identifies_scene "/home/user" "/root" (Some "/ls") (Some "/ls")
             "/data/LC82200682014017LGN00.tar.bz" "LC82200682014017LGN00.tgz"
             ex_self ex_self H1 H2 eq_refl).
Defined.

(** ** Paths of a constructed scene *)

Lemma has_char_split_head c sep s :
  has_char c s = false -> has_char c (py_split_head sep s) = false.
Proof.
  induction s as [|d s IH]; [reflexivity|]. cbn [has_char py_split_head]. intros H.
  apply orb_false_iff in H as [Hd Hs].
  destruct (Ascii.eqb d sep); [reflexivity|]. cbn [has_char]. rewrite Hd, IH by exact Hs.
  reflexivity.
Qed.

Lemma has_char_substring c s : forall i n,
  has_char c s = false -> has_char c (String.substring i n s) = false.
Proof.
  induction s as [|d s IH]; intros i n H.
  - destruct i, n; reflexivity.
  - cbn [has_char] in H. apply orb_false_iff in H as [Hd Hs].
    destruct i as [|i].
    + destruct n as [|n]; [reflexivity|]. cbn [String.substring has_char].
      rewrite Hd, IH by exact Hs. reflexivity.
    + cbn [String.substring]. apply IH, Hs.
Qed.

Lemma no_slash_no_prefix b : has_char "/" b = false -> String.prefix "/" b = false.
Proof.
  intros H. destruct (String.prefix "/" b) eqn:P; [|reflexivity].
  apply prefix_slash in P. congruence.
Qed.

Lemma prefix_slash_app x y :
  has_char "/" x = false -> x <> EmptyString -> String.prefix "/" (x +:+ y) = false.
Proof.
  destruct x as [|c x]; [congruence|]. intros H _. rewrite append_cons.
  cbn [has_char] in H. apply orb_false_iff in H as [Hc _].
  cbn [String.prefix]. destruct (ascii_dec "/" c) as [<-|Hne]; [discriminate|reflexivity].
Qed.

(** The separator [os.path.join] puts after its first component. *)
Lemma os_path_join_relative a b :
  String.prefix "/" b = false ->
  os_path_join a b =
    a +:+ (if (String.eqb a EmptyString
               || String.eqb (String.substring (String.length a - 1) 1 a) "/")%bool
           then EmptyString else "/") +:+ b.
Proof.
  intros H. unfold os_path_join. rewrite H.
  destruct (String.eqb a EmptyString
            || String.eqb (String.substring (String.length a - 1) 1 a) "/")%bool; reflexivity.
Qed.

Lemma append_inj_l (x a b : string) : x +:+ a = x +:+ b -> a = b.
Proof.
  induction x as [|c x IH]; rewrite ?append_nil, ?append_cons; [auto|].
  intros H. injection H as H. auto.
Qed.

Lemma append_length (x y : string) :
  String.length (x +:+ y) = (String.length x + String.length y)%nat.
Proof.
  induction x as [|c x IH]; rewrite ?append_nil, ?append_cons; [reflexivity|].
  cbn [String.length]. rewrite IH. reflexivity.
Qed.

Lemma append_inj_r (a b x : string) : a +:+ x = b +:+ x -> a = b.
Proof.
  intros H. apply (append_inj_length a b x x); [|exact H].
  apply (f_equal String.length) in H. rewrite !append_length in H. lia.
Qed.

Lemma os_path_join_inj a b b' :
  String.prefix "/" b = false -> String.prefix "/" b' = false ->
  os_path_join a b = os_path_join a b' -> b = b'.
Proof.
  intros Hb Hb' H. rewrite (os_path_join_relative a b Hb), (os_path_join_relative a b' Hb') in H.
  apply append_inj_l in H. apply append_inj_l in H. exact H.
Qed.

(** A path built under [x] by joining relative components starts with [x]. *)
Lemma os_path_join_under a b :
  String.prefix "/" b = false -> exists rest, os_path_join a b = a +:+ rest.
Proof. intros H. rewrite (os_path_join_relative a b H). eexists. reflexivity. Qed.

Lemma scene_name_relative s p r d x :
  String.length s = 3%nat -> has_char "/" s = false ->
  forall tail, String.prefix "/" (scene_name s p r d x +:+ tail) = false.
Proof.
  intros Ls Hs tail. unfold scene_name. rewrite !string_app_assoc.
  apply prefix_slash_app; [exact Hs|]. intros ->. discriminate.
Qed.

Lemma scene_name_length s p r d x s' p' r' d' x' :
  String.length s = String.length s' -> String.length p = String.length p' ->
  String.length r = String.length r' -> String.length d = String.length d' ->
  String.length x = String.length x' ->
  String.length (scene_name s p r d x) = String.length (scene_name s' p' r' d' x').
Proof. intros. unfold scene_name. rewrite !append_length. cbn [String.length]. lia. Qed.

Section Constructed.

Context (home zip_image : string) (base_dir : option string) (P : Process).
Hypothesis Hinit : init_attributes home zip_image base_dir = inr P.

Lemma image_no_slash : has_char "/" (image P) = false.
Proof.
  destruct (init_attributes_inv _ _ _ _ Hinit) as (o & d & l & b & _ & _ & _ & -> & _).
  apply has_char_split_head, get_file_no_slash.
Qed.

Lemma image_relative tail : String.prefix "/" (image P +:+ "_" +:+ tail) = false.
Proof.
  destruct (image P) as [|c s] eqn:E; [reflexivity|]. rewrite <- E.
  apply prefix_slash_app; [apply image_no_slash|]. congruence.
Qed.

Lemma index_not_prior_index : ndvi P <> last_ndvi P.
Proof.
  destruct (init_attributes_inv _ _ _ _ Hinit)
    as (o & date & last & b & Ho & Hd & Hl & _ & _ & Hn & Hi & _ & _ & _ & Hv).
  pose proof (scene_ordinal_length _ _ Ho) as L.
  pose proof image_no_slash as Hs.
  unfold last_ndvi. rewrite Hv. intros H.
  apply os_path_join_inj in H.
  - apply append_inj_r in H. rewrite Hn, Hi in H.
    apply scene_name_inj in H as (_ & _ & _ & Hdate & _);
      try (unfold py_slice; apply substring_length; cbn; lia);
      try (eapply date_string_length; eassumption).
    subst last. pose proof (date_string_inj _ _ _ Hd Hl). lia.
  - rewrite Hn. apply scene_name_relative.
    + unfold py_slice. apply substring_length. cbn. lia.
    + apply has_char_substring, Hs.
  - rewrite Hi. apply scene_name_relative.
    + unfold py_slice. apply substring_length. cbn. lia.
    + apply has_char_substring, Hs.
Qed.

(** Working files live under [<base>/temp], deliverables under
    [<base>/processed]. *)
Lemma temp_and_processed :
  exists pre,
    (forall name, exists rest,
       os_path_join (src_image_path P) (image P +:+ "_" +:+ name) = pre +:+ "temp" +:+ rest) /\
    (forall tail, exists rest,
       os_path_join (delivery_path P) (new_name P +:+ tail) = pre +:+ "processed" +:+ rest).
Proof.
  destruct (init_attributes_inv _ _ _ _ Hinit)
    as (o & date & last & b & Ho & Hd & Hl & _ & _ & Hn & Hi & Hp & Hsrc & _ & _).
  pose proof (scene_ordinal_length _ _ Ho) as L.
  pose proof image_no_slash as Hs.
  exists (b +:+ (if (String.eqb b EmptyString
                     || String.eqb (String.substring (String.length b - 1) 1 b) "/")%bool
                 then EmptyString else "/")).
  split.
  - intros name.
    destruct (os_path_join_under (src_image_path P) (image P +:+ "_" +:+ name)
                (image_relative name)) as [r1 ->].
    rewrite Hsrc.
    destruct (os_path_join_under (os_path_join b "temp") (image P)
                (no_slash_no_prefix _ Hs)) as [r2 ->].
    rewrite (os_path_join_relative b "temp" eq_refl).
    exists (r2 +:+ r1). rewrite !string_app_assoc. reflexivity.
  - intros tail.
    assert (Hrel : String.prefix "/" (new_name P +:+ tail) = false).
    { rewrite Hn. apply scene_name_relative.
      - unfold py_slice. apply substring_length. cbn. lia.
      - apply has_char_substring, Hs. }
    destruct (os_path_join_under (delivery_path P) (new_name P +:+ tail) Hrel) as [r1 ->].
    rewrite Hp.
    destruct (os_path_join_under (os_path_join (os_path_join b "processed")
                                               (py_slice (image P) 3 6))
                (py_slice (image P) 6 9)
                (no_slash_no_prefix _ (has_char_substring _ _ _ _ Hs))) as [r2 ->].
    destruct (os_path_join_under (os_path_join b "processed") (py_slice (image P) 3 6)
                (no_slash_no_prefix _ (has_char_substring _ _ _ _ Hs))) as [r3 ->].
    rewrite (os_path_join_relative b "processed" eq_refl).
    exists (r3 +:+ r2 +:+ r1). rewrite !string_app_assoc. reflexivity.
Qed.

Lemma temp_not_processed name tail :
  os_path_join (src_image_path P) (image P +:+ "_" +:+ name) <>
  os_path_join (delivery_path P) (new_name P +:+ tail).
Proof.
  destruct temp_and_processed as (pre & Ht & Hp).
  destruct (Ht name) as [r1 ->]. destruct (Hp tail) as [r2 ->].
  intros H. apply append_inj_l in H. rewrite !append_cons in H. discriminate.
Qed.

End Constructed.

Lemma init_attributes_bands home zip_image base_dir P :
  init_attributes home zip_image base_dir = inr P ->
  b4_toa P = os_path_join (src_image_path P) (image P +:+ "_" +:+ "B4_toa.TIF") /\
  b5_toa P = os_path_join (src_image_path P) (image P +:+ "_" +:+ "B5_toa.TIF") /\
  b6_toa P = os_path_join (src_image_path P) (image P +:+ "_" +:+ "B6_toa.TIF") /\
  bqa P = os_path_join (src_image_path P) (image P +:+ "_" +:+ "BQA.TIF").
Proof.
  unfold init_attributes.
  destruct (scene_date _ _ 1) as [e|date]; [discriminate|].
  destruct (scene_date _ _ 17) as [e|last_date]; [discriminate|].
  intros [= <-]. cbn [b4_toa b5_toa b6_toa bqa src_image_path image]. auto.
Qed.

(** X17: the paths of a constructed scene do not collide: the index
    file differs from the prior index file that [change_detection] compares
    it with, the index file (under [processed]) differs from each of the
    four rasters [make_ndvi] reads (under [temp]), and the destination of
    [move_bqa] differs from its source. *)
Theorem constructed_paths_distinct home zip_image base_dir P :
  init_attributes home zip_image base_dir = inr P ->
  ndvi P <> last_ndvi P /\
  ndvi P <> b4_toa P /\ ndvi P <> b5_toa P /\ ndvi P <> b6_toa P /\ ndvi P <> bqa P /\
  bqa_delivered P <> bqa P.
Proof.
  intros Hinit.
  destruct (init_attributes_bands _ _ _ _ Hinit) as (E4 & E5 & E6 & Eq).
  destruct (init_attributes_inv _ _ _ _ Hinit)
    as (o & date & last & b & _ & _ & _ & _ & _ & _ & _ & _ & _ & _ & Hv).
  split; [exact (index_not_prior_index _ _ _ _ Hinit)|].
  unfold bqa_delivered. rewrite Hv, E4, E5, E6, Eq.
  repeat split; apply not_eq_sym; exact (temp_not_processed _ _ _ _ Hinit _ _).
Qed.

Lemma constructed_paths_distinct_witness :
  init_attributes "/home/user" "/data/LC82200682014017LGN00.tar.bz" (Some "/ls") = inr ex_self /\
  ndvi ex_self <> last_ndvi ex_self /\
  ndvi ex_self <> b4_toa ex_self /\ ndvi ex_self <> b5_toa ex_self /\
  ndvi ex_self <> b6_toa ex_self /\ ndvi ex_self <> bqa ex_self /\
  bqa_delivered ex_self <> bqa ex_self.
Proof.
  assert (H1 : init_attributes "/home/user" "/data/LC82200682014017LGN00.tar.bz" (Some "/ls")
               = inr ex_self) by (vm_compute; reflexivity).
  split; [exact H1|].
  exact (constructed_paths_distinct "/home/user" "/data/LC82200682014017LGN00.tar.bz"
           (Some "/ls") ex_self H1).
Defined.

(** ** Moving the quality band ([move_bqa]) *)

(** X18: [move_bqa] moves the quality band once.  When the BQA file
    exists (and its destination is another path), [move_bqa] returns
    normally and silently, the destination then holds the file, the source
    path is gone and every other path is untouched; a second call finds
    nothing to move: it only prints that the BQA file was not found. *)
Theorem move_bqa_moves_once self w f :
  files w !! bqa self = Some f ->
  bqa_delivered self <> bqa self ->
  exists w1,
    move_bqa self w = (Ok tt, w1) /\
    files w1 !! bqa_delivered self = Some f /\
    files w1 !! bqa self = None /\
    (forall path, path <> bqa self -> path <> bqa_delivered self ->
       files w1 !! path = files w !! path) /\
    trace w1 = trace w /\
    move_bqa self w1 = (Ok tt, printed "BQA file not found" w1).
Proof.
  intros Hf Hne. unfold move_bqa at 1. rewrite Hf. eexists. split; [reflexivity|].
  cbn [files trace].
  assert (Hgone : <[bqa_delivered self := f]> (delete (bqa self) (files w)) !! bqa self = None).
  { rewrite lookup_insert_ne by exact Hne. apply lookup_delete_eq. }
  split; [apply lookup_insert_eq|]. split; [exact Hgone|]. split; [|split; [reflexivity|]].
  - intros path H1 H2. rewrite lookup_insert_ne by congruence.
    apply lookup_delete_ne. congruence.
  - unfold move_bqa. cbn [files]. rewrite Hgone. reflexivity.
Qed.

Lemma move_bqa_moves_once_witness :
  (files (ex_bands ex_nir) !! bqa ex_self = Some (RasterFile ex_bqa) /\
   bqa_delivered ex_self <> bqa ex_self) /\
  exists w1,
    move_bqa ex_self (ex_bands ex_nir) = (Ok tt, w1) /\
    files w1 !! bqa_delivered ex_self = Some (RasterFile ex_bqa) /\
    files w1 !! bqa ex_self = None /\
    (forall path, path <> bqa ex_self -> path <> bqa_delivered ex_self ->
       files w1 !! path = files (ex_bands ex_nir) !! path) /\
    trace w1 = trace (ex_bands ex_nir) /\
    move_bqa ex_self w1 = (Ok tt, printed "BQA file not found" w1).
Proof.
  assert (Hf : files (ex_bands ex_nir) !! bqa ex_self = Some (RasterFile ex_bqa)) by reflexivity.
  assert (Hne : bqa_delivered ex_self <> bqa ex_self) by discriminate.
  split; [split; [exact Hf|exact Hne]|].
  exact (move_bqa_moves_once ex_self (ex_bands ex_nir) (RasterFile ex_bqa) Hf Hne).
Defined.
